(** * Key-cabinet access controller (Arduino Mega + ESP8266)

    Shallow embedding of [TP_ARDUINO_CHAVES_DAVI_ANDRE.ino]: the card ledger
    kept in EEPROM, the session window, the key-panel scan, the telemetry
    send over the ESP8266 serial link and the enrollment routine.

    Every function of the sketch that is embedded keeps its name and works by
    explicit state passing on [Mundo], a record holding the globals of the
    sketch together with the devices it drives. *)

From Stdlib Require Import ZArith String Ascii List Lia Bool DecimalString.
From stdpp Require Import gmap strings list.

Open Scope string_scope.
Open Scope Z_scope.

(** [w |> f |> g] reads like two statements executed one after the other. *)
Notation "w |> f" := (f w) (at level 45, left associativity, only parsing).

(* ====================================================================== *)
(** * 1. Arduino core: integers, [String], libc                            *)
(* ====================================================================== *)

Module Arduino.

Definition HIGH : bool := true.
Definition LOW : bool := false.

(** [unsigned long] is 32 bits wide on the AVR, [byte] is 8 and
    [unsigned int] is 16. *)
Definition uint32 (z : Z) : Z := z mod 4294967296.
Definition uint16 (z : Z) : Z := z mod 65536.
Definition uint8 (z : Z) : Z := z mod 256.

(** [String(n)] for an [int] or [unsigned int]: signed decimal. *)
Definition String_DEC (n : Z) : string := NilZero.string_of_int (Z.to_int n).

Definition digitoHex (d : Z) : ascii :=
  ascii_of_N (Z.to_N (if d <? 10 then 48 + d else 87 + d)).

(** [String(valor, HEX)] for a [byte]: lower-case digits, no padding. *)
Definition String_HEX (valor : Z) : string :=
  if valor <? 16 then String (digitoHex valor) ""
  else String (digitoHex (valor / 16)) (String (digitoHex (valor mod 16)) "").

Definition codigo (c : ascii) : Z := Z.of_N (N_of_ascii c).

Definition maiuscula (c : ascii) : ascii :=
  if (97 <=? codigo c) && (codigo c <=? 122)
  then ascii_of_N (Z.to_N (codigo c - 32)) else c.

Fixpoint toUpperCase (s : string) : string :=
  match s with
  | EmptyString => EmptyString
  | String c r => String (maiuscula c) (toUpperCase r)
  end.

(** [s.substring(left, right)] with [left <= right]: the characters in
    [left, right), cut at the end of [s]. *)
Definition String_substring (s : string) (left right : nat) : string :=
  substring left (right - left) s.

(** [s.indexOf(sub)]: position of the first occurrence, [-1] when none. *)
Definition indexOf (s sub : string) : Z :=
  match index 0 sub s with
  | Some n => Z.of_nat n
  | None => -1
  end.

Definition valorHex (c : ascii) : option Z :=
  let n := codigo c in
  if (48 <=? n) && (n <=? 57) then Some (n - 48)
  else if (65 <=? n) && (n <=? 70) then Some (n - 55)
  else if (97 <=? n) && (n <=? 102) then Some (n - 87)
  else None.

Fixpoint digitosHex (acc : Z) (s : string) : Z :=
  match s with
  | EmptyString => acc
  | String c r =>
      match valorHex c with
      | Some d => digitosHex (acc * 16 + d) r
      | None => acc
      end
  end.

Definition espaco (c : ascii) : bool :=
  let n := codigo c in (n =? 32) || ((9 <=? n) && (n <=? 13)).

Fixpoint pularEspacos (s : string) : string :=
  match s with
  | String c r => if espaco c then pularEspacos r else s
  | EmptyString => s
  end.

(** [strtol(s, NULL, 16)] of the C library: blanks, a sign, an optional
    [0x] and the longest run of hexadecimal digits (the clamp at
    [LONG_MAX] is left out, the sketch only passes two characters). *)
Definition strtol16 (s : string) : Z :=
  let s := pularEspacos s in
  let '(neg, s) :=
    match s with
    | String c r =>
        if (codigo c =? 45) then (true, r)
        else if (codigo c =? 43) then (false, r) else (false, s)
    | EmptyString => (false, s)
    end in
  let s :=
    match s with
    | String z (String x (String h r)) =>
        if (codigo z =? 48) && ((codigo x =? 120) || (codigo x =? 88))
           && bool_decide (is_Some (valorHex h))
        then String h r else s
    | _ => s
    end in
  let v := digitosHex 0 s in
  if neg then - v else v.

End Arduino.
Import Arduino.

(* ====================================================================== *)
(** * 2. Constants of the sketch and of the libraries it includes          *)
(* ====================================================================== *)

Definition FIREBASE_HOST : string :=
  "seguranca-de-chaves-default-rtdb.firebaseio.com".

Definition COR_PADRAO : Z := 0.
Definition COR_SUCESSO : Z := 1.
Definition COR_ERRO : Z := 2.
Definition COR_AGUARDE : Z := 3.
Definition COR_ALERTA : Z := 4.

Definition PINO_CHAVE_INICIO : Z := 25.
Definition PINO_CHAVE_FIM : Z := 26.
Definition TEMPO_LIMITE_SESSAO : Z := 10000.

(** Status codes of [Adafruit_Fingerprint.h]. *)
Definition FINGERPRINT_OK : Z := 0.
Definition FINGERPRINT_NOFINGER : Z := 2.

(** [Stream::_timeout] as the Arduino core initialises it; the sketch never
    calls [setTimeout]. *)
Definition SERIAL_TIMEOUT : Z := 1000.

Definition CRLF : string := String "013" (String "010" "").

(* ====================================================================== *)
(** * 3. The state: globals of the sketch and the devices                  *)
(* ====================================================================== *)

(** What [registrarRetirada], [registrarDevolucao] and [dispararAlarme]
    report; the log of these calls is kept next to the state. *)
Inductive Evento : Type :=
| RetiradaAutorizada (pino : Z) (idUser tipoUser : string)
| Devolucao (pino : Z)
| AlarmeRoubo (pino : Z).

(** Commands sent to the fingerprint sensor, with the status it answered. *)
Inductive Chamada : Type :=
| GetImage (p : Z)
| LoadModel (id p : Z)
| Image2Tz (slot p : Z)
| CreateModel (p : Z)
| StoreModel (id p : Z).

Record Mundo : Type := mkMundo {
  (* clock *)
  relogio : Z;                      (* millis() *)
  (* globals of the sketch *)
  sessaoAberta : bool;
  timerSessao : Z;
  idUsuarioAtual : string;
  tipoUsuarioAtual : string;
  timerMsgLCD : Z;
  msgLCDTemporaria : bool;
  estadoAnteriorChaves : list bool;
  (* devices *)
  eeprom : gmap Z Z;                (* EEPROM cells; an absent cell is erased *)
  pinoAlarme : bool;                (* level driven on PINO_ALARME *)
  visor : list (string * string * Z);  (* screens shown: line 0, line 1, colour *)
  console : list string;            (* what was printed on Serial *)
  wifiTx : list string;             (* what was written on SerialWifi *)
  wifiPendente : string;            (* bytes waiting in the SerialWifi buffer *)
  wifiRx : list (string * Z);       (* lines the modem will still deliver, each
                                       with the time its read blocks *)
  passo : nat;                      (* commands sent to the sensors so far *)
  (* logs kept for the statements *)
  eventos : list Evento;
  sensorLog : list Chamada
}.

Definition set_relogio (v : Z) (w : Mundo) : Mundo :=
  mkMundo v (sessaoAberta w) (timerSessao w) (idUsuarioAtual w)
    (tipoUsuarioAtual w) (timerMsgLCD w) (msgLCDTemporaria w)
    (estadoAnteriorChaves w) (eeprom w) (pinoAlarme w) (visor w) (console w)
    (wifiTx w) (wifiPendente w) (wifiRx w) (passo w) (eventos w) (sensorLog w).

Definition set_sessaoAberta (v : bool) (w : Mundo) : Mundo :=
  mkMundo (relogio w) v (timerSessao w) (idUsuarioAtual w)
    (tipoUsuarioAtual w) (timerMsgLCD w) (msgLCDTemporaria w)
    (estadoAnteriorChaves w) (eeprom w) (pinoAlarme w) (visor w) (console w)
    (wifiTx w) (wifiPendente w) (wifiRx w) (passo w) (eventos w) (sensorLog w).

Definition set_timerSessao (v : Z) (w : Mundo) : Mundo :=
  mkMundo (relogio w) (sessaoAberta w) v (idUsuarioAtual w)
    (tipoUsuarioAtual w) (timerMsgLCD w) (msgLCDTemporaria w)
    (estadoAnteriorChaves w) (eeprom w) (pinoAlarme w) (visor w) (console w)
    (wifiTx w) (wifiPendente w) (wifiRx w) (passo w) (eventos w) (sensorLog w).

Definition set_idUsuarioAtual (v : string) (w : Mundo) : Mundo :=
  mkMundo (relogio w) (sessaoAberta w) (timerSessao w) v
    (tipoUsuarioAtual w) (timerMsgLCD w) (msgLCDTemporaria w)
    (estadoAnteriorChaves w) (eeprom w) (pinoAlarme w) (visor w) (console w)
    (wifiTx w) (wifiPendente w) (wifiRx w) (passo w) (eventos w) (sensorLog w).

Definition set_tipoUsuarioAtual (v : string) (w : Mundo) : Mundo :=
  mkMundo (relogio w) (sessaoAberta w) (timerSessao w) (idUsuarioAtual w)
    v (timerMsgLCD w) (msgLCDTemporaria w)
    (estadoAnteriorChaves w) (eeprom w) (pinoAlarme w) (visor w) (console w)
    (wifiTx w) (wifiPendente w) (wifiRx w) (passo w) (eventos w) (sensorLog w).

Definition set_timerMsgLCD (v : Z) (w : Mundo) : Mundo :=
  mkMundo (relogio w) (sessaoAberta w) (timerSessao w) (idUsuarioAtual w)
    (tipoUsuarioAtual w) v (msgLCDTemporaria w)
    (estadoAnteriorChaves w) (eeprom w) (pinoAlarme w) (visor w) (console w)
    (wifiTx w) (wifiPendente w) (wifiRx w) (passo w) (eventos w) (sensorLog w).

Definition set_msgLCDTemporaria (v : bool) (w : Mundo) : Mundo :=
  mkMundo (relogio w) (sessaoAberta w) (timerSessao w) (idUsuarioAtual w)
    (tipoUsuarioAtual w) (timerMsgLCD w) v
    (estadoAnteriorChaves w) (eeprom w) (pinoAlarme w) (visor w) (console w)
    (wifiTx w) (wifiPendente w) (wifiRx w) (passo w) (eventos w) (sensorLog w).

Definition set_estadoAnteriorChaves (v : list bool) (w : Mundo) : Mundo :=
  mkMundo (relogio w) (sessaoAberta w) (timerSessao w) (idUsuarioAtual w)
    (tipoUsuarioAtual w) (timerMsgLCD w) (msgLCDTemporaria w)
    v (eeprom w) (pinoAlarme w) (visor w) (console w)
    (wifiTx w) (wifiPendente w) (wifiRx w) (passo w) (eventos w) (sensorLog w).

Definition set_eeprom (v : gmap Z Z) (w : Mundo) : Mundo :=
  mkMundo (relogio w) (sessaoAberta w) (timerSessao w) (idUsuarioAtual w)
    (tipoUsuarioAtual w) (timerMsgLCD w) (msgLCDTemporaria w)
    (estadoAnteriorChaves w) v (pinoAlarme w) (visor w) (console w)
    (wifiTx w) (wifiPendente w) (wifiRx w) (passo w) (eventos w) (sensorLog w).

Definition set_pinoAlarme (v : bool) (w : Mundo) : Mundo :=
  mkMundo (relogio w) (sessaoAberta w) (timerSessao w) (idUsuarioAtual w)
    (tipoUsuarioAtual w) (timerMsgLCD w) (msgLCDTemporaria w)
    (estadoAnteriorChaves w) (eeprom w) v (visor w) (console w)
    (wifiTx w) (wifiPendente w) (wifiRx w) (passo w) (eventos w) (sensorLog w).

Definition set_visor (v : list (string * string * Z)) (w : Mundo) : Mundo :=
  mkMundo (relogio w) (sessaoAberta w) (timerSessao w) (idUsuarioAtual w)
    (tipoUsuarioAtual w) (timerMsgLCD w) (msgLCDTemporaria w)
    (estadoAnteriorChaves w) (eeprom w) (pinoAlarme w) v (console w)
    (wifiTx w) (wifiPendente w) (wifiRx w) (passo w) (eventos w) (sensorLog w).

Definition set_console (v : list string) (w : Mundo) : Mundo :=
  mkMundo (relogio w) (sessaoAberta w) (timerSessao w) (idUsuarioAtual w)
    (tipoUsuarioAtual w) (timerMsgLCD w) (msgLCDTemporaria w)
    (estadoAnteriorChaves w) (eeprom w) (pinoAlarme w) (visor w) v
    (wifiTx w) (wifiPendente w) (wifiRx w) (passo w) (eventos w) (sensorLog w).

Definition set_wifiTx (v : list string) (w : Mundo) : Mundo :=
  mkMundo (relogio w) (sessaoAberta w) (timerSessao w) (idUsuarioAtual w)
    (tipoUsuarioAtual w) (timerMsgLCD w) (msgLCDTemporaria w)
    (estadoAnteriorChaves w) (eeprom w) (pinoAlarme w) (visor w) (console w)
    v (wifiPendente w) (wifiRx w) (passo w) (eventos w) (sensorLog w).

Definition set_wifiPendente (v : string) (w : Mundo) : Mundo :=
  mkMundo (relogio w) (sessaoAberta w) (timerSessao w) (idUsuarioAtual w)
    (tipoUsuarioAtual w) (timerMsgLCD w) (msgLCDTemporaria w)
    (estadoAnteriorChaves w) (eeprom w) (pinoAlarme w) (visor w) (console w)
    (wifiTx w) v (wifiRx w) (passo w) (eventos w) (sensorLog w).

Definition set_wifiRx (v : list (string * Z)) (w : Mundo) : Mundo :=
  mkMundo (relogio w) (sessaoAberta w) (timerSessao w) (idUsuarioAtual w)
    (tipoUsuarioAtual w) (timerMsgLCD w) (msgLCDTemporaria w)
    (estadoAnteriorChaves w) (eeprom w) (pinoAlarme w) (visor w) (console w)
    (wifiTx w) (wifiPendente w) v (passo w) (eventos w) (sensorLog w).

Definition set_passo (v : nat) (w : Mundo) : Mundo :=
  mkMundo (relogio w) (sessaoAberta w) (timerSessao w) (idUsuarioAtual w)
    (tipoUsuarioAtual w) (timerMsgLCD w) (msgLCDTemporaria w)
    (estadoAnteriorChaves w) (eeprom w) (pinoAlarme w) (visor w) (console w)
    (wifiTx w) (wifiPendente w) (wifiRx w) v (eventos w) (sensorLog w).

Definition set_eventos (v : list Evento) (w : Mundo) : Mundo :=
  mkMundo (relogio w) (sessaoAberta w) (timerSessao w) (idUsuarioAtual w)
    (tipoUsuarioAtual w) (timerMsgLCD w) (msgLCDTemporaria w)
    (estadoAnteriorChaves w) (eeprom w) (pinoAlarme w) (visor w) (console w)
    (wifiTx w) (wifiPendente w) (wifiRx w) (passo w) v (sensorLog w).

Definition set_sensorLog (v : list Chamada) (w : Mundo) : Mundo :=
  mkMundo (relogio w) (sessaoAberta w) (timerSessao w) (idUsuarioAtual w)
    (tipoUsuarioAtual w) (timerMsgLCD w) (msgLCDTemporaria w)
    (estadoAnteriorChaves w) (eeprom w) (pinoAlarme w) (visor w) (console w)
    (wifiTx w) (wifiPendente w) (wifiRx w) (passo w) (eventos w) v.

(** The state right after power-up on a board whose EEPROM was never
    written: every cell erased, both keys on the panel. *)
Definition mundoInicial : Mundo :=
  mkMundo 0 false 0 "" "" 0 false [LOW; LOW] ∅ false [] [] [] "" [] 0%nat [] [].

(** ** Primitive effects *)

Definition millis (w : Mundo) : Z := relogio w.

(** Time passes in [delay] and in reads that block; every other statement
    is taken as instantaneous. *)
Definition delay (ms : Z) (w : Mundo) : Mundo :=
  set_relogio (uint32 (relogio w + ms)) w.

Definition Serial_println (s : string) (w : Mundo) : Mundo :=
  set_console (console w ++ [s]) w.

Definition SerialWifi_print (s : string) (w : Mundo) : Mundo :=
  set_wifiTx (wifiTx w ++ [s]) w.

Definition SerialWifi_println (s : string) (w : Mundo) : Mundo :=
  set_wifiTx (wifiTx w ++ [s ++ CRLF]) w.

Definition registrar (e : Evento) (w : Mundo) : Mundo :=
  set_eventos (eventos w ++ [e]) w.

Definition EEPROM_read (a : Z) (w : Mundo) : Z := default 255 (eeprom w !! a).

Definition EEPROM_write (a v : Z) (w : Mundo) : Mundo :=
  set_eeprom (<[a := uint8 v]> (eeprom w)) w.

(* ====================================================================== *)
(** * 4. Display                                                           *)
(* ====================================================================== *)

(** [atualizarLCD]: the colour is selected by [corTipo], the text fills line
    0 and, past 16 columns, line 1. *)
Definition atualizarLCD (texto : string) (corTipo : Z) (w : Mundo) : Mundo :=
  if (Z.of_nat (String.length texto) <=? 16)
  then set_visor (visor w ++ [(texto, "", corTipo)]) w
  else set_visor (visor w ++ [(String_substring texto 0 16,
                                String_substring texto 16 32, corTipo)]) w.

Definition resetarLCDParaPadrao (w : Mundo) : Mundo :=
  set_visor (visor w ++ [("Aguardando...", "", COR_PADRAO)]) w.

(* ====================================================================== *)
(** * 5. Card ledger in EEPROM                                             *)
(* ====================================================================== *)

(** The inner loop of [verificarTagNaEEPROM] and [listarInfosIniciais]: the
    four bytes at [enderecoBase], each printed as two hexadecimal digits. *)
Definition doisDigitosHex (valor : Z) : string :=
  (if valor <? 16 then "0" else "") ++ String_HEX valor.

Fixpoint lerBytesHex (n : nat) (endereco : Z) (w : Mundo) : string :=
  match n with
  | O => ""
  | S n' =>
      let valor := EEPROM_read endereco w in
      doisDigitosHex valor ++ lerBytesHex n' (endereco + 1) w
  end.

Definition tagArmazenada (i : Z) (w : Mundo) : string :=
  let enderecoBase := 1 + i * 4 in
  toUpperCase (lerBytesHex 4 enderecoBase w).

(** [qtdTags] as the three functions of the ledger read it. *)
Definition lerQtdTags (w : Mundo) : Z :=
  let qtdTags := EEPROM_read 0 w in
  if qtdTags =? 255 then 0 else qtdTags.

(** The loop [for (i = ...; i < qtdTags; i++)], [n] iterations left. *)
Fixpoint procurarTag (tagLida : string) (n : nat) (i : Z) (w : Mundo) : bool :=
  match n with
  | O => false
  | S n' =>
      if String.eqb tagLida (tagArmazenada i w) then true
      else procurarTag tagLida n' (i + 1) w
  end.

Definition verificarTagNaEEPROM (tagLida : string) (w : Mundo) : bool :=
  let qtdTags := lerQtdTags w in
  procurarTag tagLida (Z.to_nat qtdTags) 0 w.

Fixpoint gravarBytes (tagHex : string) (enderecoBase : Z) (n : nat) (i : Z)
    (w : Mundo) : Mundo :=
  match n with
  | O => w
  | S n' =>
      let byteString :=
        String_substring tagHex (Z.to_nat (i * 2)) (Z.to_nat (i * 2 + 2)) in
      let valor := uint8 (strtol16 byteString) in
      gravarBytes tagHex enderecoBase n' (i + 1)
        (EEPROM_write (enderecoBase + i) valor w)
  end.

Definition salvarTagEEPROM (tagHex : string) (w : Mundo) : Mundo :=
  let qtdTags := lerQtdTags w in
  let enderecoBase := 1 + qtdTags * 4 in
  w |> gravarBytes tagHex enderecoBase 4 0
    |> EEPROM_write 0 (qtdTags + 1)
    |> Serial_println ("Tag Salva na EEPROM: " ++ tagHex).

(** The card half of [listarInfosIniciais]: the total it prints and the
    lines of the list. *)
Fixpoint listarTags (n : nat) (i : Z) (w : Mundo) : list string :=
  match n with
  | O => []
  | S n' =>
      ("  [TAG " ++ String_DEC i ++ "]: " ++ tagArmazenada i w)
        :: listarTags n' (i + 1) w
  end.

Definition listarInfosIniciais_tags (w : Mundo) : Mundo :=
  let qtdTags := lerQtdTags w in
  fold_left (fun w l => Serial_println l w)
    ([String "010" "==================================";
      "       RELATÓRIO DE CADASTROS      ";
      "==================================";
      "TOTAL TAGS RFID: " ++ String_DEC qtdTags]
     ++ listarTags (Z.to_nat qtdTags) 0 w
     ++ ["----------------------------------"]) w.

(** A card identifier as the reader hands it over for a four-byte UID:
    eight upper-case hexadecimal digits. *)
Definition digitoMaiusculo (c : ascii) : bool :=
  let n := codigo c in
  ((48 <=? n) && (n <=? 57)) || ((65 <=? n) && (n <=? 70)).

Fixpoint todosDigitos (s : string) : bool :=
  match s with
  | EmptyString => true
  | String c r => digitoMaiusculo c && todosDigitos r
  end.

Definition normalizado (s : string) : bool :=
  (String.length s =? 8)%nat && todosDigitos s.

(** The identifier of the card whose four-byte UID is the number [k]. *)
Definition tagDe (k : Z) : string :=
  toUpperCase
    (doisDigitosHex (k / 2 ^ 24 mod 256) ++ doisDigitosHex (k / 2 ^ 16 mod 256)
     ++ doisDigitosHex (k / 2 ^ 8 mod 256) ++ doisDigitosHex (k mod 256)).

(** [n] cards enrolled one after the other, starting with card [k]. *)
Fixpoint cadastrarTags (n : nat) (k : Z) (w : Mundo) : Mundo :=
  match n with
  | O => w
  | S n' => cadastrarTags n' (k + 1) (salvarTagEEPROM (tagDe k) w)
  end.

(* ====================================================================== *)
(** * 6. Telemetry over the ESP8266                                        *)
(* ====================================================================== *)

Definition aspas : string := String "034" "".

(** [SerialWifi.readStringUntil('\n')]: the next line of the modem, or the
    empty string once [SERIAL_TIMEOUT] has passed in silence. *)
Definition SerialWifi_readStringUntil (w : Mundo) : string * Mundo :=
  match wifiRx w with
  | (linha, dur) :: resto => (linha, w |> set_wifiRx resto |> delay dur)
  | [] => ("", w |> delay SERIAL_TIMEOUT)
  end.

(** The loop [while (millis() - t < 5000)] of [enviarDadosFirebase]. [None]
    stands for a loop still running when [fuel] iterations are over. *)
Fixpoint aguardarConnect (fuel : nat) (t : Z) (w : Mundo) : option bool * Mundo :=
  if uint32 (millis w - t) <? 5000 then
    match fuel with
    | O => (None, w)
    | S fuel' =>
        let '(resp, w) := SerialWifi_readStringUntil w in
        if negb (indexOf resp "CONNECT" =? -1) then (Some true, w)
        else aguardarConnect fuel' t w
    end
  else (Some false, w).

Definition comprimento (s : string) : Z := uint16 (Z.of_nat (String.length s)).

Definition cabecalhos (jsonDados : string) : string :=
  ("POST /logs.json HTTP/1.1" ++ CRLF)
  ++ ("Host: " ++ FIREBASE_HOST ++ CRLF)
  ++ ("Content-Type: application/json" ++ CRLF)
  ++ ("Content-Length: " ++ String_DEC (comprimento jsonDados) ++ CRLF ++ CRLF).

Definition comandoCIPSTART : string :=
  "AT+CIPSTART=" ++ aspas ++ "SSL" ++ aspas ++ "," ++ aspas ++ FIREBASE_HOST
  ++ aspas ++ ",443".

(** The modem delivers finitely many lines and then stays silent, so the
    wait needs at most one iteration per line and five timeouts; see
    [aguardarConnect_termina]. *)
Definition combustivelConnect (w : Mundo) : nat := (length (wifiRx w) + 5)%nat.

Definition enviarDadosFirebase (jsonDados : string) (w : Mundo) : Mundo :=
  let w := w |> Serial_println "[FIREBASE] Preparando envio de dados..."
             |> set_wifiPendente ""
             |> SerialWifi_println "AT+CIPCLOSE" |> delay 100
             |> SerialWifi_println "AT+CIPSSLSIZE=4096" |> delay 50
             |> SerialWifi_println comandoCIPSTART in
  let t := millis w in
  let '(conectado, w) := aguardarConnect (combustivelConnect w) t w in
  if bool_decide (conectado = Some true) then
    let headers := cabecalhos jsonDados in
    w |> SerialWifi_print "AT+CIPSEND="
      |> SerialWifi_println
           (String_DEC (uint16 (comprimento headers + comprimento jsonDados)))
      |> delay 200
      |> SerialWifi_print headers
      |> SerialWifi_print jsonDados
      |> Serial_println "[FIREBASE] Dados enviados com sucesso."
  else
    w |> Serial_println "[FIREBASE] Erro ao conectar com o servidor.".

Definition campo (nome : string) : string := aspas ++ nome ++ aspas ++ ":".

Definition registrarRetirada (pino : Z) (idUser tipoUser : string) (w : Mundo)
    : Mundo :=
  let json :=
    ("{" ++ campo "evento" ++ aspas ++ "RETIRADA_AUTORIZADA" ++ aspas ++ ",")
    ++ (campo "pino" ++ String_DEC pino ++ ",")
    ++ (campo "id_usuario" ++ aspas ++ idUser ++ aspas ++ ",")
    ++ (campo "tipo_auth" ++ aspas ++ tipoUser ++ aspas ++ "}") in
  w |> registrar (RetiradaAutorizada pino idUser tipoUser)
    |> Serial_println (">>> LOG: Retirada Autorizada! Pino: " ++ String_DEC pino
                       ++ " | User: " ++ idUser ++ " (" ++ tipoUser ++ ")")
    |> atualizarLCD ("Chave " ++ String_DEC pino ++ " Saiu") COR_SUCESSO
    |> enviarDadosFirebase json.

Definition registrarDevolucao (pino : Z) (w : Mundo) : Mundo :=
  let json :=
    ("{" ++ campo "evento" ++ aspas ++ "DEVOLUCAO" ++ aspas ++ ",")
    ++ (campo "pino" ++ String_DEC pino ++ "}") in
  w |> registrar (Devolucao pino)
    |> Serial_println ("<<< LOG: Devolucao detectada no Pino: " ++ String_DEC pino)
    |> atualizarLCD ("Chave " ++ String_DEC pino ++ " OK") COR_PADRAO
    |> enviarDadosFirebase json.

Definition dispararAlarme (pino : Z) (w : Mundo) : Mundo :=
  let json :=
    ("{" ++ campo "evento" ++ aspas ++ "ALARME_ROUBO" ++ aspas ++ ",")
    ++ (campo "pino" ++ String_DEC pino ++ ",")
    ++ (campo "mensagem" ++ aspas ++ "Retirada Ilegal" ++ aspas ++ "}") in
  w |> registrar (AlarmeRoubo pino)
    |> Serial_println ("!!! ALARME: Retirada nao autorizada no Pino "
                       ++ String_DEC pino ++ " !!!")
    |> atualizarLCD ("ALERTA! CHAVE " ++ String_DEC pino) COR_ERRO
    |> set_pinoAlarme HIGH
    |> enviarDadosFirebase json
    |> delay 3000
    |> set_pinoAlarme LOW
    |> resetarLCDParaPadrao.

(* ====================================================================== *)
(** * 7. Session window                                                    *)
(* ====================================================================== *)

Definition autorizarSessao (tipo id : string) (w : Mundo) : Mundo :=
  w |> set_sessaoAberta true
    |> (fun w => set_timerSessao (millis w) w)
    |> set_idUsuarioAtual id
    |> set_tipoUsuarioAtual tipo
    |> Serial_println (">>> SESSAO ABERTA | Tipo: " ++ tipo ++ " | ID: " ++ id)
    |> atualizarLCD "Pode retirar..." COR_SUCESSO.

Definition verificarTimeoutSessao (w : Mundo) : Mundo :=
  if sessaoAberta w then
    if uint32 (millis w - timerSessao w) >? TEMPO_LIMITE_SESSAO then
      w |> set_sessaoAberta false
        |> Serial_println "--- Sessao Expirou (Timeout) ---"
        |> resetarLCDParaPadrao
        |> set_idUsuarioAtual ""
    else w
  else w.

(* ====================================================================== *)
(** * 8. Key panel                                                         *)
(* ====================================================================== *)

(** The body of the loop of [monitorarPainelDeChaves] for one pin, given the
    level [digitalRead(pino)] returned. *)
Definition processarChave (pino : Z) (index : nat) (leituraAtual : bool)
    (w : Mundo) : Mundo :=
  let leituraAnterior := default false (estadoAnteriorChaves w !! index) in
  if negb (eqb leituraAtual leituraAnterior) then
    let w :=
      if eqb leituraAtual HIGH then
        if sessaoAberta w then
          w |> registrarRetirada pino (idUsuarioAtual w) (tipoUsuarioAtual w)
            |> set_sessaoAberta false
            |> set_idUsuarioAtual ""
            |> set_msgLCDTemporaria true
            |> (fun w => set_timerMsgLCD (millis w) w)
        else
          w |> dispararAlarme pino
      else
        w |> registrarDevolucao pino
          |> set_msgLCDTemporaria true
          |> (fun w => set_timerMsgLCD (millis w) w) in
    set_estadoAnteriorChaves (<[index := leituraAtual]> (estadoAnteriorChaves w)) w
  else w.

(** The loop over the pins; [digitalRead pino] is the level found on [pino]
    when the loop gets to it. *)
Fixpoint varrerChaves (digitalRead : Z -> bool) (pinos : list Z) (index : nat)
    (w : Mundo) : Mundo :=
  match pinos with
  | [] => w
  | pino :: resto =>
      varrerChaves digitalRead resto (S index)
        (processarChave pino index (digitalRead pino) w)
  end.

Definition monitorarPainelDeChaves (digitalRead : Z -> bool) (w : Mundo) : Mundo :=
  varrerChaves digitalRead
    (seqZ PINO_CHAVE_INICIO (PINO_CHAVE_FIM - PINO_CHAVE_INICIO + 1)) 0 w.

(* ====================================================================== *)
(** * 9. Sensors and the enrollment routine                                *)
(* ====================================================================== *)

(** What the fingerprint sensor and the card reader answer. The answer to
    the [n]-th command sent since power-up is read at index [n], so that
    every sequence of answers is one value of this record; [custo n] is the
    time that command takes. *)
Record Sensores : Type := mkSensores {
  r_getImage : nat -> Z;
  r_loadModel : nat -> Z -> Z;
  r_image2Tz : nat -> Z -> Z;
  r_createModel : nat -> Z;
  r_storeModel : nat -> Z -> Z;
  r_templateCount : nat -> Z;
  r_cartao : nat -> option (list Z);   (* the UID read, when a new card answers *)
  r_custo : nat -> Z
}.

Definition anotar (amb : Sensores) (c : option Chamada) (w : Mundo) : Mundo :=
  w |> set_sensorLog (sensorLog w ++ option_list c)
    |> delay (r_custo amb (passo w))
    |> set_passo (S (passo w)).

Definition finger_getImage (amb : Sensores) (w : Mundo) : Z * Mundo :=
  let p := r_getImage amb (passo w) in (p, anotar amb (Some (GetImage p)) w).

Definition finger_loadModel (amb : Sensores) (id : Z) (w : Mundo) : Z * Mundo :=
  let p := r_loadModel amb (passo w) id in (p, anotar amb (Some (LoadModel id p)) w).

Definition finger_image2Tz (amb : Sensores) (slot : Z) (w : Mundo) : Z * Mundo :=
  let p := r_image2Tz amb (passo w) slot in (p, anotar amb (Some (Image2Tz slot p)) w).

Definition finger_createModel (amb : Sensores) (w : Mundo) : Z * Mundo :=
  let p := r_createModel amb (passo w) in (p, anotar amb (Some (CreateModel p)) w).

Definition finger_storeModel (amb : Sensores) (id : Z) (w : Mundo) : Z * Mundo :=
  let p := r_storeModel amb (passo w) id in (p, anotar amb (Some (StoreModel id p)) w).

(** [PICC_IsNewCardPresent() && PICC_ReadCardSerial()], with [uid.uidByte]
    when both succeed. *)
Definition mfrc522_lerCartao (amb : Sensores) (w : Mundo) : option (list Z) * Mundo :=
  (r_cartao amb (passo w), anotar amb None w).

(** The loop that prints [uid.uidByte] into the tag string. *)
Fixpoint uidHex (uid : list Z) : string :=
  match uid with
  | [] => ""
  | b :: resto => doisDigitosHex b ++ uidHex resto
  end.

(** How [executarRotinaCadastro] ends: one constructor per [return], and
    [SemRetorno] for a run still inside a loop when the fuel is over. *)
Inductive Saida : Type :=
| RfidCadastrado
| MemoriaCheia
| ErroLeitura1
| TempoEsgotadoBio
| ErroLeitura2
| DedoDiferente
| BiometriaSalva (id : Z)
| ErroAoSalvar
| TempoEsgotado
| SemRetorno.

(** [for (i = 1; i <= 127; i++) if (loadModel(i) != OK) { idNovo = i; break; }],
    [n] indices left. *)
Fixpoint buscarIdLivre (amb : Sensores) (n : nat) (i : Z) (w : Mundo) : Z * Mundo :=
  match n with
  | O => (-1, w)
  | S n' =>
      let '(p, w) := finger_loadModel amb i w in
      if negb (p =? FINGERPRINT_OK) then (i, w)
      else buscarIdLivre amb n' (i + 1) w
  end.

(** [while (finger.getImage() != FINGERPRINT_NOFINGER) {}] *)
Fixpoint aguardarRetirada (amb : Sensores) (fuel : nat) (w : Mundo)
    : option unit * Mundo :=
  match fuel with
  | O => (None, w)
  | S fuel' =>
      let '(p, w) := finger_getImage amb w in
      if negb (p =? FINGERPRINT_NOFINGER) then aguardarRetirada amb fuel' w
      else (Some tt, w)
  end.

(** [while (millis() - timerBio2 < 5000) if (getImage() == OK) {...; break;}] *)
Fixpoint aguardarSegundoDedo (amb : Sensores) (fuel : nat) (timerBio2 : Z)
    (w : Mundo) : option bool * Mundo :=
  if uint32 (millis w - timerBio2) <? 5000 then
    match fuel with
    | O => (None, w)
    | S fuel' =>
        let '(p, w) := finger_getImage amb w in
        if p =? FINGERPRINT_OK then (Some true, w)
        else aguardarSegundoDedo amb fuel' timerBio2 w
    end
  else (Some false, w).

(** Steps 5 and 6: the model is created and stored under [idNovo]. *)
Definition criarESalvar (amb : Sensores) (idNovo : Z) (w : Mundo) : Saida * Mundo :=
  let w := Serial_println "[CADASTRO BIO] Gerando modelo..." w in
  let '(p, w) := finger_createModel amb w in
  if negb (p =? FINGERPRINT_OK) then
    (DedoDiferente,
     w |> Serial_println "[ERRO BIO] Digitais nao batem."
       |> atualizarLCD "Dedo Diferente!" COR_ERRO
       |> delay 2000)
  else
    let w := Serial_println ("[CADASTRO BIO] Gravando no ID: " ++ String_DEC idNovo) w in
    let '(p, w) := finger_storeModel amb idNovo w in
    if p =? FINGERPRINT_OK then
      (BiometriaSalva idNovo,
       w |> atualizarLCD ("Salvo ID " ++ String_DEC idNovo) COR_SUCESSO
         |> Serial_println "[SUCESSO] Biometria gravada!"
         |> delay 1000
         |> delay 2000)
    else
      (ErroAoSalvar,
       w |> Serial_println "[ERRO BIO] Erro de escrita na Flash."
         |> atualizarLCD "Erro ao Salvar" COR_ERRO
         |> delay 2000).

(** Steps 2 to 4, after the first image was converted. *)
Definition confirmarDedo (amb : Sensores) (fuel : nat) (idNovo : Z) (w : Mundo)
    : Saida * Mundo :=
  let w := w |> atualizarLCD "Tire o dedo" COR_ALERTA
             |> Serial_println "[CADASTRO BIO] Aguardando retirar o dedo..."
             |> delay 1000 in
  let '(r, w) := aguardarRetirada amb fuel w in
  match r with
  | None => (SemRetorno, w)
  | Some _ =>
      let w := w |> Serial_println "[CADASTRO BIO] Dedo removido."
                 |> atualizarLCD "Encoste de novo" COR_PADRAO
                 |> Serial_println "[CADASTRO BIO] Aguardando confirmacao..." in
      let timerBio2 := millis w in
      let '(dedoColocadoNovamente, w) := aguardarSegundoDedo amb fuel timerBio2 w in
      match dedoColocadoNovamente with
      | None => (SemRetorno, w)
      | Some false =>
          (TempoEsgotadoBio,
           w |> Serial_println "[ERRO BIO] Tempo esgotado."
             |> atualizarLCD "Tempo Esgotado" COR_ERRO
             |> delay 2000)
      | Some true =>
          let w := w |> Serial_println "[CADASTRO BIO] Captura 2..."
                     |> atualizarLCD "Imagem 2 OK" COR_AGUARDE in
          let '(p, w) := finger_image2Tz amb 2 w in
          if negb (p =? FINGERPRINT_OK) then
            (ErroLeitura2,
             w |> Serial_println "[ERRO BIO] Falha na conversao Imagem 2."
               |> atualizarLCD "Erro Leitura 2" COR_ERRO
               |> delay 2000)
          else criarESalvar amb idNovo w
      end
  end.

(** Option B of the routine, entered when [getImage] answered OK. *)
Definition cadastroBiometria (amb : Sensores) (fuel : nat) (w : Mundo)
    : Saida * Mundo :=
  let w := w |> Serial_println "[CADASTRO BIO] Dedo detectado."
             |> Serial_println "[CADASTRO BIO] Buscando slot de memoria livre..." in
  let '(idNovo, w) := buscarIdLivre amb 127 1 w in
  if idNovo =? -1 then
    (MemoriaCheia,
     w |> Serial_println "[ERRO BIO] Memoria cheia (127 IDs ocupados)."
       |> atualizarLCD "Memoria Cheia" COR_ERRO
       |> delay 2000)
  else
    let w := w |> Serial_println ("[CADASTRO BIO] Slot encontrado: ID #"
                                  ++ String_DEC idNovo)
               |> Serial_println "[CADASTRO BIO] Iniciando captura 1..."
               |> atualizarLCD "Imagem 1 OK" COR_AGUARDE in
    let '(p, w) := finger_image2Tz amb 1 w in
    if negb (p =? FINGERPRINT_OK) then
      (ErroLeitura1,
       w |> Serial_println "[ERRO BIO] Falha na conversao Imagem 1."
         |> atualizarLCD "Erro Leitura 1" COR_ERRO
         |> delay 2000)
    else confirmarDedo amb fuel idNovo w.

(** Option A of the routine, entered with the UID of the card read. *)
Definition cadastroRFID (uid : list Z) (w : Mundo) : Saida * Mundo :=
  let w := Serial_println "[CADASTRO] Cartao RFID Detectado." w in
  let tag := toUpperCase (uidHex uid) in
  (RfidCadastrado,
   w |> salvarTagEEPROM tag
     |> atualizarLCD "RFID Cadastrado!" COR_SUCESSO
     |> delay 2000).

(** The loop [while (millis() - t < 10000)]; [interno] is the fuel handed
    to the loops of option B. *)
Fixpoint janelaCadastro (amb : Sensores) (interno fuel : nat) (t : Z) (w : Mundo)
    : Saida * Mundo :=
  if uint32 (millis w - t) <? 10000 then
    match fuel with
    | O => (SemRetorno, w)
    | S fuel' =>
        let '(cartao, w) := mfrc522_lerCartao amb w in
        match cartao with
        | Some uid => cadastroRFID uid w
        | None =>
            let '(p, w) := finger_getImage amb w in
            if p =? FINGERPRINT_OK then cadastroBiometria amb interno w
            else janelaCadastro amb interno fuel' t w
        end
    end
  else
    (TempoEsgotado,
     w |> Serial_println "[CADASTRO] Tempo limite encerrado."
       |> atualizarLCD "Tempo Esgotado" COR_ERRO
       |> delay 1000).

(** Every loop of the routine may run [fuel] iterations. *)
Definition executarRotinaCadastro (amb : Sensores) (fuel : nat) (w : Mundo)
    : Saida * Mundo :=
  let w := w |> atualizarLCD "MODO CADASTRO" COR_ALERTA
             |> delay 1000
             |> atualizarLCD "1-BIO  2-RFID" COR_PADRAO in
  let t := millis w in
  janelaCadastro amb fuel fuel t w.

(** The whole start-up report: the cards of the ledger, then the templates
    of the sensor. *)
Fixpoint listarBiometrias (amb : Sensores) (n : nat) (id : Z) (w : Mundo) : Mundo :=
  match n with
  | O => w
  | S n' =>
      let '(p, w) := finger_loadModel amb id w in
      let w := if p =? FINGERPRINT_OK
               then Serial_println ("   - ID #" ++ String_DEC id) w else w in
      listarBiometrias amb n' (id + 1) w
  end.

Definition listarInfosIniciais (amb : Sensores) (w : Mundo) : Mundo :=
  let w := listarInfosIniciais_tags w in
  let templateCount := r_templateCount amb (passo w) in
  let w := w |> anotar amb None
             |> Serial_println ("TOTAL BIOMETRIAS: " ++ String_DEC templateCount) in
  let w :=
    if templateCount >? 0 then
      w |> Serial_println "  IDs Ocupados:" |> listarBiometrias amb 127 1
    else Serial_println "  (Nenhuma digital cadastrada)" w in
  Serial_println ("==================================" ++ String "010" "") w.

(** ** Sensor behaviours used as examples *)

(** A sensor with nothing stored, a finger that is put down, lifted and put
    down again, and two captures that do not match. *)
Definition ambDedosDiferentes : Sensores :=
  mkSensores
    (fun n => if bool_decide (n = 4%nat) then FINGERPRINT_NOFINGER else FINGERPRINT_OK)
    (fun _ _ => 12) (fun _ _ => FINGERPRINT_OK) (fun _ => 10)
    (fun _ _ => FINGERPRINT_OK) (fun _ => 0) (fun _ => None) (fun _ => 30).

(** Templates 1 to 5 stored, the finger never lifted. *)
Definition ambDedoPreso : Sensores :=
  mkSensores
    (fun _ => FINGERPRINT_OK)
    (fun _ id => if (1 <=? id) && (id <=? 5) then FINGERPRINT_OK else 12)
    (fun _ _ => FINGERPRINT_OK) (fun _ => FINGERPRINT_OK)
    (fun _ _ => FINGERPRINT_OK) (fun _ => 5) (fun _ => None) (fun _ => 30).

(** All 127 templates stored. *)
Definition ambCheio : Sensores :=
  mkSensores
    (fun _ => FINGERPRINT_OK) (fun _ _ => FINGERPRINT_OK)
    (fun _ _ => FINGERPRINT_OK) (fun _ => FINGERPRINT_OK)
    (fun _ _ => FINGERPRINT_OK) (fun _ => 127) (fun _ => None) (fun _ => 30).

(** A card with UID 04 A1 B2 C3 held to the reader from the third poll on. *)
Definition ambCartao : Sensores :=
  mkSensores
    (fun _ => FINGERPRINT_NOFINGER) (fun _ _ => 12)
    (fun _ _ => FINGERPRINT_OK) (fun _ => FINGERPRINT_OK)
    (fun _ _ => FINGERPRINT_OK) (fun _ => 0)
    (fun n => if bool_decide (n = 4%nat) then Some [4; 161; 178; 195] else None)
    (fun _ => 30).

(* ====================================================================== *)
(** * 9 (continued). Readers, access decision, button and [loop]          *)
(* ====================================================================== *)

(** Status code of [Adafruit_Fingerprint.h]. *)
Definition FINGERPRINT_NOTFOUND : Z := 9.

(** [int] is 16 bits wide on the AVR: the value of a [uint16_t] returned as
    an [int]. *)
Definition int16 (z : Z) : Z :=
  let m := z mod 65536 in if m <? 32768 then m else m - 65536.

(** [finger.fingerSearch()] answers a status and leaves [fingerID] and
    [confidence] in the driver object; [busca n] is that answer when the
    search is the [n]-th command. *)
Definition lerSensorBiometrico (amb : Sensores) (busca : nat -> Z * Z * Z)
    (w : Mundo) : Z * Mundo :=
  let '(p, w) := finger_getImage amb w in
  if negb (p =? FINGERPRINT_OK) then (-1, w)
  else
    let w := Serial_println "[BIO CHECK] Imagem capturada. Convertendo..." w in
    let '(p, w) := finger_image2Tz amb 1 w in
    if negb (p =? FINGERPRINT_OK) then
      (-2, Serial_println "[ERRO BIO] Imagem muito suja ou erro de comunicação." w)
    else
      let '(p, fingerID, confidence) := busca (passo w) in
      let w := anotar amb None w in
      if p =? FINGERPRINT_OK then
        (int16 fingerID,
         Serial_println ("[SUCESSO BIO] ID Encontrado: #" ++ String_DEC fingerID
                         ++ " | Confianca: " ++ String_DEC confidence) w)
      else if p =? FINGERPRINT_NOTFOUND then
        (-2, Serial_println
               "[FALHA BIO] Digital lida com sucesso, mas NAO cadastrada." w)
      else
        (-2, Serial_println "[ERRO BIO] Erro desconhecido na busca." w).

Definition lerSensorRFID (amb : Sensores) (w : Mundo) : string * Mundo :=
  let '(cartao, w) := mfrc522_lerCartao amb w in
  match cartao with
  | None => ("", w)
  | Some uid => (toUpperCase (uidHex uid), w)
  end.

Definition negacaoAcesso (tipo id : string) (w : Mundo) : Mundo :=
  w |> Serial_println ("!!! ACESSO NEGADO | Tipo: " ++ tipo ++ " | ID Lido: " ++ id)
    |> atualizarLCD "Nao Cadastrado" COR_ERRO
    |> delay 2000
    |> resetarLCDParaPadrao.

Definition verificarEntradaUsuario (amb : Sensores) (busca : nat -> Z * Z * Z)
    (w : Mundo) : Mundo :=
  if sessaoAberta w then w
  else
    let '(idBio, w) := lerSensorBiometrico amb busca w in
    if idBio >=? 0 then
      w |> Serial_println ("[ACESSO] Biometria reconhecida: ID #" ++ String_DEC idBio)
        |> autorizarSessao "Biometria" (String_DEC idBio)
    else if idBio =? -2 then
      negacaoAcesso "Biometria" "Desconhecido" w
    else
      let '(idTag, w) := lerSensorRFID amb w in
      if negb (String.eqb idTag "") then
        let w := Serial_println ("[ACESSO] Tag RFID lida: " ++ idTag) w in
        if verificarTagNaEEPROM idTag w then autorizarSessao "RFID" idTag w
        else negacaoAcesso "RFID" idTag w
      else w.

(** The three calls of the fast check of [loop], in their order. *)
Definition verificacaoRapida (amb : Sensores) (busca : nat -> Z * Z * Z)
    (digitalRead : Z -> bool) (w : Mundo) : Mundo :=
  w |> verificarEntradaUsuario amb busca
    |> monitorarPainelDeChaves digitalRead
    |> verificarTimeoutSessao.

(** The globals of the enrollment button and of the pacing of [loop]. *)
Record Laco : Type := mkLaco {
  estadoBotaoCad : bool;
  ultimoEstadoBotaoCad : bool;
  ultimoTempoDebounce : Z;
  modoCadastroAtivo : bool;
  timerCheck : Z;
  ultimoResetLCD : Z
}.

Definition DELAY_DEBOUNCE : Z := 50.
Definition INTERVALO_CHECK : Z := 50.
Definition INTERVALO_RESET_LCD : Z := 60000.

(** The globals as the C++ start-up code leaves them: [estadoBotaoCad] has
    no initialiser and starts at 0, which is [LOW]. *)
Definition lacoInicial : Laco := mkLaco LOW HIGH 0 false 0 0.

(** [leitura] is what [digitalRead(PINO_BOTAO_CADASTRO)] returns. *)
Definition lerBotaoCadastro (leitura : bool) (l : Laco) (w : Mundo) : Laco * Mundo :=
  let ultimoTempoDebounce :=
    if negb (Bool.eqb leitura (ultimoEstadoBotaoCad l)) then millis w
    else ultimoTempoDebounce l in
  let '(estado, modo, w) :=
    if uint32 (millis w - ultimoTempoDebounce) >? DELAY_DEBOUNCE then
      if negb (Bool.eqb leitura (estadoBotaoCad l)) then
        if Bool.eqb leitura LOW then
          (leitura, true,
           Serial_println (String "010" "[SISTEMA] Botao Pressionado: Entrando em MODO CADASTRO...") w)
        else (leitura, modoCadastroAtivo l, w)
      else (estadoBotaoCad l, modoCadastroAtivo l, w)
    else (estadoBotaoCad l, modoCadastroAtivo l, w) in
  (mkLaco estado leitura ultimoTempoDebounce modo (timerCheck l) (ultimoResetLCD l), w).

(** One pass of [loop]. [None] stands for a pass whose enrollment routine
    has not returned within [fuel] iterations of its loops. *)
Definition loop (amb : Sensores) (busca : nat -> Z * Z * Z) (fuel : nat)
    (leitura : bool) (digitalRead : Z -> bool) (l : Laco) (w : Mundo)
    : option (Laco * Mundo) :=
  let '(l, w) := lerBotaoCadastro leitura l w in
  let '(l, w) :=
    if uint32 (millis w - ultimoResetLCD l) >? INTERVALO_RESET_LCD then
      if negb (sessaoAberta w) && negb (modoCadastroAtivo l) then
        let w := w |> Serial_println "[MANUTENCAO] Executando reset preventivo do LCD..."
                   |> resetarLCDParaPadrao in
        (mkLaco (estadoBotaoCad l) (ultimoEstadoBotaoCad l) (ultimoTempoDebounce l)
           (modoCadastroAtivo l) (timerCheck l) (millis w), w)
      else (l, w)
    else (l, w) in
  if modoCadastroAtivo l then
    let '(s, w) := executarRotinaCadastro amb fuel w in
    match s with
    | SemRetorno => None
    | _ =>
        Some (mkLaco (estadoBotaoCad l) (ultimoEstadoBotaoCad l)
                (ultimoTempoDebounce l) false (timerCheck l) (ultimoResetLCD l),
              resetarLCDParaPadrao w)
    end
  else
    let w :=
      if msgLCDTemporaria w && (uint32 (millis w - timerMsgLCD w) >? 3000) then
        (if negb (sessaoAberta w) then resetarLCDParaPadrao w else w)
          |> set_msgLCDTemporaria false
      else w in
    if uint32 (millis w - timerCheck l) >? INTERVALO_CHECK then
      let w := verificacaoRapida amb busca digitalRead w in
      Some (mkLaco (estadoBotaoCad l) (ultimoEstadoBotaoCad l)
              (ultimoTempoDebounce l) (modoCadastroAtivo l) (millis w)
              (ultimoResetLCD l), w)
    else Some (l, w).

(** The loop of [setup] that stores the level of every key pin:
    [estadoAnteriorChaves[index] = digitalRead(i); index++]. *)
Fixpoint lerChaves (digitalRead : Z -> bool) (pinos : list Z) (index : nat)
    (w : Mundo) : Mundo :=
  match pinos with
  | [] => w
  | pino :: resto =>
      lerChaves digitalRead resto (S index)
        (set_estadoAnteriorChaves
           (<[index := digitalRead pino]> (estadoAnteriorChaves w)) w)
  end.

(** A reader that sees nothing: no card, no finger. *)
Definition ambVazio : Sensores :=
  mkSensores
    (fun _ => FINGERPRINT_NOFINGER) (fun _ _ => 12)
    (fun _ _ => FINGERPRINT_OK) (fun _ => FINGERPRINT_OK)
    (fun _ _ => FINGERPRINT_OK) (fun _ => 0) (fun _ => None) (fun _ => 30).

(** A search that finds template 3. *)
Definition buscaAcha3 : nat -> Z * Z * Z := fun _ => (FINGERPRINT_OK, 3, 120).

(** A search that finds nothing. *)
Definition buscaNaoAcha : nat -> Z * Z * Z := fun _ => (FINGERPRINT_NOTFOUND, 0, 0).

(** Projections of a state built by the primitive effects. *)
Ltac campos :=
  cbn [relogio sessaoAberta timerSessao idUsuarioAtual tipoUsuarioAtual
       timerMsgLCD msgLCDTemporaria estadoAnteriorChaves eeprom pinoAlarme
       visor console wifiTx wifiPendente wifiRx passo eventos sensorLog
       set_relogio set_sessaoAberta set_timerSessao set_idUsuarioAtual
       set_tipoUsuarioAtual set_timerMsgLCD set_msgLCDTemporaria
       set_estadoAnteriorChaves set_eeprom set_pinoAlarme set_visor
       set_console set_wifiTx set_wifiPendente set_wifiRx set_passo
       set_eventos set_sensorLog
       delay Serial_println SerialWifi_print SerialWifi_println registrar
       EEPROM_write resetarLCDParaPadrao anotar millis fst snd] in *.

(* ====================================================================== *)
(** * 10. Theorems: the card ledger                                        *)
(* ====================================================================== *)

Section Ledger.

Implicit Types (w : Mundo) (tag : string).

Lemma EEPROM_read_write_eq a v w :
  EEPROM_read a (EEPROM_write a v w) = uint8 v.
Proof. unfold EEPROM_read, EEPROM_write. simpl. by rewrite lookup_insert_eq. Qed.

Lemma EEPROM_read_write_ne a b v w :
  a <> b -> EEPROM_read b (EEPROM_write a v w) = EEPROM_read b w.
Proof.
  intros Hne. unfold EEPROM_read, EEPROM_write. simpl.
  by rewrite lookup_insert_ne.
Qed.

Lemma EEPROM_read_println a s w :
  EEPROM_read a (Serial_println s w) = EEPROM_read a w.
Proof. reflexivity. Qed.

(** The count byte after an append. *)
Lemma salvar_contagem tag w :
  EEPROM_read 0 (salvarTagEEPROM tag w) = uint8 (lerQtdTags w + 1).
Proof.
  unfold salvarTagEEPROM. rewrite EEPROM_read_println.
  apply EEPROM_read_write_eq.
Qed.

(** Neither the lookup nor the report depends on anything but the cells. *)
Lemma tagArmazenada_ext i w1 w2 :
  eeprom w1 = eeprom w2 -> tagArmazenada i w1 = tagArmazenada i w2.
Proof.
  intros E. unfold tagArmazenada. f_equal.
  generalize (1 + i * 4). generalize 4%nat.
  induction n as [|n IH]; intros a; simpl; [done|].
  unfold EEPROM_read. rewrite E. by rewrite IH.
Qed.

Lemma procurarTag_vazio tag i w : procurarTag tag 0 i w = false.
Proof. reflexivity. Qed.

(** The scan finds a tag stored at any index it runs over. *)
Lemma procurarTag_acha tag w :
  forall (n : nat) (i k : Z),
    i <= k < i + Z.of_nat n ->
    tagArmazenada k w = tag ->
    procurarTag tag n i w = true.
Proof.
  induction n as [|n IH]; intros i k Hk Hs; [lia|].
  simpl. destruct (String.eqb_spec tag (tagArmazenada i w)) as [|Hne]; [done|].
  apply (IH (i + 1) k); [|done].
  assert (k <> i) by (intros ->; congruence). lia.
Qed.

(** The scan only answers [true] for a tag found at an index it runs over. *)
Lemma procurarTag_so_acha tag w :
  forall (n : nat) (i : Z),
    procurarTag tag n i w = true ->
    exists k, i <= k < i + Z.of_nat n /\ tagArmazenada k w = tag.
Proof.
  induction n as [|n IH]; intros i H; [discriminate|].
  simpl in H. destruct (String.eqb_spec tag (tagArmazenada i w)) as [->|Hne].
  - exists i. split; [lia|done].
  - destruct (IH _ H) as (k & Hk & Hs). exists k. split; [lia|done].
Qed.

End Ledger.

Section HexRoundTrip.

Definition digitosMaiusculos : list ascii :=
  list_ascii_of_string "0123456789ABCDEF".

Lemma digitoMaiusculo_lista (c : ascii) :
  digitoMaiusculo c = true -> In c digitosMaiusculos.
Proof.
  destruct c as [[] [] [] [] [] [] [] []]; vm_compute; intros H;
    try discriminate H; clear H;
    repeat first [ left; reflexivity | right ].
Qed.

Definition parVolta (c1 c2 : ascii) : bool :=
  let s := String c1 (String c2 "") in
  String.eqb (toUpperCase (doisDigitosHex (uint8 (strtol16 s)))) s
  && (0 <=? uint8 (strtol16 s)) && (uint8 (strtol16 s) <? 256).

Lemma parVolta_todos :
  forallb (fun c1 => forallb (parVolta c1) digitosMaiusculos)
    digitosMaiusculos = true.
Proof. vm_compute. reflexivity. Qed.

(** Two upper-case digits are parsed into a byte that prints back as the
    same two digits. *)
Lemma byte_ida_e_volta (c1 c2 : ascii) :
  digitoMaiusculo c1 = true -> digitoMaiusculo c2 = true ->
  toUpperCase (doisDigitosHex (uint8 (strtol16 (String c1 (String c2 "")))))
  = String c1 (String c2 "").
Proof.
  intros H1 H2.
  pose proof parVolta_todos as Hall.
  rewrite forallb_forall in Hall.
  specialize (Hall c1 (digitoMaiusculo_lista c1 H1)).
  rewrite forallb_forall in Hall.
  specialize (Hall c2 (digitoMaiusculo_lista c2 H2)).
  unfold parVolta in Hall.
  apply andb_prop in Hall as [Hall _]. apply andb_prop in Hall as [Hall _].
  by apply String.eqb_eq in Hall.
Qed.

Lemma toUpperCase_app (s1 s2 : string) :
  toUpperCase (s1 ++ s2) = toUpperCase s1 ++ toUpperCase s2.
Proof. induction s1 as [|c s1 IH]; simpl; [done|]. by rewrite IH. Qed.

End HexRoundTrip.

Section LedgerRoundTrip.

Lemma uint8_uint8 (z : Z) : uint8 (uint8 z) = uint8 z.
Proof. unfold uint8. by rewrite Z.mod_mod. Qed.

(** The writes of an append for a tag of eight characters. *)
Lemma gravarBytes_8 (c0 c1 c2 c3 c4 c5 c6 c7 : ascii) (r : string) (base : Z)
    (w : Mundo) :
  gravarBytes
    (String c0 (String c1 (String c2 (String c3
      (String c4 (String c5 (String c6 (String c7 r)))))))) base 4 0 w
  = w |> EEPROM_write (base + 0) (uint8 (strtol16 (String c0 (String c1 ""))))
      |> EEPROM_write (base + 1) (uint8 (strtol16 (String c2 (String c3 ""))))
      |> EEPROM_write (base + 2) (uint8 (strtol16 (String c4 (String c5 ""))))
      |> EEPROM_write (base + 3) (uint8 (strtol16 (String c6 (String c7 "")))).
Proof.
  destruct r; reflexivity.
Qed.

Lemma lerBytesHex_4 (a : Z) (w : Mundo) :
  lerBytesHex 4 a w
  = doisDigitosHex (EEPROM_read (a + 0) w)
    ++ doisDigitosHex (EEPROM_read (a + 1) w)
    ++ doisDigitosHex (EEPROM_read (a + 2) w)
    ++ doisDigitosHex (EEPROM_read (a + 3) w) ++ "".
Proof.
  cbn [lerBytesHex].
  replace (a + 1 + 1 + 1) with (a + 3) by lia.
  replace (a + 1 + 1) with (a + 2) by lia.
  replace (a + 0) with a by lia. reflexivity.
Qed.

(** The four cells written by an append, read back. *)
Lemma salvar_registro (tag : string) (w : Mundo) :
  normalizado tag = true ->
  0 <= lerQtdTags w ->
  tagArmazenada (lerQtdTags w) (salvarTagEEPROM tag w) = tag.
Proof.
  intros Hn Hq. unfold normalizado in Hn.
  apply andb_prop in Hn as [Hlen Hdig]. apply Nat.eqb_eq in Hlen.
  destruct tag as [|c0 [|c1 [|c2 [|c3 [|c4 [|c5 [|c6 [|c7 [|c8 r]]]]]]]]];
    try discriminate Hlen.
  simpl in Hdig.
  repeat (apply andb_prop in Hdig as [? Hdig]).
  set (q := lerQtdTags w) in *.
  unfold tagArmazenada, salvarTagEEPROM. fold q.
  rewrite gravarBytes_8, lerBytesHex_4.
  set (b := 1 + q * 4).
  rewrite !EEPROM_read_println.
  rewrite !(EEPROM_read_write_ne 0) by lia.
  rewrite (EEPROM_read_write_eq (b + 3)).
  rewrite !(EEPROM_read_write_ne (b + 3)) by lia.
  rewrite (EEPROM_read_write_eq (b + 2)).
  rewrite !(EEPROM_read_write_ne (b + 2)) by lia.
  rewrite (EEPROM_read_write_eq (b + 1)).
  rewrite !(EEPROM_read_write_ne (b + 1)) by lia.
  rewrite (EEPROM_read_write_eq (b + 0)).
  rewrite !uint8_uint8, !toUpperCase_app.
  rewrite !byte_ida_e_volta by assumption.
  reflexivity.
Qed.

(** An append leaves the records below the count as they were. *)
Lemma salvar_preserva (tag : string) (w : Mundo) (k : Z) :
  0 <= k < lerQtdTags w ->
  tagArmazenada k (salvarTagEEPROM tag w) = tagArmazenada k w.
Proof.
  intros Hk. set (q := lerQtdTags w) in *.
  unfold tagArmazenada, salvarTagEEPROM. fold q. f_equal.
  rewrite !lerBytesHex_4, !EEPROM_read_println.
  set (b := 1 + q * 4). set (a := 1 + k * 4).
  assert (a + 3 < b) by lia.
  assert (0 < a) by lia.
  rewrite !(EEPROM_read_write_ne 0) by lia.
  destruct tag as [|c0 [|c1 [|c2 [|c3 [|c4 [|c5 [|c6 [|c7 r]]]]]]]];
    cbn [gravarBytes]; rewrite !EEPROM_read_write_ne by lia; reflexivity.
Qed.

(** Below 254 records, the count after an append is one more. *)
Lemma salvar_qtd (tag : string) (w : Mundo) :
  0 <= lerQtdTags w < 254 ->
  lerQtdTags (salvarTagEEPROM tag w) = lerQtdTags w + 1.
Proof.
  intros Hq. unfold lerQtdTags at 1. rewrite salvar_contagem.
  unfold uint8. rewrite Z.mod_small by lia.
  destruct (Z.eqb_spec (lerQtdTags w + 1) 255); [lia|done].
Qed.

(** The round trip of the ledger while it holds fewer than 254 cards. *)
Lemma salvar_depois_verificar (tag : string) (w : Mundo) :
  normalizado tag = true ->
  0 <= lerQtdTags w < 254 ->
  verificarTagNaEEPROM tag (salvarTagEEPROM tag w) = true.
Proof.
  intros Hn Hq. unfold verificarTagNaEEPROM.
  rewrite salvar_qtd by done.
  apply (procurarTag_acha _ _ _ 0 (lerQtdTags w)); [lia|].
  apply salvar_registro; [done|lia].
Qed.

(** A card found before an append is still found after it. *)
Lemma salvar_mantem_encontradas (tag outra : string) (w : Mundo) :
  0 <= lerQtdTags w < 254 ->
  verificarTagNaEEPROM outra w = true ->
  verificarTagNaEEPROM outra (salvarTagEEPROM tag w) = true.
Proof.
  intros Hq Hv. unfold verificarTagNaEEPROM in *.
  rewrite salvar_qtd by done.
  apply procurarTag_so_acha in Hv as (k & Hk & Hs).
  apply (procurarTag_acha _ _ _ 0 k); [lia|].
  rewrite salvar_preserva by lia. done.
Qed.

End LedgerRoundTrip.

Section LedgerHistory.

(** The cards of [tags] enrolled in this order. *)
Definition cadastrarLista (tags : list string) (w : Mundo) : Mundo :=
  fold_left (fun w t => salvarTagEEPROM t w) tags w.

(** Up to 254 enrollments on an empty ledger: the count is the number of
    cards and record [k] is the [k]-th card enrolled. *)
Lemma cadastrarLista_registros (w0 : Mundo) :
  lerQtdTags w0 = 0 ->
  forall tags : list string,
    Forall (fun t => normalizado t = true) tags ->
    (length tags <= 254)%nat ->
    lerQtdTags (cadastrarLista tags w0) = Z.of_nat (length tags)
    /\ forall k : nat,
         (k < length tags)%nat ->
         tags !! k = Some (tagArmazenada (Z.of_nat k) (cadastrarLista tags w0)).
Proof.
  intros H0 tags. induction tags as [|t tags IH] using rev_ind; intros Hn Hlen.
  - split; [done|]. simpl. lia.
  - rewrite length_app in Hlen. simpl in Hlen.
    apply Forall_app in Hn as [Hn Ht]. apply Forall_cons_1 in Ht as [Ht _].
    destruct (IH Hn ltac:(lia)) as [Hq Hrec].
    unfold cadastrarLista in *. rewrite fold_left_app. simpl.
    set (w := fold_left _ tags w0) in *.
    split.
    + rewrite salvar_qtd by lia. rewrite length_app. simpl. lia.
    + intros k Hk. rewrite length_app in Hk. simpl in Hk.
      destruct (decide (k = length tags)) as [->|Hne].
      * rewrite lookup_app_r by lia. rewrite Nat.sub_diag. simpl.
        rewrite <- Hq. by rewrite salvar_registro by (done || lia).
      * rewrite lookup_app_l by lia. rewrite salvar_preserva by lia.
        apply Hrec. lia.
Qed.

(** After up to 254 enrollments on an empty ledger, the lookup accepts
    only cards that were enrolled. *)
Lemma verificar_so_cadastradas (w0 : Mundo) (tags : list string) (tag : string) :
  lerQtdTags w0 = 0 ->
  Forall (fun t => normalizado t = true) tags ->
  (length tags <= 254)%nat ->
  verificarTagNaEEPROM tag (cadastrarLista tags w0) = true ->
  tag ∈ tags.
Proof.
  intros H0 Hn Hlen Hv.
  destruct (cadastrarLista_registros w0 H0 tags Hn Hlen) as [Hq Hrec].
  unfold verificarTagNaEEPROM in Hv. rewrite Hq, Nat2Z.id in Hv.
  apply procurarTag_so_acha in Hv as (k & Hk & Hs).
  apply list_elem_of_lookup. exists (Z.to_nat k).
  rewrite (Hrec (Z.to_nat k)) by lia. rewrite Z2Nat.id by lia. by rewrite Hs.
Qed.

End LedgerHistory.

(** The ledger after 254 enrollments, cards 0 to 253. *)
Definition ledger254 : Mundo := cadastrarTags 254 0 mundoInicial.

Lemma listarBiometrias_console (amb : Sensores) :
  forall (n : nat) (id : Z) (w : Mundo),
    exists resto, console (listarBiometrias amb n id w) = (console w ++ resto)%list.
Proof.
  induction n as [|n IH]; intros id w; simpl.
  - exists []. by rewrite app_nil_r.
  - destruct (r_loadModel amb (passo w) id =? FINGERPRINT_OK).
    + destruct (IH (id + 1)
        (Serial_println ("   - ID #" ++ String_DEC id)
           (anotar amb (Some (LoadModel id (r_loadModel amb (passo w) id))) w)))
        as [r Hr].
      rewrite Hr. simpl. rewrite <- app_assoc. eauto.
    + destruct (IH (id + 1)
        (anotar amb (Some (LoadModel id (r_loadModel amb (passo w) id))) w))
        as [r Hr].
      rewrite Hr. simpl. eauto.
Qed.

Lemma listarInfosIniciais_tags_vazio (w : Mundo) :
  lerQtdTags w = 0 ->
  console (listarInfosIniciais_tags w)
  = (console w
     ++ [String "010" "==================================";
         "       RELATÓRIO DE CADASTROS      ";
         "==================================";
         "TOTAL TAGS RFID: 0";
         "----------------------------------"])%list.
Proof.
  intros Hz. unfold listarInfosIniciais_tags. rewrite Hz. simpl.
  rewrite <- !app_assoc. reflexivity.
Qed.

Lemma listarInfosIniciais_console (amb : Sensores) (w : Mundo) :
  exists resto,
    console (listarInfosIniciais amb w)
    = (console (listarInfosIniciais_tags w) ++ resto)%list.
Proof.
  unfold listarInfosIniciais.
  set (w1 := listarInfosIniciais_tags w).
  destruct (r_templateCount amb (passo w1) >? 0).
  - match goal with
    | |- context [listarBiometrias amb ?n ?i ?x] =>
        destruct (listarBiometrias_console amb n i x) as [r Hr]
    end.
    unfold Serial_println at 1. cbn [console set_console].
    rewrite Hr. cbn [console Serial_println set_console anotar set_sensorLog
      set_passo delay set_relogio].
    eexists. rewrite <- !app_assoc. reflexivity.
  - cbn [console Serial_println set_console anotar set_sensorLog
      set_passo delay set_relogio].
    eexists. rewrite <- !app_assoc. reflexivity.
Qed.

(** C10. The count of the ledger is one byte and 0xFF is read as "erased":
    the append that finds 254 records writes 255 into the count, which the
    lookup and the start-up report read as zero; no card is found any more
    and the report lists none. *)
Theorem C10_contagem_255_lida_como_zero (tag : string) (w : Mundo) (amb : Sensores) :
  lerQtdTags w = 254 ->
  let w' := salvarTagEEPROM tag w in
  EEPROM_read 0 w' = 255
  /\ lerQtdTags w' = 0
  /\ (forall tagLida, verificarTagNaEEPROM tagLida w' = false)
  /\ exists resto,
       console (listarInfosIniciais amb w')
       = (console w'
          ++ [String "010" "==================================";
              "       RELATÓRIO DE CADASTROS      ";
              "==================================";
              "TOTAL TAGS RFID: 0";
              "----------------------------------"]
          ++ resto)%list.
Proof.
  intros Hq w'.
  assert (Hc : EEPROM_read 0 w' = 255).
  { subst w'. rewrite salvar_contagem, Hq. reflexivity. }
  assert (Hz : lerQtdTags w' = 0).
  { unfold lerQtdTags. rewrite Hc. reflexivity. }
  split; [done|]. split; [done|]. split.
  - intros tagLida. unfold verificarTagNaEEPROM. rewrite Hz. reflexivity.
  - destruct (listarInfosIniciais_console amb w') as [r Hr].
    exists r. rewrite Hr, listarInfosIniciais_tags_vazio by done.
    by rewrite <- app_assoc.
Qed.

Lemma C10_contagem_255_witness :
  lerQtdTags ledger254 = 254
  /\ forall tagLida,
       verificarTagNaEEPROM tagLida (salvarTagEEPROM "04A1B2C3" ledger254) = false.
Proof.
  split; [vm_compute; reflexivity|].
  apply (C10_contagem_255_lida_como_zero "04A1B2C3" ledger254 ambCartao).
  vm_compute; reflexivity.
Defined.

(** C3 (the code departs from it). With 254 cards in the ledger, a
    normalized identifier that is appended is not found afterwards, and
    neither is any card enrolled before: the append wrote 255 into the
    count byte. *)
Theorem C3_cartao_255_nao_e_encontrado :
  normalizado "04A1B2C3" = true
  /\ lerQtdTags ledger254 = 254
  /\ verificarTagNaEEPROM (tagDe 7) ledger254 = true
  /\ verificarTagNaEEPROM "04A1B2C3" (salvarTagEEPROM "04A1B2C3" ledger254) = false
  /\ verificarTagNaEEPROM (tagDe 7) (salvarTagEEPROM "04A1B2C3" ledger254) = false.
Proof. vm_compute. repeat split; reflexivity. Qed.

(** The ledger after 255 enrollments: cards 0 to 253 and then 0A0B0C0D. *)
Definition ledger255 : Mundo := salvarTagEEPROM "0A0B0C0D" ledger254.

(** C4 (the code departs from it). The 255th enrollment leaves a count that
    reads as zero, and the 256th, made through the enrollment routine, ends
    with the success screen while it overwrites record 0 and sets the count
    to one: no error is reported and the first card is lost. *)
Theorem C4_cadastro_alem_da_capacidade :
  let fim := executarRotinaCadastro ambCartao 10 ledger255 in
  tagArmazenada 0 ledger254 = "00000000"
  /\ EEPROM_read 0 ledger255 = 255
  /\ lerQtdTags ledger255 = 0
  /\ fst fim = RfidCadastrado
  /\ last (visor (snd fim)) = Some ("RFID Cadastrado!", "", COR_SUCESSO)
  /\ last (console (snd fim)) = Some "Tag Salva na EEPROM: 04A1B2C3"
  /\ tagArmazenada 0 (snd fim) = "04A1B2C3"
  /\ lerQtdTags (snd fim) = 1
  /\ verificarTagNaEEPROM "00000000" (snd fim) = false.
Proof. vm_compute. repeat split; reflexivity. Qed.

(* ====================================================================== *)
(** * 11. Theorems: the session window                                     *)
(* ====================================================================== *)

(** A session opened by card 04A1B2C3 at power-up, 10001 ms later. *)
Definition sessaoVencida : Mundo :=
  mundoInicial |> autorizarSessao "RFID" "04A1B2C3" |> delay 10001.

(** C7 as stated fails: the kind of the credential survives the timeout. *)
Lemma C7_tipo_permanece :
  sessaoAberta sessaoVencida = true
  /\ uint32 (millis sessaoVencida - timerSessao sessaoVencida) > TEMPO_LIMITE_SESSAO
  /\ ~ (idUsuarioAtual (verificarTimeoutSessao sessaoVencida) = ""
        /\ tipoUsuarioAtual (verificarTimeoutSessao sessaoVencida) = "").
Proof.
  split; [reflexivity|]. split; [reflexivity|].
  intros [_ H]. vm_compute in H. discriminate H.
Qed.

(** C7, amended. When the session is open and more than 10000 ms have
    passed on the 32-bit millisecond clock since it was opened,
    [verificarTimeoutSessao] closes the session and clears the identifier
    of the credential; the kind of the credential is left as it was. *)
Theorem C7_timeout_fecha_sessao (w : Mundo) :
  sessaoAberta w = true ->
  uint32 (millis w - timerSessao w) > TEMPO_LIMITE_SESSAO ->
  let w' := verificarTimeoutSessao w in
  sessaoAberta w' = false
  /\ idUsuarioAtual w' = ""
  /\ tipoUsuarioAtual w' = tipoUsuarioAtual w.
Proof.
  intros Ha Ht w'. subst w'. unfold verificarTimeoutSessao.
  rewrite Ha. apply Z.gtb_gt in Ht. rewrite Ht. by simpl.
Qed.

Lemma C7_timeout_witness :
  sessaoAberta sessaoVencida = true
  /\ idUsuarioAtual (verificarTimeoutSessao sessaoVencida) = ""
  /\ tipoUsuarioAtual (verificarTimeoutSessao sessaoVencida) = "RFID".
Proof.
  split; [reflexivity|].
  assert (Ha : sessaoAberta sessaoVencida = true) by reflexivity.
  assert (Ht : uint32 (millis sessaoVencida - timerSessao sessaoVencida)
               > TEMPO_LIMITE_SESSAO) by reflexivity.
  destruct (C7_timeout_fecha_sessao sessaoVencida Ha Ht) as (_ & Hid & Htipo).
  split; [exact Hid | exact Htipo].
Defined.

(** Up to the timeout the session is left alone. *)
Lemma timeout_nao_vencido (w : Mundo) :
  uint32 (millis w - timerSessao w) <= TEMPO_LIMITE_SESSAO ->
  verificarTimeoutSessao w = w.
Proof.
  intros Ht. unfold verificarTimeoutSessao.
  destruct (sessaoAberta w); [|done].
  destruct (Z.gtb_spec (uint32 (millis w - timerSessao w)) TEMPO_LIMITE_SESSAO);
    [lia|done].
Qed.

(* ====================================================================== *)
(** * 12. Theorems: the key panel                                          *)
(* ====================================================================== *)

Section Painel.

(** The part of the state that a telemetry send leaves alone. *)
Definition nucleo (w : Mundo) :=
  (sessaoAberta w, timerSessao w, idUsuarioAtual w, tipoUsuarioAtual w,
   estadoAnteriorChaves w, eeprom w, eventos w, sensorLog w, passo w,
   msgLCDTemporaria w).

Lemma readStringUntil_nucleo (w : Mundo) :
  nucleo (snd (SerialWifi_readStringUntil w)) = nucleo w.
Proof.
  unfold SerialWifi_readStringUntil.
  destruct (wifiRx w) as [|[linha dur] resto]; reflexivity.
Qed.

Lemma aguardarConnect_nucleo (t : Z) :
  forall (fuel : nat) (w : Mundo),
    nucleo (snd (aguardarConnect fuel t w)) = nucleo w.
Proof.
  induction fuel as [|fuel IH]; intros w; simpl.
  - by destruct (uint32 (millis w - t) <? 5000).
  - destruct (uint32 (millis w - t) <? 5000); [|done].
    pose proof (readStringUntil_nucleo w) as Hr.
    destruct (SerialWifi_readStringUntil w) as [resp w1]. simpl in Hr.
    destruct (negb (indexOf resp "CONNECT" =? -1)); [done|].
    by rewrite IH.
Qed.

Lemma enviarDadosFirebase_nucleo (json : string) (w : Mundo) :
  nucleo (enviarDadosFirebase json w) = nucleo w.
Proof.
  unfold enviarDadosFirebase.
  match goal with
  | |- context [aguardarConnect ?f ?t ?x] =>
      pose proof (aguardarConnect_nucleo t f x) as Hn;
      destruct (aguardarConnect f t x) as [c w1]
  end.
  simpl in Hn. destruct (bool_decide (c = Some true)); exact Hn.
Qed.

Arguments enviarDadosFirebase : simpl never.


Lemma nucleo_campos (w1 w2 : Mundo) :
  nucleo w1 = nucleo w2 ->
  sessaoAberta w1 = sessaoAberta w2
  /\ idUsuarioAtual w1 = idUsuarioAtual w2
  /\ tipoUsuarioAtual w1 = tipoUsuarioAtual w2
  /\ estadoAnteriorChaves w1 = estadoAnteriorChaves w2
  /\ eventos w1 = eventos w2.
Proof. unfold nucleo. intros H. injection H. auto. Qed.

Lemma set_pinoAlarme_nucleo (v : bool) (w : Mundo) :
  nucleo (set_pinoAlarme v w) = nucleo w.
Proof. reflexivity. Qed.

Lemma atualizarLCD_nucleo (texto : string) (corTipo : Z) (w : Mundo) :
  nucleo (atualizarLCD texto corTipo w) = nucleo w.
Proof. unfold atualizarLCD. by destruct (_ <=? 16). Qed.

Lemma delay_nucleo (ms : Z) (w : Mundo) : nucleo (delay ms w) = nucleo w.
Proof. reflexivity. Qed.

Lemma resetarLCDParaPadrao_nucleo (w : Mundo) :
  nucleo (resetarLCDParaPadrao w) = nucleo w.
Proof. reflexivity. Qed.

Lemma Serial_println_nucleo (s : string) (w : Mundo) :
  nucleo (Serial_println s w) = nucleo w.
Proof. reflexivity. Qed.

(** What the three reporting functions change besides the devices: the log
    of events, by one entry. *)
Lemma registrarRetirada_nucleo (pino : Z) (idUser tipoUser : string) (w : Mundo) :
  nucleo (registrarRetirada pino idUser tipoUser w) = nucleo (registrar (RetiradaAutorizada pino idUser tipoUser) w).
Proof.
  unfold registrarRetirada.
  rewrite enviarDadosFirebase_nucleo, atualizarLCD_nucleo, Serial_println_nucleo.
  reflexivity.
Qed.

Lemma registrarRetirada_campos (pino : Z) (idUser tipoUser : string) (w : Mundo) :
  sessaoAberta (registrarRetirada pino idUser tipoUser w) = sessaoAberta w
  /\ idUsuarioAtual (registrarRetirada pino idUser tipoUser w) = idUsuarioAtual w
  /\ tipoUsuarioAtual (registrarRetirada pino idUser tipoUser w) = tipoUsuarioAtual w
  /\ estadoAnteriorChaves (registrarRetirada pino idUser tipoUser w) = estadoAnteriorChaves w
  /\ eventos (registrarRetirada pino idUser tipoUser w) = (eventos w ++ [RetiradaAutorizada pino idUser tipoUser])%list.
Proof.
  exact (nucleo_campos _ _ (registrarRetirada_nucleo pino idUser tipoUser w)).
Qed.

Lemma registrarDevolucao_nucleo (pino : Z) (w : Mundo) :
  nucleo (registrarDevolucao pino w) = nucleo (registrar (Devolucao pino) w).
Proof.
  unfold registrarDevolucao.
  rewrite enviarDadosFirebase_nucleo, atualizarLCD_nucleo, Serial_println_nucleo.
  reflexivity.
Qed.

Lemma registrarDevolucao_campos (pino : Z) (w : Mundo) :
  sessaoAberta (registrarDevolucao pino w) = sessaoAberta w
  /\ idUsuarioAtual (registrarDevolucao pino w) = idUsuarioAtual w
  /\ tipoUsuarioAtual (registrarDevolucao pino w) = tipoUsuarioAtual w
  /\ estadoAnteriorChaves (registrarDevolucao pino w) = estadoAnteriorChaves w
  /\ eventos (registrarDevolucao pino w) = (eventos w ++ [Devolucao pino])%list.
Proof.
  exact (nucleo_campos _ _ (registrarDevolucao_nucleo pino w)).
Qed.

Lemma dispararAlarme_nucleo (pino : Z) (w : Mundo) :
  nucleo (dispararAlarme pino w) = nucleo (registrar (AlarmeRoubo pino) w).
Proof.
  unfold dispararAlarme.
  rewrite resetarLCDParaPadrao_nucleo, set_pinoAlarme_nucleo, delay_nucleo,
    enviarDadosFirebase_nucleo, set_pinoAlarme_nucleo, atualizarLCD_nucleo,
    Serial_println_nucleo.
  reflexivity.
Qed.

Lemma dispararAlarme_campos (pino : Z) (w : Mundo) :
  sessaoAberta (dispararAlarme pino w) = sessaoAberta w
  /\ idUsuarioAtual (dispararAlarme pino w) = idUsuarioAtual w
  /\ tipoUsuarioAtual (dispararAlarme pino w) = tipoUsuarioAtual w
  /\ estadoAnteriorChaves (dispararAlarme pino w) = estadoAnteriorChaves w
  /\ eventos (dispararAlarme pino w) = (eventos w ++ [AlarmeRoubo pino])%list.
Proof.
  exact (nucleo_campos _ _ (dispararAlarme_nucleo pino w)).
Qed.

(** One pin of the scan, by the level stored and the level read. *)
Lemma processarChave_casos (pino : Z) (index : nat) (lida ant : bool) (w : Mundo) :
  estadoAnteriorChaves w !! index = Some ant ->
  let w' := processarChave pino index lida w in
  estadoAnteriorChaves w' = <[index := lida]> (estadoAnteriorChaves w)
  /\ tipoUsuarioAtual w' = tipoUsuarioAtual w
  /\ match ant, lida with
     | false, true =>
         sessaoAberta w' = false
         /\ if sessaoAberta w
            then idUsuarioAtual w' = ""
                 /\ eventos w'
                    = (eventos w ++ [RetiradaAutorizada pino (idUsuarioAtual w)
                                       (tipoUsuarioAtual w)])%list
            else idUsuarioAtual w' = idUsuarioAtual w
                 /\ eventos w' = (eventos w ++ [AlarmeRoubo pino])%list
     | true, false =>
         sessaoAberta w' = sessaoAberta w
         /\ idUsuarioAtual w' = idUsuarioAtual w
         /\ eventos w' = (eventos w ++ [Devolucao pino])%list
     | _, _ => w' = w
     end.
Proof.
  intros Hant w'. subst w'. unfold processarChave.
  generalize (registrarDevolucao_campos pino w)
    (registrarRetirada_campos pino (idUsuarioAtual w) (tipoUsuarioAtual w) w)
    (dispararAlarme_campos pino w).
  generalize (registrarDevolucao pino w)
    (registrarRetirada pino (idUsuarioAtual w) (tipoUsuarioAtual w) w)
    (dispararAlarme pino w).
  intros xd xr xa (Hds & Hdi & Hdt & Hdc & Hde) (Hrs & Hri & Hrt & Hrc & Hre)
    (Has & Hai & Hat & Hac & Hae).
  rewrite Hant.
  destruct ant, lida; unfold HIGH, LOW; cbn [default Bool.eqb negb id].
  - split; [by rewrite list_insert_id|done].
  - campos. rewrite Hdc. auto.
  - destruct (sessaoAberta w) eqn:Ha; campos.
    + rewrite Hrc. auto.
    + rewrite Hac, Has. auto.
  - split; [by rewrite list_insert_id|done].
Qed.

Lemma varrerChaves_nil (digitalRead : Z -> bool) (index : nat) (w : Mundo) :
  varrerChaves digitalRead [] index w = w.
Proof. reflexivity. Qed.

Lemma varrerChaves_cons (digitalRead : Z -> bool) (pino : Z) (resto : list Z)
    (index : nat) (w : Mundo) :
  varrerChaves digitalRead (pino :: resto) index w
  = varrerChaves digitalRead resto (S index)
      (processarChave pino index (digitalRead pino) w).
Proof. reflexivity. Qed.

Lemma pinos_do_painel :
  seqZ PINO_CHAVE_INICIO (PINO_CHAVE_FIM - PINO_CHAVE_INICIO + 1) = [25; 26].
Proof. reflexivity. Qed.

(** C1. Whenever the scan finds a pin whose stored level says "key present"
    and whose level read says "key absent": with the session open it closes
    the session and reports exactly one authorized retrieval and nothing
    else; with the session closed it reports exactly one theft alarm and
    nothing else. A tick of the panel is this step taken for pin 25 and
    then for pin 26. *)
Theorem C1_retirada_ou_alarme (pino : Z) (index : nat) (w : Mundo) :
  estadoAnteriorChaves w !! index = Some LOW ->
  let w' := processarChave pino index HIGH w in
  (sessaoAberta w = true ->
     sessaoAberta w' = false
     /\ eventos w'
        = (eventos w ++ [RetiradaAutorizada pino (idUsuarioAtual w)
                           (tipoUsuarioAtual w)])%list)
  /\ (sessaoAberta w = false ->
     sessaoAberta w' = false
     /\ eventos w' = (eventos w ++ [AlarmeRoubo pino])%list)
  /\ (forall digitalRead w0,
        monitorarPainelDeChaves digitalRead w0
        = w0 |> processarChave 25 0 (digitalRead 25)
             |> processarChave 26 1 (digitalRead 26)).
Proof.
  intros Hant w'.
  destruct (processarChave_casos pino index HIGH LOW w Hant) as (_ & _ & Hf & H).
  fold w' in Hf, H.
  split; [|split].
  - intros Ha. rewrite Ha in H. tauto.
  - intros Ha. rewrite Ha in H. tauto.
  - intros digitalRead w0. unfold monitorarPainelDeChaves.
    rewrite pinos_do_painel. by rewrite !varrerChaves_cons, varrerChaves_nil.
Qed.

(** The key on [pino], stored at [index], was there at the last scan and is
    found missing now. *)
Definition removida (digitalRead : Z -> bool) (w : Mundo) (pino : Z) (index : nat)
    : Prop :=
  estadoAnteriorChaves w !! index = Some LOW /\ digitalRead pino = HIGH.

(** One pin of the scan, as the scan of the other pins sees it. *)
Lemma processarChave_resumo (digitalRead : Z -> bool) (pino : Z) (index : nat)
    (w : Mundo) :
  (index < length (estadoAnteriorChaves w))%nat ->
  let w' := processarChave pino index (digitalRead pino) w in
  length (estadoAnteriorChaves w') = length (estadoAnteriorChaves w)
  /\ (forall j, j <> index ->
        estadoAnteriorChaves w' !! j = estadoAnteriorChaves w !! j)
  /\ tipoUsuarioAtual w' = tipoUsuarioAtual w
  /\ exists novos,
       eventos w' = (eventos w ++ novos)%list
       /\ ((removida digitalRead w pino index
            /\ sessaoAberta w' = false
            /\ novos = [if sessaoAberta w
                        then RetiradaAutorizada pino (idUsuarioAtual w)
                               (tipoUsuarioAtual w)
                        else AlarmeRoubo pino])
           \/ (~ removida digitalRead w pino index
               /\ sessaoAberta w' = sessaoAberta w
               /\ idUsuarioAtual w' = idUsuarioAtual w
               /\ (novos = [] \/ novos = [Devolucao pino]))).
Proof.
  intros Hlt w'.
  destruct (lookup_lt_is_Some_2 _ _ Hlt) as [ant Hant].
  destruct (processarChave_casos pino index (digitalRead pino) ant w Hant)
    as (Hc & Ht & Hcaso).
  fold w' in Hc, Ht, Hcaso.
  split; [by rewrite Hc, length_insert|].
  split; [intros j Hj; rewrite Hc; by apply list_lookup_insert_ne|].
  split; [done|].
  unfold removida. rewrite Hant.
  destruct ant, (digitalRead pino); unfold HIGH, LOW.
  - exists []. split; [rewrite Hcaso; by rewrite app_nil_r|]. right.
    rewrite Hcaso. split; [intros [? ?]; congruence|auto].
  - destruct Hcaso as (Hs & Hi & He). exists [Devolucao pino].
    split; [done|]. right. split; [intros [? ?]; congruence|auto].
  - destruct Hcaso as (Hs & Hcaso).
    destruct (sessaoAberta w); destruct Hcaso as (Hi & He);
      eexists; (split; [exact He|]); left; auto.
  - exists []. split; [rewrite Hcaso; by rewrite app_nil_r|]. right.
    rewrite Hcaso. split; [intros [? ?]; congruence|auto].
Qed.

(** A scan that starts with the session closed: the session stays closed,
    no retrieval is reported and every key found missing raises the alarm. *)
Lemma varrerChaves_sessao_fechada (digitalRead : Z -> bool) :
  forall (pinos : list Z) (index : nat) (w : Mundo),
    sessaoAberta w = false ->
    (index + length pinos <= length (estadoAnteriorChaves w))%nat ->
    let w' := varrerChaves digitalRead pinos index w in
    sessaoAberta w' = false
    /\ exists novos,
         eventos w' = (eventos w ++ novos)%list
         /\ (forall q id t, RetiradaAutorizada q id t ∉ novos)
         /\ (forall j q, pinos !! j = Some q ->
               removida digitalRead w q (index + j) ->
               AlarmeRoubo q ∈ novos).
Proof.
  induction pinos as [|p pinos IH]; intros index w Hf Hlen; simpl.
  - split; [done|]. exists []. rewrite app_nil_r.
    split; [done|]. split; [intros q id t H; inversion H|].
    intros j q Hj. by rewrite lookup_nil in Hj.
  - simpl in Hlen.
    destruct (processarChave_resumo digitalRead p index w ltac:(lia))
      as (Hl & Hout & _ & n1 & He1 & Hcaso).
    set (w1 := processarChave p index (digitalRead p) w) in *.
    assert (Hf1 : sessaoAberta w1 = false).
    { destruct Hcaso as [(_ & H & _)|(_ & H & _)]; congruence. }
    destruct (IH (S index) w1 Hf1 ltac:(lia)) as (Hf' & n2 & He2 & Hno & Hal).
    split; [done|]. exists (n1 ++ n2)%list.
    split; [by rewrite He2, He1, app_assoc|]. split.
    + intros q id t Hin. apply elem_of_app in Hin as [Hin|Hin].
      * rewrite Hf in Hcaso.
        destruct Hcaso as [(_ & _ & ->)|(_ & _ & _ & [->| ->])];
          [ apply list_elem_of_singleton in Hin; discriminate Hin
          | inversion Hin
          | apply list_elem_of_singleton in Hin; discriminate Hin ].
      * by eapply Hno.
    + intros [|j] q Hj Hrem; apply elem_of_app.
      * simpl in Hj. injection Hj as ->. rewrite Nat.add_0_r in Hrem.
        left. rewrite Hf in Hcaso.
        destruct Hcaso as [(_ & _ & ->)|(Hn & _)]; [|done].
        by apply list_elem_of_singleton.
      * right. apply (Hal j q Hj). destruct Hrem as [Hr1 Hr2]. split; [|done].
        rewrite Hout by lia. rewrite <- Hr1. f_equal. lia.
Qed.

(** C2. The scan takes the pins in the order of [pinos] (25 then 26 on the
    panel of the sketch) and closes the session at the first key it finds
    missing: with the session open, the first pin found missing gets the one
    authorized retrieval of the tick, reported with the credential of the
    session; before it only returns are reported, after it no retrieval is
    reported and every other key found missing raises the theft alarm. *)
Theorem C2_primeira_retirada_fecha_sessao (digitalRead : Z -> bool) :
  forall (pinos : list Z) (index : nat) (w : Mundo) (i : nat) (p : Z),
    sessaoAberta w = true ->
    (index + length pinos <= length (estadoAnteriorChaves w))%nat ->
    pinos !! i = Some p ->
    removida digitalRead w p (index + i) ->
    (forall j q, (j < i)%nat -> pinos !! j = Some q ->
       ~ removida digitalRead w q (index + j)) ->
    let w' := varrerChaves digitalRead pinos index w in
    sessaoAberta w' = false
    /\ exists antes depois,
         eventos w'
         = (eventos w ++ antes
            ++ [RetiradaAutorizada p (idUsuarioAtual w) (tipoUsuarioAtual w)]
            ++ depois)%list
         /\ (forall e, e ∈ antes -> exists q, e = Devolucao q)
         /\ (forall q id t, RetiradaAutorizada q id t ∉ depois)
         /\ (forall j q, (i < j)%nat -> pinos !! j = Some q ->
               removida digitalRead w q (index + j) ->
               AlarmeRoubo q ∈ depois).
Proof.
  induction pinos as [|p0 pinos IH]; intros index w i p Ha Hlen Hi Hrem Hantes;
    [by rewrite lookup_nil in Hi|].
  simpl in Hlen. simpl.
  destruct (processarChave_resumo digitalRead p0 index w ltac:(lia))
    as (Hl & Hout & Htipo & n1 & He1 & Hcaso).
  set (w1 := processarChave p0 index (digitalRead p0) w) in *.
  destruct i as [|i].
  - simpl in Hi. injection Hi as <-. rewrite Nat.add_0_r in Hrem.
    destruct Hcaso as [(_ & Hf1 & Hn1)|(Hn & _)]; [|done].
    rewrite Ha in Hn1. subst n1.
    destruct (varrerChaves_sessao_fechada digitalRead pinos (S index) w1 Hf1
                ltac:(lia)) as (Hf' & n2 & He2 & Hno & Hal).
    split; [done|]. exists [], n2.
    split; [by rewrite He2, He1, <- app_assoc|].
    split; [intros e He; inversion He|]. split; [done|].
    intros [|j] q Hj Hq Hr; [lia|]. simpl in Hq.
    apply (Hal j q Hq). destruct Hr as [Hr1 Hr2]. split; [|done].
    rewrite Hout by lia. rewrite <- Hr1. f_equal. lia.
  - simpl in Hi.
    destruct Hcaso as [(Hr0 & _)|(_ & Hs1 & Hid1 & Hn1)].
    { exfalso. apply (Hantes 0%nat p0); [lia|done|]. by rewrite Nat.add_0_r. }
    assert (Hpass : forall j q,
              removida digitalRead w q (index + S j)
              <-> removida digitalRead w1 q (S index + j)).
    { intros j q. unfold removida. rewrite Hout by lia.
      replace (S index + j)%nat with (index + S j)%nat by lia. tauto. }
    destruct (IH (S index) w1 i p) as (Hf' & a & d & He & Ha' & Hd & Hal).
    + congruence.
    + lia.
    + done.
    + by apply Hpass.
    + intros j q Hj Hq Hr. apply (Hantes (S j) q); [lia|done|]. by apply Hpass.
    + split; [done|]. exists (n1 ++ a)%list, d.
      split; [rewrite He, He1, Hid1, Htipo; by rewrite <- !app_assoc|].
      split.
      * intros e Hin. apply elem_of_app in Hin as [Hin|Hin]; [|by apply Ha'].
        destruct Hn1 as [->| ->]; [inversion Hin|].
        apply list_elem_of_singleton in Hin. eauto.
      * split; [done|].
        intros [|j] q Hj Hq Hr; [lia|]. simpl in Hq.
        apply (Hal j q); [lia|done|]. by apply Hpass.
Qed.

(** The session of card 04A1B2C3 open, both keys on the panel, and both
    found missing by the same scan. *)
Definition duasRetiradas : Mundo :=
  monitorarPainelDeChaves (fun _ => HIGH)
    (autorizarSessao "RFID" "04A1B2C3" mundoInicial).

Lemma C2_primeira_retirada_witness :
  eventos duasRetiradas = [RetiradaAutorizada 25 "04A1B2C3" "RFID"; AlarmeRoubo 26]
  /\ exists antes depois,
       eventos duasRetiradas
       = ([] ++ antes ++ [RetiradaAutorizada 25 "04A1B2C3" "RFID"] ++ depois)%list
       /\ AlarmeRoubo 26 ∈ depois.
Proof.
  split; [vm_compute; reflexivity|].
  set (w := autorizarSessao "RFID" "04A1B2C3" mundoInicial).
  assert (Ha : sessaoAberta w = true) by reflexivity.
  assert (Hlen : (0 + length [25; 26] <= length (estadoAnteriorChaves w))%nat)
    by (vm_compute; lia).
  assert (Hi : [25; 26] !! 0%nat = Some 25) by reflexivity.
  assert (Hrem : removida (fun _ => HIGH) w 25 (0 + 0)) by (split; reflexivity).
  assert (Hantes : forall j q, (j < 0)%nat -> [25; 26] !! j = Some q ->
                     ~ removida (fun _ => HIGH) w q (0 + j)) by (intros; lia).
  destruct (C2_primeira_retirada_fecha_sessao (fun _ => HIGH) [25; 26] 0%nat w
              0%nat 25 Ha Hlen Hi Hrem Hantes)
    as (_ & antes & depois & He & _ & _ & Hal).
  exists antes, depois. split; [exact He|].
  apply (Hal 1%nat 26); [lia|reflexivity|split; reflexivity].
Defined.

Lemma C1_retirada_ou_alarme_witness :
  eventos (processarChave 25 0 HIGH (autorizarSessao "RFID" "04A1B2C3" mundoInicial))
  = [RetiradaAutorizada 25 "04A1B2C3" "RFID"]
  /\ eventos (processarChave 26 1 HIGH mundoInicial) = [AlarmeRoubo 26].
Proof.
  split.
  - assert (H : estadoAnteriorChaves
                  (autorizarSessao "RFID" "04A1B2C3" mundoInicial) !! 0%nat
                = Some LOW) by reflexivity.
    destruct (C1_retirada_ou_alarme 25 0
                (autorizarSessao "RFID" "04A1B2C3" mundoInicial) H)
      as (Hab & _ & _).
    destruct (Hab eq_refl) as (_ & He). exact He.
  - assert (H : estadoAnteriorChaves mundoInicial !! 1%nat = Some LOW)
      by reflexivity.
    destruct (C1_retirada_ou_alarme 26 1 mundoInicial H) as (_ & Hfe & _).
    destruct (Hfe eq_refl) as (_ & He). exact He.
Defined.

End Painel.

(* ====================================================================== *)
(** * 13. Theorems: the telemetry send                                     *)
(* ====================================================================== *)

Section Telemetria.

(** The clock when the [j]-th read of the wait begins, [r] being the clock
    at the first one: each read lasts what the line it returns takes, or
    the timeout once the modem is silent. *)
Fixpoint instante (r : Z) (rx : list (string * Z)) (j : nat) : Z :=
  match j with
  | O => r
  | S j' =>
      match rx with
      | (_, dur) :: resto => instante (uint32 (r + dur)) resto j'
      | [] => instante (uint32 (r + SERIAL_TIMEOUT)) [] j'
      end
  end.

(** Some line of [rx] carries the marker, and its read and every read
    before it begin less than 5000 ms after [t]. *)
Definition marcadorNaJanela (t r : Z) (rx : list (string * Z)) : Prop :=
  exists (k : nat) (linha : string) (dur : Z),
    rx !! k = Some (linha, dur)
    /\ indexOf linha "CONNECT" <> -1
    /\ (forall j l d, (j < k)%nat -> rx !! j = Some (l, d) ->
          indexOf l "CONNECT" = -1)
    /\ (forall j, (j <= k)%nat -> uint32 (instante r rx j - t) < 5000).

(** What is written before the wait, and what is written after the marker
    was seen. *)
Definition preambulo : list string :=
  ["AT+CIPCLOSE" ++ CRLF; "AT+CIPSSLSIZE=4096" ++ CRLF; comandoCIPSTART ++ CRLF].

Definition pedidoHTTP (jsonDados : string) : list string :=
  ["AT+CIPSEND=";
   String_DEC (Z.of_nat (String.length (cabecalhos jsonDados ++ jsonDados))) ++ CRLF;
   cabecalhos jsonDados;
   jsonDados].

Lemma uint32_soma (a d t : Z) :
  uint32 (uint32 (a + d) - t) = uint32 (uint32 (a - t) + d).
Proof.
  unfold uint32. rewrite Zminus_mod_idemp_l, Zplus_mod_idemp_l. f_equal. lia.
Qed.

(** Once the modem is silent the wait is over after at most five reads. *)
Lemma aguardarConnect_silencio (t : Z) :
  forall (n fuel : nat) (w : Mundo),
    wifiRx w = [] ->
    5000 - 1000 * Z.of_nat n <= uint32 (millis w - t) ->
    (n <= fuel)%nat ->
    fst (aguardarConnect fuel t w) = Some false.
Proof.
  induction n as [|n IH]; intros fuel w Hrx He Hf.
  - destruct fuel; simpl;
      destruct (Z.ltb_spec (uint32 (millis w - t)) 5000); try done; lia.
  - destruct fuel as [|fuel]; [lia|]. simpl.
    destruct (Z.ltb_spec (uint32 (millis w - t)) 5000) as [Hlt|]; [|done].
    unfold SerialWifi_readStringUntil. rewrite Hrx.
    change (negb (indexOf "" "CONNECT" =? -1)) with false. cbv iota.
    apply IH; [done| |lia].
    unfold millis, delay in *. campos. rewrite uint32_soma.
    assert (0 <= uint32 (relogio w - t)) by (apply Z.mod_pos_bound; lia).
    unfold uint32 at 1. unfold SERIAL_TIMEOUT. rewrite Z.mod_small; lia.
Qed.

(** The fuel given to the wait by [enviarDadosFirebase] is never used up. *)
Lemma aguardarConnect_termina (t : Z) :
  forall (rx : list (string * Z)) (w : Mundo) (fuel : nat),
    wifiRx w = rx ->
    (length rx + 5 <= fuel)%nat ->
    fst (aguardarConnect fuel t w) <> None.
Proof.
  induction rx as [|[linha dur] rx IH]; intros w fuel Hrx Hf.
  - destruct (Z.ltb_spec (uint32 (millis w - t)) 5000) as [Hlt|Hge].
    + rewrite (aguardarConnect_silencio t 5 fuel w Hrx); [done| |lia].
      assert (0 <= uint32 (millis w - t)) by (apply Z.mod_pos_bound; lia). lia.
    + rewrite (aguardarConnect_silencio t 0 fuel w Hrx); [done|lia|lia].
  - simpl in Hf. destruct fuel as [|fuel]; [lia|]. simpl.
    destruct (uint32 (millis w - t) <? 5000); [|done].
    unfold SerialWifi_readStringUntil. rewrite Hrx.
    destruct (negb (indexOf linha "CONNECT" =? -1)); [done|].
    apply IH; [done|lia].
Qed.

(** The wait answers [true] exactly when the marker is seen in the window. *)
Lemma aguardarConnect_marcador (t : Z) :
  forall (rx : list (string * Z)) (w : Mundo) (fuel : nat),
    wifiRx w = rx ->
    (length rx + 5 <= fuel)%nat ->
    fst (aguardarConnect fuel t w) = Some true
    <-> marcadorNaJanela t (millis w) rx.
Proof.
  induction rx as [|[linha dur] rx IH]; intros w fuel Hrx Hf.
  - split.
    + intros H. pose proof (aguardarConnect_termina t [] w fuel Hrx Hf) as Hn.
      destruct (Z.ltb_spec (uint32 (millis w - t)) 5000) as [Hlt|Hge].
      * rewrite (aguardarConnect_silencio t 5 fuel w Hrx) in H; [done| |lia].
        assert (0 <= uint32 (millis w - t)) by (apply Z.mod_pos_bound; lia). lia.
      * rewrite (aguardarConnect_silencio t 0 fuel w Hrx) in H; [done|lia|lia].
    + intros (k & l & d & Hk & _). by rewrite lookup_nil in Hk.
  - simpl in Hf. destruct fuel as [|fuel]; [lia|]. simpl.
    destruct (Z.ltb_spec (uint32 (millis w - t)) 5000) as [Hlt|Hge].
    + unfold SerialWifi_readStringUntil. rewrite Hrx.
      destruct (Z.eqb_spec (indexOf linha "CONNECT") (-1)) as [Hsem|Hcom]; simpl.
      * rewrite (IH _ fuel); [|done|lia]. unfold millis. campos.
        split.
        -- intros (k & l & d & Hk & Hl & Hantes & Hjan).
           exists (S k), l, d. split; [done|]. split; [done|]. split.
           ++ intros [|j] l' d' Hj Hl'; simpl in Hl'.
              ** by injection Hl' as <- <-.
              ** apply (Hantes j l' d'); [lia|done].
           ++ intros [|j] Hj; simpl; [done|]. apply Hjan. lia.
        -- intros (k & l & d & Hk & Hl & Hantes & Hjan).
           destruct k as [|k].
           ++ simpl in Hk. injection Hk as <- <-. done.
           ++ exists k, l, d. split; [done|]. split; [done|]. split.
              ** intros j l' d' Hj Hl'. apply (Hantes (S j) l' d'); [lia|done].
              ** intros j Hj. apply (Hjan (S j)). lia.
      * split; [|done]. intros _. exists 0%nat, linha, dur.
        split; [done|]. split; [done|]. split; [intros; lia|].
        intros j Hj. assert (j = 0%nat) as -> by lia. done.
    + split; [done|]. intros (k & l & d & _ & _ & _ & Hjan).
      specialize (Hjan 0%nat ltac:(lia)). simpl in Hjan. lia.
Qed.

Lemma aguardarConnect_wifiTx (t : Z) :
  forall (fuel : nat) (w : Mundo),
    wifiTx (snd (aguardarConnect fuel t w)) = wifiTx w.
Proof.
  induction fuel as [|fuel IH]; intros w; simpl.
  - by destruct (uint32 (millis w - t) <? 5000).
  - destruct (uint32 (millis w - t) <? 5000); [|done].
    unfold SerialWifi_readStringUntil.
    destruct (wifiRx w) as [|[linha dur] resto];
      (destruct (negb (indexOf _ "CONNECT" =? -1)); [done|]);
      by rewrite IH.
Qed.

Lemma comprimento_app (s1 s2 : string) :
  String.length (s1 ++ s2) = (String.length s1 + String.length s2)%nat.
Proof. induction s1 as [|c s1 IH]; simpl; [done|]. by rewrite IH. Qed.

(** While headers and body together are shorter than 65536 bytes, the
    length announced to the modem is not reduced by the 16-bit arithmetic
    of [String::length()] and of the sum. *)
Lemma comprimento_exato (jsonDados : string) :
  Z.of_nat (String.length (cabecalhos jsonDados ++ jsonDados)) < 65536 ->
  uint16 (comprimento (cabecalhos jsonDados) + comprimento jsonDados)
  = Z.of_nat (String.length (cabecalhos jsonDados ++ jsonDados)).
Proof.
  rewrite comprimento_app, Nat2Z.inj_add.
  generalize (cabecalhos jsonDados). intros h Hlen.
  unfold comprimento, uint16.
  rewrite (Z.mod_small (Z.of_nat (String.length h))) by lia.
  rewrite (Z.mod_small (Z.of_nat (String.length jsonDados))) by lia.
  apply Z.mod_small. lia.
Qed.

(** The wait is over less than 5000 ms plus the time of one read after the
    connection was requested: a read begins only while less than 5000 ms
    have passed, and then lasts what it lasts. *)
Lemma aguardarConnect_duracao (t D : Z) :
  SERIAL_TIMEOUT <= D -> 5000 + D < 4294967296 ->
  forall (fuel : nat) (w : Mundo),
    Forall (fun x => 0 <= snd x <= D) (wifiRx w) ->
    uint32 (millis w - t) < 5000 + D ->
    uint32 (millis (snd (aguardarConnect fuel t w)) - t) < 5000 + D.
Proof.
  intros HD1 HD2.
  assert (Hpasso : forall (w : Mundo) (d : Z),
            uint32 (millis w - t) < 5000 -> 0 <= d <= D ->
            uint32 (uint32 (relogio w + d) - t) < 5000 + D).
  { intros w d He Hd. rewrite uint32_soma. unfold millis in He.
    revert He. generalize (Z.mod_pos_bound (relogio w - t) 4294967296 eq_refl).
    fold (uint32 (relogio w - t)). generalize (uint32 (relogio w - t)).
    intros e He0 He. unfold uint32. rewrite Z.mod_small; lia. }
  induction fuel as [|fuel IH]; intros w HF He; cbn [aguardarConnect];
    destruct (Z.ltb_spec (uint32 (millis w - t)) 5000) as [Hlt|Hge]; try done.
  unfold SerialWifi_readStringUntil.
  destruct (wifiRx w) as [|[linha dur] resto] eqn:Hrx.
  - change (negb (indexOf "" "CONNECT" =? -1)) with false. cbv iota.
    apply IH.
    + campos. by rewrite Hrx.
    + unfold millis. campos. apply Hpasso; [done|]. unfold SERIAL_TIMEOUT in *. lia.
  - apply Forall_cons in HF as [Hd HF]. cbn [snd] in Hd.
    destruct (negb (indexOf linha "CONNECT" =? -1)); cbn [snd].
    + unfold millis. campos. by apply Hpasso.
    + apply IH.
      * by campos.
      * unfold millis. campos. by apply Hpasso.
Qed.

(** C9, amended. A send writes the three modem commands and then reads the
    lines of the modem one after the other. A read only begins while less
    than 5000 ms have passed since the connection was requested, and the
    wait always ends; it is over less than 5000 ms plus the time of one
    read after the request, which may be later than 5000 ms. If no line
    whose read began in that window carries "CONNECT", nothing more is
    written: no payload, no second connection request. If one does, also
    when it arrives after the 5000 ms, the modem is told the exact number
    of bytes of headers plus body (while that number is below 65536) and
    then receives the headers and the JSON body, in this order. *)
Theorem C9_envio_telemetria (jsonDados : string) (w : Mundo) :
  Z.of_nat (String.length (cabecalhos jsonDados ++ jsonDados)) < 65536 ->
  let t := uint32 (uint32 (relogio w + 100) + 50) in
  let w' := enviarDadosFirebase jsonDados w in
  (marcadorNaJanela t t (wifiRx w) ->
     wifiTx w' = (wifiTx w ++ preambulo ++ pedidoHTTP jsonDados)%list)
  /\ (~ marcadorNaJanela t t (wifiRx w) ->
     wifiTx w' = (wifiTx w ++ preambulo)%list)
  /\ (forall t0 w0, fst (aguardarConnect (combustivelConnect w0) t0 w0) <> None)
  /\ (forall D,
        SERIAL_TIMEOUT <= D -> 5200 + D < 4294967296 ->
        Forall (fun x => 0 <= snd x <= D) (wifiRx w) ->
        uint32 (relogio w' - t) < 5200 + D).
Proof.
  intros Hlen t w'.
  split; [|split; [|split]];
    [| |intros t0 w0; by apply (aguardarConnect_termina t0 (wifiRx w0))|].
  - intros Hm. subst w'. unfold enviarDadosFirebase.
    match goal with
    | |- context [aguardarConnect ?f ?t1 ?x] =>
        pose proof (aguardarConnect_wifiTx t1 f x) as Htx;
        pose proof (proj2 (aguardarConnect_marcador t1 (wifiRx w) x f
                             eq_refl (Nat.le_refl _)) Hm) as Hc;
        destruct (aguardarConnect f t1 x) as [c w1]
    end.
    simpl in Hc. subst c. rewrite bool_decide_eq_true_2 by done.
    campos. rewrite Htx, comprimento_exato by done.
    unfold preambulo, pedidoHTTP. rewrite <- !app_assoc. reflexivity.
  - intros Hm. subst w'. unfold enviarDadosFirebase.
    match goal with
    | |- context [aguardarConnect ?f ?t1 ?x] =>
        pose proof (aguardarConnect_wifiTx t1 f x) as Htx;
        pose proof (proj1 (aguardarConnect_marcador t1 (wifiRx w) x f
                             eq_refl (Nat.le_refl _))) as Hc;
        destruct (aguardarConnect f t1 x) as [c w1]
    end.
    simpl in Hc. rewrite bool_decide_eq_false_2 by (intros ->; by apply Hm, Hc).
    campos. rewrite Htx. unfold preambulo. rewrite <- !app_assoc. reflexivity.
  - intros D HD1 HD2 HF. subst w'. unfold enviarDadosFirebase.
    match goal with
    | |- context [aguardarConnect ?f ?t1 ?x] =>
        assert (He0 : uint32 (millis x - t1) < 5000 + D)
          by (rewrite Z.sub_diag; unfold uint32, SERIAL_TIMEOUT in *;
              rewrite Z.mod_0_l; lia);
        generalize (aguardarConnect_duracao t1 D HD1 ltac:(lia) f x HF He0);
        generalize (aguardarConnect f t1 x)
    end.
    intros [c w1] Hd. cbn [fst snd] in Hd.
    match type of Hd with
    | uint32 (_ - ?t1) < _ => change t1 with t in Hd
    end.
    unfold millis in Hd.
    revert Hd. generalize (Z.mod_pos_bound (relogio w1 - t) 4294967296 eq_refl).
    fold (uint32 (relogio w1 - t)).
    destruct (bool_decide (c = Some true)); campos.
    + rewrite uint32_soma. generalize (uint32 (relogio w1 - t)).
      intros e He1 He2. unfold uint32. rewrite Z.mod_small; lia.
    + generalize (uint32 (relogio w1 - t)). intros e He1 He2. lia.
Qed.

(** A retrieval reported while the modem answers "OK" and then "CONNECT". *)
Definition jsonExemplo : string :=
  "{" ++ campo "evento" ++ aspas ++ "DEVOLUCAO" ++ aspas ++ ","
  ++ campo "pino" ++ "25}".

Definition modemConecta : Mundo :=
  set_wifiRx [("OK", 5); ("CONNECT", 20)] mundoInicial.

Lemma C9_envio_witness :
  Z.of_nat (String.length (cabecalhos jsonExemplo ++ jsonExemplo)) < 65536
  /\ wifiTx (enviarDadosFirebase jsonExemplo modemConecta)
     = (preambulo ++ pedidoHTTP jsonExemplo)%list
  /\ nth 1 (pedidoHTTP jsonExemplo) "" = "167" ++ CRLF.
Proof.
  assert (Hlen : Z.of_nat (String.length (cabecalhos jsonExemplo ++ jsonExemplo))
                 < 65536) by (vm_compute; reflexivity).
  split; [exact Hlen|]. split; [|vm_compute; reflexivity].
  apply (proj1 (C9_envio_telemetria jsonExemplo modemConecta Hlen)).
  exists 1%nat, "CONNECT", 20.
  split; [reflexivity|]. split; [vm_compute; discriminate|]. split.
  - intros [|j] l d Hj Hl; [|lia]. injection Hl as <- <-. reflexivity.
  - intros [|[|j]] Hj; [vm_compute; reflexivity|vm_compute; reflexivity|lia].
Defined.

(** A modem that answers slowly: five lines without the marker, each
    900 ms after the one before, and then the marker, 900 ms later. *)
Definition modemLento : Mundo :=
  set_wifiRx [("busy p...", 900); ("busy p...", 900); ("busy p...", 900);
              ("busy p...", 900); ("busy p...", 900); ("CONNECT", 900)]
    mundoInicial.

(** C9 as stated fails: no line received in the 5000 ms after the
    connection was requested carries the marker, which is received 5400 ms
    after the request; the event is not dropped, the payload is written,
    and the polling has lasted more than 5000 ms. *)
Lemma C9_marcador_depois_da_janela :
  let t := uint32 (uint32 (relogio modemLento + 100) + 50) in
  Forall (fun x => indexOf (fst x) "CONNECT" = -1) (take 5 (wifiRx modemLento))
  /\ uint32 (instante t (wifiRx modemLento) 5 - t) = 4500
  /\ wifiRx modemLento !! 5%nat = Some ("CONNECT", 900)
  /\ uint32 (instante t (wifiRx modemLento) 6 - t) = 5400
  /\ ~ (wifiTx (enviarDadosFirebase jsonExemplo modemLento)
        = (wifiTx modemLento ++ preambulo)%list)
  /\ wifiTx (enviarDadosFirebase jsonExemplo modemLento)
     = (wifiTx modemLento ++ preambulo ++ pedidoHTTP jsonExemplo)%list.
Proof.
  cbv zeta. split; [by repeat constructor|].
  split; [vm_compute; reflexivity|]. split; [reflexivity|].
  split; [vm_compute; reflexivity|].
  split; [|vm_compute; reflexivity].
  intros H. vm_compute in H. discriminate H.
Qed.

End Telemetria.

(* ====================================================================== *)
(** * 14. Theorems: the enrollment routine                                 *)
(* ====================================================================== *)

Section Cadastro.

(** [n] successful load commands for the indices from [i] upwards. *)
Fixpoint cargasOK (n : nat) (i : Z) : list Chamada :=
  match n with
  | O => []
  | S n' => LoadModel i FINGERPRINT_OK :: cargasOK n' (i + 1)
  end.

Definition soGetImage (l : list Chamada) : Prop :=
  Forall (fun c => exists p, c = GetImage p) l.

(** What [atualizarLCD] puts on the display. *)
Definition telaLCD (texto : string) (corTipo : Z) : string * string * Z :=
  if (Z.of_nat (String.length texto) <=? 16) then (texto, "", corTipo)
  else (String_substring texto 0 16, String_substring texto 16 32, corTipo).

(** The screen each way out of the routine leaves on the display. *)
Definition telaDe (s : Saida) : string * string * Z :=
  match s with
  | RfidCadastrado => ("RFID Cadastrado!", "", COR_SUCESSO)
  | MemoriaCheia => ("Memoria Cheia", "", COR_ERRO)
  | ErroLeitura1 => ("Erro Leitura 1", "", COR_ERRO)
  | TempoEsgotadoBio => ("Tempo Esgotado", "", COR_ERRO)
  | ErroLeitura2 => ("Erro Leitura 2", "", COR_ERRO)
  | DedoDiferente => ("Dedo Diferente!", "", COR_ERRO)
  | BiometriaSalva id => telaLCD ("Salvo ID " ++ String_DEC id) COR_SUCESSO
  | ErroAoSalvar => ("Erro ao Salvar", "", COR_ERRO)
  | TempoEsgotado => ("Tempo Esgotado", "", COR_ERRO)
  | SemRetorno => ("", "", 0)
  end.

(** The commands steps 5 and 6 send, by the way they end. *)
Inductive formaCriar (id : Z) : Saida -> list Chamada -> Prop :=
| fc_diferente p :
    p <> FINGERPRINT_OK -> formaCriar id DedoDiferente [CreateModel p]
| fc_salva :
    formaCriar id (BiometriaSalva id)
      [CreateModel FINGERPRINT_OK; StoreModel id FINGERPRINT_OK]
| fc_erro q :
    q <> FINGERPRINT_OK ->
    formaCriar id ErroAoSalvar [CreateModel FINGERPRINT_OK; StoreModel id q].

(** The commands steps 2 to 6 send. *)
Inductive formaConfirmar (id : Z) : Saida -> list Chamada -> Prop :=
| fcf_preso G : soGetImage G -> formaConfirmar id SemRetorno G
| fcf_tempo G : soGetImage G -> formaConfirmar id TempoEsgotadoBio G
| fcf_erro2 G p :
    soGetImage G -> p <> FINGERPRINT_OK ->
    formaConfirmar id ErroLeitura2 (G ++ [Image2Tz 2 p])
| fcf_criar G s L :
    soGetImage G -> formaCriar id s L ->
    formaConfirmar id s (G ++ Image2Tz 2 FINGERPRINT_OK :: L).

(** The commands option B sends: the search, then the captures. *)
Inductive formaBio : Saida -> list Chamada -> Prop :=
| fb_cheia : formaBio MemoriaCheia (cargasOK 127 1)
| fb_erro1 (k : nat) p q :
    (k < 127)%nat -> p <> FINGERPRINT_OK -> q <> FINGERPRINT_OK ->
    formaBio ErroLeitura1
      (cargasOK k 1 ++ [LoadModel (1 + Z.of_nat k) p; Image2Tz 1 q])
| fb_confirma (k : nat) p s L :
    (k < 127)%nat -> p <> FINGERPRINT_OK ->
    formaConfirmar (1 + Z.of_nat k) s L ->
    formaBio s
      (cargasOK k 1
       ++ LoadModel (1 + Z.of_nat k) p :: Image2Tz 1 FINGERPRINT_OK :: L).

(** The commands the whole routine sends. *)
Inductive formaRotina : Saida -> list Chamada -> Prop :=
| fr_semRetorno G : soGetImage G -> formaRotina SemRetorno G
| fr_tempo G : soGetImage G -> formaRotina TempoEsgotado G
| fr_rfid G : soGetImage G -> formaRotina RfidCadastrado G
| fr_bio G s L :
    soGetImage G -> formaBio s L ->
    formaRotina s (G ++ GetImage FINGERPRINT_OK :: L).

Lemma atualizarLCD_sensorLog (texto : string) (corTipo : Z) (w : Mundo) :
  sensorLog (atualizarLCD texto corTipo w) = sensorLog w.
Proof. unfold atualizarLCD. by destruct (_ <=? 16). Qed.

Lemma Serial_println_sensorLog (s : string) (w : Mundo) :
  sensorLog (Serial_println s w) = sensorLog w.
Proof. reflexivity. Qed.

Lemma delay_sensorLog (ms : Z) (w : Mundo) : sensorLog (delay ms w) = sensorLog w.
Proof. reflexivity. Qed.

Lemma anotar_sensorLog (amb : Sensores) (c : Chamada) (w : Mundo) :
  sensorLog (anotar amb (Some c) w) = (sensorLog w ++ [c])%list.
Proof. reflexivity. Qed.

Lemma anotar_nada_sensorLog (amb : Sensores) (w : Mundo) :
  sensorLog (anotar amb None w) = sensorLog w.
Proof. unfold anotar. campos. cbn [option_list]. apply app_nil_r. Qed.

Lemma salvarTagEEPROM_sensorLog (tag : string) (w : Mundo) :
  sensorLog (salvarTagEEPROM tag w) = sensorLog w.
Proof. reflexivity. Qed.

Lemma Serial_println_visor (s : string) (w : Mundo) :
  visor (Serial_println s w) = visor w.
Proof. reflexivity. Qed.

Lemma delay_visor (ms : Z) (w : Mundo) : visor (delay ms w) = visor w.
Proof. reflexivity. Qed.

Lemma atualizarLCD_ultima (texto : string) (corTipo : Z) (w : Mundo) :
  last (visor (atualizarLCD texto corTipo w)) = Some (telaLCD texto corTipo).
Proof.
  unfold atualizarLCD, telaLCD.
  destruct (_ <=? 16); campos; apply last_snoc.
Qed.

Lemma eqb_OK (p : Z) : (p =? FINGERPRINT_OK) = true -> p = FINGERPRINT_OK.
Proof. apply Z.eqb_eq. Qed.

Lemma neqb_OK (p : Z) : (p =? FINGERPRINT_OK) = false -> p <> FINGERPRINT_OK.
Proof. apply Z.eqb_neq. Qed.

Create Rewrite HintDb sensorlog.
Hint Rewrite atualizarLCD_sensorLog Serial_println_sensorLog delay_sensorLog
  anotar_sensorLog anotar_nada_sensorLog salvarTagEEPROM_sensorLog : sensorlog.

Create Rewrite HintDb visor.
Hint Rewrite Serial_println_visor delay_visor : visor.

Ltac logs := cbn [fst snd] in *; autorewrite with sensorlog in *.
Ltac tela := cbn [fst snd]; autorewrite with visor; apply atualizarLCD_ultima.

(** The search: successful loads in ascending order, closed by the first
    load that fails, whose index is the result. *)
Lemma buscarIdLivre_forma (amb : Sensores) :
  forall (n : nat) (i : Z) (w : Mundo),
    exists L,
      sensorLog (snd (buscarIdLivre amb n i w)) = (sensorLog w ++ L)%list
      /\ ((fst (buscarIdLivre amb n i w) = -1 /\ L = cargasOK n i)
          \/ exists (k : nat) (p : Z),
               (k < n)%nat
               /\ fst (buscarIdLivre amb n i w) = i + Z.of_nat k
               /\ p <> FINGERPRINT_OK
               /\ L = (cargasOK k i ++ [LoadModel (i + Z.of_nat k) p])%list).
Proof.
  induction n as [|n IH]; intros i w.
  - exists []. simpl. rewrite app_nil_r. auto.
  - cbn [buscarIdLivre finger_loadModel].
    destruct (r_loadModel amb (passo w) i =? FINGERPRINT_OK) eqn:Hp; cbn [negb].
    + apply eqb_OK in Hp. rewrite Hp.
      destruct (IH (i + 1) (anotar amb (Some (LoadModel i FINGERPRINT_OK)) w))
        as (L & HL & Hcaso).
      exists (LoadModel i FINGERPRINT_OK :: L). split.
      * rewrite HL. logs. by rewrite <- ?app_assoc.
      * destruct Hcaso as [[Hf ->]|(k & p & Hk & Hf & Hne & ->)].
        -- left. done.
        -- right. exists (S k), p. split; [lia|].
           replace (i + Z.of_nat (S k)) with (i + 1 + Z.of_nat k) by lia.
           done.
    + apply neqb_OK in Hp.
      exists [LoadModel i (r_loadModel amb (passo w) i)]. split; [done|].
      right. exists 0%nat, (r_loadModel amb (passo w) i).
      rewrite Z.add_0_r. split; [lia|done].
Qed.

Lemma aguardarRetirada_forma (amb : Sensores) :
  forall (fuel : nat) (w : Mundo),
    exists G,
      sensorLog (snd (aguardarRetirada amb fuel w)) = (sensorLog w ++ G)%list
      /\ soGetImage G.
Proof.
  induction fuel as [|fuel IH]; intros w.
  - exists []. simpl. rewrite app_nil_r. split; [done|constructor].
  - cbn [aguardarRetirada finger_getImage].
    destruct (negb (r_getImage amb (passo w) =? FINGERPRINT_NOFINGER)).
    + destruct (IH (anotar amb (Some (GetImage (r_getImage amb (passo w)))) w))
        as (G & HG & Hso).
      exists (GetImage (r_getImage amb (passo w)) :: G). split.
      * rewrite HG. logs. by rewrite <- ?app_assoc.
      * constructor; [eauto|done].
    + exists [GetImage (r_getImage amb (passo w))]. split; [done|].
      constructor; [eauto|constructor].
Qed.

Lemma aguardarSegundoDedo_forma (amb : Sensores) (timerBio2 : Z) :
  forall (fuel : nat) (w : Mundo),
    exists G,
      sensorLog (snd (aguardarSegundoDedo amb fuel timerBio2 w))
      = (sensorLog w ++ G)%list
      /\ soGetImage G.
Proof.
  assert (Hnil : forall w : Mundo,
            exists G, sensorLog w = (sensorLog w ++ G)%list /\ soGetImage G).
  { intros w. exists []. rewrite app_nil_r. split; [done|constructor]. }
  induction fuel as [|fuel IH]; intros w; cbn [aguardarSegundoDedo];
    destruct (uint32 (millis w - timerBio2) <? 5000); try apply Hnil.
  cbn [finger_getImage].
  destruct (r_getImage amb (passo w) =? FINGERPRINT_OK).
  - exists [GetImage (r_getImage amb (passo w))]. split; [done|].
    constructor; [eauto|constructor].
  - destruct (IH (anotar amb (Some (GetImage (r_getImage amb (passo w)))) w))
      as (G & HG & Hso).
    exists (GetImage (r_getImage amb (passo w)) :: G). split.
    + rewrite HG. logs. by rewrite <- ?app_assoc.
    + constructor; [eauto|done].
Qed.

(** Steps 5 and 6, by the answers of the sensor. *)
Lemma criarESalvar_forma (amb : Sensores) (idNovo : Z) (w : Mundo) :
  exists L,
    sensorLog (snd (criarESalvar amb idNovo w)) = (sensorLog w ++ L)%list
    /\ formaCriar idNovo (fst (criarESalvar amb idNovo w)) L
    /\ last (visor (snd (criarESalvar amb idNovo w)))
       = Some (telaDe (fst (criarESalvar amb idNovo w))).
Proof.
  unfold criarESalvar. cbn [finger_createModel finger_storeModel].
  match goal with
  | |- context [r_createModel amb ?n] => generalize (r_createModel amb n)
  end.
  intros p. destruct (p =? FINGERPRINT_OK) eqn:Hp; cbn [negb].
  - apply eqb_OK in Hp. rewrite Hp.
    match goal with
    | |- context [r_storeModel amb ?n idNovo] =>
        generalize (r_storeModel amb n idNovo)
    end.
    intros q. destruct (q =? FINGERPRINT_OK) eqn:Hq.
    + apply eqb_OK in Hq. rewrite Hq.
      exists [CreateModel FINGERPRINT_OK; StoreModel idNovo FINGERPRINT_OK].
      split; [logs; by rewrite <- ?app_assoc|]. split; [constructor|].
      tela.
    + apply neqb_OK in Hq.
      exists [CreateModel FINGERPRINT_OK; StoreModel idNovo q].
      split; [logs; by rewrite <- ?app_assoc|]. split; [by constructor|].
      tela.
  - apply neqb_OK in Hp. exists [CreateModel p].
    split; [logs; done|]. split; [by constructor|].
    tela.
Qed.

(** Steps 2 to 6. *)
Lemma confirmarDedo_forma (amb : Sensores) (fuel : nat) (idNovo : Z) (w : Mundo) :
  exists L,
    sensorLog (snd (confirmarDedo amb fuel idNovo w)) = (sensorLog w ++ L)%list
    /\ formaConfirmar idNovo (fst (confirmarDedo amb fuel idNovo w)) L
    /\ (fst (confirmarDedo amb fuel idNovo w) <> SemRetorno ->
        last (visor (snd (confirmarDedo amb fuel idNovo w)))
        = Some (telaDe (fst (confirmarDedo amb fuel idNovo w)))).
Proof.
  unfold confirmarDedo.
  match goal with
  | |- context [aguardarRetirada amb fuel ?x] =>
      destruct (aguardarRetirada_forma amb fuel x) as (G1 & HG1 & Hso1);
      destruct (aguardarRetirada amb fuel x) as [[[]|] w1]
  end; cbn [fst snd] in HG1; logs.
  2:{ exists G1. split; [done|]. split; [by constructor|done]. }
  match goal with
  | |- context [aguardarSegundoDedo amb fuel ?t ?x] =>
      destruct (aguardarSegundoDedo_forma amb t fuel x) as (G2 & HG2 & Hso2);
      destruct (aguardarSegundoDedo amb fuel t x) as [[[|]|] w2]
  end; cbn [fst snd] in HG2; logs.
  - cbn [finger_image2Tz].
    match goal with
    | |- context [r_image2Tz amb ?n 2] => generalize (r_image2Tz amb n 2)
    end.
    intros p. destruct (p =? FINGERPRINT_OK) eqn:Hp; cbn [negb].
    + apply eqb_OK in Hp. rewrite Hp.
      match goal with
      | |- context [criarESalvar amb idNovo ?x] =>
          destruct (criarESalvar_forma amb idNovo x) as (L & HL & Hf & Ht);
          destruct (criarESalvar amb idNovo x) as [s w3]
      end.
      cbn [fst snd] in *. logs.
      exists ((G1 ++ G2) ++ Image2Tz 2 FINGERPRINT_OK :: L)%list.
      split; [rewrite HL, HG2, HG1; by rewrite <- ?app_assoc|].
      split; [|done]. constructor; [by apply Forall_app|done].
    + apply neqb_OK in Hp.
      exists ((G1 ++ G2) ++ [Image2Tz 2 p])%list.
      split; [logs; rewrite HG2, HG1; by rewrite <- ?app_assoc|].
      split; [constructor; [by apply Forall_app|done]|].
      intros _. tela.
  - exists (G1 ++ G2)%list.
    split; [logs; rewrite HG2, HG1; by rewrite <- ?app_assoc|].
    split; [constructor; by apply Forall_app|].
    intros _. tela.
  - exists (G1 ++ G2)%list.
    split; [rewrite HG2, HG1; by rewrite <- ?app_assoc|].
    split; [constructor; by apply Forall_app|done].
Qed.

(** Option B: the search comes first, a conversion only follows a load that
    failed. *)
Lemma cadastroBiometria_forma (amb : Sensores) (fuel : nat) (w : Mundo) :
  exists L,
    sensorLog (snd (cadastroBiometria amb fuel w)) = (sensorLog w ++ L)%list
    /\ formaBio (fst (cadastroBiometria amb fuel w)) L
    /\ (fst (cadastroBiometria amb fuel w) <> SemRetorno ->
        last (visor (snd (cadastroBiometria amb fuel w)))
        = Some (telaDe (fst (cadastroBiometria amb fuel w)))).
Proof.
  unfold cadastroBiometria.
  match goal with
  | |- context [buscarIdLivre amb 127 1 ?x] =>
      destruct (buscarIdLivre_forma amb 127 1 x) as (L0 & HL0 & Hcaso);
      destruct (buscarIdLivre amb 127 1 x) as [idNovo w1]
  end.
  cbn [fst snd] in *. logs.
  destruct Hcaso as [[-> ->]|(k & p & Hk & -> & Hp & ->)].
  - change (-1 =? -1) with true. cbv iota.
    exists (cargasOK 127 1). split; [logs; done|]. split; [constructor|].
    intros _. tela.
  - destruct (Z.eqb_spec (1 + Z.of_nat k) (-1)) as [|_]; [lia|].
    cbn [finger_image2Tz].
    match goal with
    | |- context [r_image2Tz amb ?n 1] => generalize (r_image2Tz amb n 1)
    end.
    intros q. destruct (q =? FINGERPRINT_OK) eqn:Hq; cbn [negb].
    + apply eqb_OK in Hq. rewrite Hq.
      match goal with
      | |- context [confirmarDedo amb fuel ?i ?x] =>
          destruct (confirmarDedo_forma amb fuel i x) as (L & HL & Hf & Ht);
          destruct (confirmarDedo amb fuel i x) as [s w2]
      end.
      cbn [fst snd] in *. logs.
      eexists. split; [rewrite HL, HL0; rewrite <- ?app_assoc; reflexivity|].
      split; [|done]. cbn [app]. by constructor.
    + apply neqb_OK in Hq.
      eexists. split; [logs; rewrite HL0; rewrite <- ?app_assoc; reflexivity|].
      split; [cbn [app]; by constructor|].
      intros _. tela.
Qed.

Lemma cadastroRFID_forma (uid : list Z) (w : Mundo) :
  sensorLog (snd (cadastroRFID uid w)) = sensorLog w
  /\ fst (cadastroRFID uid w) = RfidCadastrado
  /\ last (visor (snd (cadastroRFID uid w))) = Some (telaDe RfidCadastrado).
Proof.
  unfold cadastroRFID. cbn [fst snd]. split; [|split; [done|]].
  - by logs.
  - tela.
Qed.

(** The window of the routine: polls that find nothing, then option A,
    option B or the end of the window. *)
Lemma janelaCadastro_forma (amb : Sensores) (interno : nat) (t : Z) :
  forall (fuel : nat) (w : Mundo),
    exists L,
      sensorLog (snd (janelaCadastro amb interno fuel t w))
      = (sensorLog w ++ L)%list
      /\ formaRotina (fst (janelaCadastro amb interno fuel t w)) L
      /\ (fst (janelaCadastro amb interno fuel t w) <> SemRetorno ->
          last (visor (snd (janelaCadastro amb interno fuel t w)))
          = Some (telaDe (fst (janelaCadastro amb interno fuel t w)))).
Proof.
  induction fuel as [|fuel IH]; intros w; cbn [janelaCadastro];
    destruct (uint32 (millis w - t) <? 10000).
  - exists []. cbn [fst snd]. rewrite app_nil_r.
    split; [done|]. split; [repeat constructor|done].
  - exists []. cbn [fst snd]. rewrite app_nil_r.
    split; [logs; done|]. split; [repeat constructor|].
    intros _. tela.
  - cbn [mfrc522_lerCartao]. destruct (r_cartao amb (passo w)) as [uid|].
    + match goal with
      | |- context [cadastroRFID uid ?x] =>
          destruct (cadastroRFID_forma uid x) as (HL & Hs & Ht)
      end.
      exists []. rewrite app_nil_r.
      split; [rewrite HL; by logs|].
      rewrite Hs. split; [repeat constructor|]. intros _. exact Ht.
    + cbn [finger_getImage].
      match goal with
      | |- context [r_getImage amb ?n] => generalize (r_getImage amb n)
      end.
      intros p. destruct (p =? FINGERPRINT_OK) eqn:Hp.
      * apply eqb_OK in Hp. rewrite Hp.
        match goal with
        | |- context [cadastroBiometria amb interno ?x] =>
            destruct (cadastroBiometria_forma amb interno x) as (L & HL & Hf & Ht);
            destruct (cadastroBiometria amb interno x) as [s w1]
        end.
        cbn [fst snd] in *. logs.
        exists ([] ++ GetImage FINGERPRINT_OK :: L)%list.
        split; [rewrite HL; by rewrite <- ?app_assoc|].
        split; [|done]. constructor; [constructor|done].
      * match goal with
        | |- context [janelaCadastro amb interno fuel t ?x] =>
            destruct (IH x) as (L & HL & Hf & Ht);
            destruct (janelaCadastro amb interno fuel t x) as [s w1]
        end.
        cbn [fst snd] in *. logs.
        exists (GetImage p :: L).
        split; [rewrite HL; by rewrite <- ?app_assoc|].
        split; [|done].
        inversion Hf; subst;
          try (constructor; constructor; [eauto|done]).
        change (GetImage p :: G ++ GetImage FINGERPRINT_OK :: L0)
          with ((GetImage p :: G) ++ GetImage FINGERPRINT_OK :: L0)%list.
        constructor; [constructor; [eauto|done]|done].
  - exists []. cbn [fst snd]. rewrite app_nil_r.
    split; [logs; done|]. split; [repeat constructor|].
    intros _. tela.
Qed.

(** The commands sent by a run of the routine, and the screen it ends on. *)
Lemma executarRotinaCadastro_forma (amb : Sensores) (fuel : nat) (w : Mundo) :
  exists L,
    sensorLog (snd (executarRotinaCadastro amb fuel w)) = (sensorLog w ++ L)%list
    /\ formaRotina (fst (executarRotinaCadastro amb fuel w)) L
    /\ (fst (executarRotinaCadastro amb fuel w) <> SemRetorno ->
        last (visor (snd (executarRotinaCadastro amb fuel w)))
        = Some (telaDe (fst (executarRotinaCadastro amb fuel w)))).
Proof.
  unfold executarRotinaCadastro.
  match goal with
  | |- context [janelaCadastro amb fuel fuel ?t ?x] =>
      generalize (janelaCadastro_forma amb fuel t fuel x);
      generalize (janelaCadastro amb fuel fuel t x)
  end.
  intros r (L & HL & Hf & Ht).
  exists L. split; [|done]. rewrite HL. by logs.
Qed.

(** ** The search comes before the captures *)

Definition ehLoad (c : Chamada) : bool :=
  match c with LoadModel _ _ => true | _ => false end.

(** No conversion before a load has failed, and no load after that one. *)
Fixpoint buscaPrimeiro (l : list Chamada) : bool :=
  match l with
  | [] => true
  | LoadModel _ p :: r =>
      if p =? FINGERPRINT_OK then buscaPrimeiro r else forallb (fun c => negb (ehLoad c)) r
  | Image2Tz _ _ :: _ => false
  | _ :: r => buscaPrimeiro r
  end.

Lemma buscaPrimeiro_sentido (l : list Chamada) :
  buscaPrimeiro l = true ->
  forall A B k p,
    l = (A ++ Image2Tz k p :: B)%list ->
    (exists id q, q <> FINGERPRINT_OK /\ LoadModel id q ∈ A)
    /\ (forall id q, LoadModel id q ∉ B).
Proof.
  induction l as [|c l IH]; intros Hb A B k p Hl.
  - by destruct A.
  - destruct A as [|a A]; simpl in Hl; injection Hl as -> ->.
    + discriminate Hb.
    + destruct a as [g|id0 q0|s0 q0|q0|id0 q0]; simpl in Hb;
        try (destruct (IH Hb A B k p eq_refl) as ((id & q & Hq & Hin) & Hno);
             split; [exists id, q; split; [done|by right]|done]).
      * destruct (Z.eqb_spec q0 FINGERPRINT_OK) as [|Hne].
        -- destruct (IH Hb A B k p eq_refl) as ((id & q & Hq & Hin) & Hno).
           split; [exists id, q; split; [done|by right]|done].
        -- split; [exists id0, q0; split; [done|by left]|].
           intros id q Hin. rewrite forallb_forall in Hb.
           assert (Hin' : In (LoadModel id q) (A ++ Image2Tz k p :: B)).
           { apply in_or_app. right. right. by apply list_elem_of_In. }
           by specialize (Hb _ Hin').
      * discriminate Hb.
Qed.

Lemma soGetImage_semLoad (G : list Chamada) :
  soGetImage G -> forallb (fun c => negb (ehLoad c)) G = true.
Proof. induction 1 as [|c G [p ->] _ IH]; [done|]. exact IH. Qed.

Lemma formaCriar_semLoad (id : Z) (s : Saida) (L : list Chamada) :
  formaCriar id s L -> forallb (fun c => negb (ehLoad c)) L = true.
Proof. by destruct 1. Qed.

Lemma formaConfirmar_semLoad (id : Z) (s : Saida) (L : list Chamada) :
  formaConfirmar id s L -> forallb (fun c => negb (ehLoad c)) L = true.
Proof.
  destruct 1 as [G HG|G HG|G p HG Hp|G s L HG HL];
    rewrite ?forallb_app, ?(soGetImage_semLoad G) by done; try done.
  simpl. by eapply formaCriar_semLoad.
Qed.

Lemma buscaPrimeiro_getImage (G L : list Chamada) :
  soGetImage G -> buscaPrimeiro (G ++ L) = buscaPrimeiro L.
Proof. induction 1 as [|c G [p ->] _ IH]; [done|]. exact IH. Qed.

Lemma buscaPrimeiro_cargas (L : list Chamada) :
  forall (n : nat) (i : Z), buscaPrimeiro (cargasOK n i ++ L) = buscaPrimeiro L.
Proof. induction n as [|n IH]; intros i; [done|]. simpl. apply IH. Qed.

Lemma formaBio_buscaPrimeiro (s : Saida) (L : list Chamada) :
  formaBio s L -> buscaPrimeiro L = true.
Proof.
  destruct 1 as [|k p q Hk Hp Hq|k p s L Hk Hp HL].
  - rewrite <- (app_nil_r (cargasOK 127 1)). by rewrite buscaPrimeiro_cargas.
  - rewrite buscaPrimeiro_cargas. simpl.
    by destruct (Z.eqb_spec p FINGERPRINT_OK).
  - rewrite buscaPrimeiro_cargas. simpl.
    destruct (Z.eqb_spec p FINGERPRINT_OK); [done|].
    simpl. by eapply formaConfirmar_semLoad.
Qed.

Lemma formaRotina_buscaPrimeiro (s : Saida) (L : list Chamada) :
  formaRotina s L -> buscaPrimeiro L = true.
Proof.
  destruct 1 as [G HG|G HG|G HG|G s L HG HL];
    try (rewrite <- (app_nil_r G); by rewrite buscaPrimeiro_getImage).
  rewrite buscaPrimeiro_getImage by done. simpl.
  by eapply formaBio_buscaPrimeiro.
Qed.

(** The result of the search when the sensor answers by index: the first
    index whose load fails. *)
Lemma buscarIdLivre_primeiro (amb : Sensores) :
  forall (k n : nat) (i : Z) (w : Mundo),
    (k < n)%nat ->
    (forall m j, i <= j < i + Z.of_nat k -> r_loadModel amb m j = FINGERPRINT_OK) ->
    (forall m, r_loadModel amb m (i + Z.of_nat k) <> FINGERPRINT_OK) ->
    fst (buscarIdLivre amb n i w) = i + Z.of_nat k.
Proof.
  induction k as [|k IH]; intros n i w Hk Hok Hfalha;
    (destruct n as [|n]; [lia|]); cbn [buscarIdLivre finger_loadModel].
  - specialize (Hfalha (passo w)). rewrite Z.add_0_r in *.
    apply Z.eqb_neq in Hfalha. rewrite Hfalha. simpl. lia.
  - rewrite (Hok (passo w) i) by lia. change (FINGERPRINT_OK =? FINGERPRINT_OK) with true.
    cbn [negb]. rewrite (IH n (i + 1)); [lia|lia| |].
    + intros m j Hj. apply Hok. lia.
    + intros m. replace (i + 1 + Z.of_nat k) with (i + Z.of_nat (S k)) by lia.
      apply Hfalha.
Qed.

Lemma buscarIdLivre_cheio (amb : Sensores) :
  (forall m id, r_loadModel amb m id = FINGERPRINT_OK) ->
  forall (n : nat) (i : Z) (w : Mundo), fst (buscarIdLivre amb n i w) = -1.
Proof.
  intros Hok. induction n as [|n IH]; intros i w; [done|].
  cbn [buscarIdLivre finger_loadModel]. rewrite Hok.
  change (FINGERPRINT_OK =? FINGERPRINT_OK) with true. cbn [negb]. apply IH.
Qed.

(** C5. The search sends the load commands for 1, 2, 3, ... and stops at
    the first one that fails, whose index it returns ([-1] after 127
    successes); with templates 1 to 5 stored and 6 free it returns 6; when
    all 127 loads succeed option B ends on the "Memoria Cheia" error without
    any other command; and in every run of the routine a conversion only
    comes after a load has failed and no load comes after a conversion. *)
Theorem C5_busca_antes_da_captura (amb : Sensores) (fuel : nat) (w : Mundo) :
  (exists L,
     sensorLog (snd (buscarIdLivre amb 127 1 w)) = (sensorLog w ++ L)%list
     /\ ((fst (buscarIdLivre amb 127 1 w) = -1 /\ L = cargasOK 127 1)
         \/ exists (k : nat) (p : Z),
              (k < 127)%nat
              /\ fst (buscarIdLivre amb 127 1 w) = 1 + Z.of_nat k
              /\ p <> FINGERPRINT_OK
              /\ L = (cargasOK k 1 ++ [LoadModel (1 + Z.of_nat k) p])%list))
  /\ ((forall m id, 1 <= id <= 5 -> r_loadModel amb m id = FINGERPRINT_OK) ->
      (forall m, r_loadModel amb m 6 <> FINGERPRINT_OK) ->
      fst (buscarIdLivre amb 127 1 w) = 6)
  /\ ((forall m id, r_loadModel amb m id = FINGERPRINT_OK) ->
      fst (cadastroBiometria amb fuel w) = MemoriaCheia
      /\ last (visor (snd (cadastroBiometria amb fuel w)))
         = Some ("Memoria Cheia", "", COR_ERRO)
      /\ sensorLog (snd (cadastroBiometria amb fuel w))
         = (sensorLog w ++ cargasOK 127 1)%list)
  /\ (forall L A B k p,
        sensorLog (snd (executarRotinaCadastro amb fuel w)) = (sensorLog w ++ L)%list ->
        L = (A ++ Image2Tz k p :: B)%list ->
        (exists id q, q <> FINGERPRINT_OK /\ LoadModel id q ∈ A)
        /\ (forall id q, LoadModel id q ∉ B)).
Proof.
  split; [apply buscarIdLivre_forma|]. split; [|split].
  - intros Hok Hfalha.
    apply (buscarIdLivre_primeiro amb 5 127 1 w); [lia| |exact Hfalha].
    intros m j Hj. apply Hok. lia.
  - intros Hok.
    destruct (cadastroBiometria_forma amb fuel w) as (L & HL & Hf & Ht).
    assert (Hs : fst (cadastroBiometria amb fuel w) = MemoriaCheia).
    { unfold cadastroBiometria.
      match goal with
      | |- context [buscarIdLivre amb 127 1 ?x] =>
          generalize (buscarIdLivre_cheio amb Hok 127 1 x);
          generalize (buscarIdLivre amb 127 1 x)
      end.
      intros [id w1] Hid. cbn [fst] in Hid. by rewrite Hid. }
    split; [exact Hs|]. rewrite Hs in Ht, Hf.
    split; [by apply Ht|]. rewrite HL. f_equal.
    inversion Hf as [| |k p s L0 Hk Hp Hc]; subst; [done|].
    inversion Hc as [| | |G s L1 HG Hcr]; subst. inversion Hcr.
  - intros L A B k p HL ->.
    destruct (executarRotinaCadastro_forma amb fuel w) as (L' & HL' & Hf & _).
    rewrite HL' in HL. apply app_inv_head in HL. subst L'.
    eapply buscaPrimeiro_sentido; [|reflexivity].
    by eapply formaRotina_buscaPrimeiro.
Qed.

Lemma C5_busca_witness :
  fst (buscarIdLivre ambDedoPreso 127 1 mundoInicial) = 6.
Proof.
  apply (proj1 (proj2 (C5_busca_antes_da_captura ambDedoPreso 0 mundoInicial))).
  - intros m id Hid. cbn [ambDedoPreso r_loadModel].
    destruct (Z.leb_spec 1 id); [|lia]. destruct (Z.leb_spec id 5); [|lia]. done.
  - intros m. by vm_compute.
Defined.

(** ** A mismatch of the two captures *)

(** Commands other than "create the model" and "store the model". *)
Definition neutra (c : Chamada) : Prop :=
  match c with
  | CreateModel _ | StoreModel _ _ => False
  | _ => True
  end.

(** If the model was created with a mismatch, the way out is
    [DedoDiferente] and nothing was stored. *)
Definition semGravacao (s : Saida) (L : list Chamada) : Prop :=
  forall p, CreateModel p ∈ L -> p <> FINGERPRINT_OK ->
    s = DedoDiferente /\ forall id q, StoreModel id q ∉ L.

Lemma semGravacao_neutras (s : Saida) (L : list Chamada) :
  Forall neutra L -> semGravacao s L.
Proof.
  intros HL p Hin _. rewrite Forall_forall in HL. by destruct (HL _ Hin).
Qed.

Lemma semGravacao_app (s : Saida) (A L : list Chamada) :
  Forall neutra A -> semGravacao s L -> semGravacao s (A ++ L).
Proof.
  intros HA HL p Hin Hp. rewrite Forall_forall in HA.
  apply elem_of_app in Hin as [Hin|Hin]; [by destruct (HA _ Hin)|].
  destruct (HL p Hin Hp) as [-> Hno]. split; [done|].
  intros id q Hs. apply elem_of_app in Hs as [Hs|Hs];
    [by destruct (HA _ Hs)|by eapply Hno].
Qed.

Lemma soGetImage_neutras (G : list Chamada) : soGetImage G -> Forall neutra G.
Proof. intros HG. eapply Forall_impl; [exact HG|]. by intros c [p ->]. Qed.

Lemma cargasOK_neutras : forall (n : nat) (i : Z), Forall neutra (cargasOK n i).
Proof. induction n as [|n IH]; intros i; constructor; [done|apply IH]. Qed.

Lemma formaCriar_semGravacao (id : Z) (s : Saida) (L : list Chamada) :
  formaCriar id s L -> semGravacao s L.
Proof.
  destruct 1 as [p Hp| |q Hq]; intros p' Hin Hp'.
  - split; [done|]. intros id' q Hs.
    apply list_elem_of_singleton in Hs. discriminate Hs.
  - apply elem_of_cons in Hin as [Hin|Hin]; [by injection Hin as ->|].
    apply list_elem_of_singleton in Hin. discriminate Hin.
  - apply elem_of_cons in Hin as [Hin|Hin]; [by injection Hin as ->|].
    apply list_elem_of_singleton in Hin. discriminate Hin.
Qed.

Lemma formaConfirmar_semGravacao (id : Z) (s : Saida) (L : list Chamada) :
  formaConfirmar id s L -> semGravacao s L.
Proof.
  destruct 1 as [G HG|G HG|G p HG Hp|G s L HG HL].
  - by apply semGravacao_neutras, soGetImage_neutras.
  - by apply semGravacao_neutras, soGetImage_neutras.
  - apply semGravacao_neutras, Forall_app. split; [by apply soGetImage_neutras|].
    by repeat constructor.
  - apply semGravacao_app; [by apply soGetImage_neutras|].
    apply (semGravacao_app s [Image2Tz 2 FINGERPRINT_OK] L);
      [by repeat constructor|by eapply formaCriar_semGravacao].
Qed.

Lemma formaBio_semGravacao (s : Saida) (L : list Chamada) :
  formaBio s L -> semGravacao s L.
Proof.
  destruct 1 as [|k p q Hk Hp Hq|k p s L Hk Hp HL].
  - apply semGravacao_neutras, cargasOK_neutras.
  - apply semGravacao_neutras, Forall_app. split; [apply cargasOK_neutras|].
    by repeat constructor.
  - apply semGravacao_app; [apply cargasOK_neutras|].
    apply (semGravacao_app s [LoadModel (1 + Z.of_nat k) p;
                              Image2Tz 1 FINGERPRINT_OK] L);
      [by repeat constructor|by eapply formaConfirmar_semGravacao].
Qed.

Lemma formaRotina_semGravacao (s : Saida) (L : list Chamada) :
  formaRotina s L -> semGravacao s L.
Proof.
  destruct 1 as [G HG|G HG|G HG|G s L HG HL];
    try by apply semGravacao_neutras, soGetImage_neutras.
  apply semGravacao_app; [by apply soGetImage_neutras|].
  apply (semGravacao_app s [GetImage FINGERPRINT_OK] L);
    [by repeat constructor|by eapply formaBio_semGravacao].
Qed.

(** C6. When the sensor answers the combination of the two captures with
    anything but OK, steps 5 and 6 end on the "Dedo Diferente!" error screen
    having sent that one command; and in every run of the routine in which
    a combination was answered that way, the routine returns this error and
    no store command was sent at all. *)
Theorem C6_dedos_diferentes_nao_grava (amb : Sensores) (fuel : nat) (idNovo : Z)
    (w : Mundo) :
  (r_createModel amb (passo w) <> FINGERPRINT_OK ->
     fst (criarESalvar amb idNovo w) = DedoDiferente
     /\ last (visor (snd (criarESalvar amb idNovo w)))
        = Some ("Dedo Diferente!", "", COR_ERRO)
     /\ sensorLog (snd (criarESalvar amb idNovo w))
        = (sensorLog w ++ [CreateModel (r_createModel amb (passo w))])%list)
  /\ (forall L p,
        sensorLog (snd (executarRotinaCadastro amb fuel w)) = (sensorLog w ++ L)%list ->
        CreateModel p ∈ L -> p <> FINGERPRINT_OK ->
        fst (executarRotinaCadastro amb fuel w) = DedoDiferente
        /\ last (visor (snd (executarRotinaCadastro amb fuel w)))
           = Some ("Dedo Diferente!", "", COR_ERRO)
        /\ forall id q, StoreModel id q ∉ L).
Proof.
  split.
  - intros Hp. unfold criarESalvar. cbn [finger_createModel].
    change (passo (Serial_println "[CADASTRO BIO] Gerando modelo..." w))
      with (passo w).
    apply Z.eqb_neq in Hp. rewrite Hp. cbn [negb].
    split; [done|]. split; [tela|]. by logs.
  - intros L p HL Hin Hp.
    destruct (executarRotinaCadastro_forma amb fuel w) as (L' & HL' & Hf & Ht).
    rewrite HL' in HL. apply app_inv_head in HL. subst L'.
    destruct (formaRotina_semGravacao _ _ Hf p Hin Hp) as [Hs Hno].
    split; [done|]. split; [|done].
    rewrite Hs in Ht. by apply Ht.
Qed.

Lemma C6_dedos_diferentes_witness :
  fst (executarRotinaCadastro ambDedosDiferentes 100 mundoInicial) = DedoDiferente
  /\ forall id q,
       StoreModel id q
       ∉ sensorLog (snd (executarRotinaCadastro ambDedosDiferentes 100 mundoInicial)).
Proof.
  assert (HL : sensorLog (snd (executarRotinaCadastro ambDedosDiferentes 100
                                 mundoInicial))
               = (sensorLog mundoInicial
                  ++ [GetImage 0; LoadModel 1 12; Image2Tz 1 0; GetImage 2;
                      GetImage 0; Image2Tz 2 0; CreateModel 10])%list)
    by (vm_compute; reflexivity).
  assert (Hin : CreateModel 10
                ∈ [GetImage 0; LoadModel 1 12; Image2Tz 1 0; GetImage 2;
                   GetImage 0; Image2Tz 2 0; CreateModel 10])
    by (repeat first [apply list_elem_of_here | apply list_elem_of_further]).
  assert (Hp : 10 <> FINGERPRINT_OK) by discriminate.
  destruct (proj2 (C6_dedos_diferentes_nao_grava ambDedosDiferentes 100 1
                     mundoInicial) _ 10 HL Hin Hp) as (Hs & _ & Hno).
  split; [exact Hs|]. intros id q. rewrite HL. apply Hno.
Defined.

(** ** A finger that is never lifted *)

Lemma aguardarRetirada_preso (amb : Sensores) :
  (forall n, r_getImage amb n <> FINGERPRINT_NOFINGER) ->
  forall (fuel : nat) (w : Mundo), fst (aguardarRetirada amb fuel w) = None.
Proof.
  intros Hg. induction fuel as [|fuel IH]; intros w; [done|].
  cbn [aguardarRetirada finger_getImage].
  specialize (Hg (passo w)). apply Z.eqb_neq in Hg. rewrite Hg. cbn [negb].
  apply IH.
Qed.

Lemma confirmarDedo_preso (amb : Sensores) (fuel : nat) (idNovo : Z) (w : Mundo) :
  (forall n, r_getImage amb n <> FINGERPRINT_NOFINGER) ->
  fst (confirmarDedo amb fuel idNovo w) = SemRetorno.
Proof.
  intros Hg. unfold confirmarDedo.
  match goal with
  | |- context [aguardarRetirada amb fuel ?x] =>
      generalize (aguardarRetirada_preso amb Hg fuel x);
      generalize (aguardarRetirada amb fuel x)
  end.
  intros [r w1] Hr. cbn [fst] in Hr. by rewrite Hr.
Qed.

(** While the sensor keeps seeing a finger, finds a free index and converts
    the first image, the routine is still in its second loop whatever the
    fuel: it does not return. *)
Lemma executarRotinaCadastro_preso (amb : Sensores) (k : nat) :
  (k < 127)%nat ->
  (forall n, r_cartao amb n = None) ->
  (forall n, r_getImage amb n = FINGERPRINT_OK) ->
  (forall n j, 1 <= j < 1 + Z.of_nat k -> r_loadModel amb n j = FINGERPRINT_OK) ->
  (forall n, r_loadModel amb n (1 + Z.of_nat k) <> FINGERPRINT_OK) ->
  (forall n, r_image2Tz amb n 1 = FINGERPRINT_OK) ->
  forall (fuel : nat) (w : Mundo),
    fst (executarRotinaCadastro amb fuel w) = SemRetorno.
Proof.
  intros Hk Hc Hg Hok Hfalha Htz fuel w. unfold executarRotinaCadastro.
  match goal with
  | |- context [janelaCadastro amb fuel fuel (millis ?x) ?x] => generalize x
  end.
  intros x. destruct fuel as [|fuel]; cbn [janelaCadastro].
  - unfold millis. rewrite Z.sub_diag. by change (uint32 0 <? 10000) with true.
  - unfold millis at 1 2. rewrite Z.sub_diag. change (uint32 0 <? 10000) with true.
    cbv iota. cbn [mfrc522_lerCartao finger_getImage]. rewrite Hc, Hg.
    change (FINGERPRINT_OK =? FINGERPRINT_OK) with true. cbv iota.
    unfold cadastroBiometria.
    match goal with
    | |- context [buscarIdLivre amb 127 1 ?y] =>
        generalize (buscarIdLivre_primeiro amb k 127 1 y Hk Hok Hfalha);
        generalize (buscarIdLivre amb 127 1 y)
    end.
    intros [id w1] Hid. cbn [fst] in Hid. subst id.
    destruct (Z.eqb_spec (1 + Z.of_nat k) (-1)); [lia|].
    cbn [finger_image2Tz]. rewrite Htz.
    change (FINGERPRINT_OK =? FINGERPRINT_OK) with true. cbn [negb].
    apply confirmarDedo_preso. intros m. rewrite Hg. discriminate.
Qed.

(** C8 (the code departs from it). With templates 1 to 5 stored and a finger
    that stays on the sensor, the routine never gets out of the loop that
    waits for the finger to be lifted: whatever the number of iterations
    allowed, it has not returned. *)
Theorem C8_dedo_preso_nunca_retorna :
  forall fuel : nat,
    fst (executarRotinaCadastro ambDedoPreso fuel mundoInicial) = SemRetorno.
Proof.
  intros fuel. apply (executarRotinaCadastro_preso ambDedoPreso 5).
  - lia.
  - reflexivity.
  - reflexivity.
  - intros n j Hj. cbn [ambDedoPreso r_loadModel].
    destruct (Z.leb_spec 1 j); [|lia]. destruct (Z.leb_spec j 5); [|lia]. done.
  - intros n. by vm_compute.
  - reflexivity.
Qed.

End Cadastro.

(* ====================================================================== *)
(** * 15. More on the card ledger                                          *)
(* ====================================================================== *)

Section LedgerExtra.

(** The lookup and the count only read the EEPROM. *)
Lemma lerQtdTags_ext (w1 w2 : Mundo) :
  eeprom w1 = eeprom w2 -> lerQtdTags w1 = lerQtdTags w2.
Proof. intros E. unfold lerQtdTags, EEPROM_read. by rewrite E. Qed.

Lemma procurarTag_ext (tag : string) (w1 w2 : Mundo) :
  eeprom w1 = eeprom w2 ->
  forall (n : nat) (i : Z), procurarTag tag n i w1 = procurarTag tag n i w2.
Proof.
  intros E. induction n as [|n IH]; intros i; [done|]. simpl.
  rewrite (tagArmazenada_ext i w1 w2 E). by rewrite IH.
Qed.

Lemma verificarTagNaEEPROM_ext (tag : string) (w1 w2 : Mundo) :
  eeprom w1 = eeprom w2 ->
  verificarTagNaEEPROM tag w1 = verificarTagNaEEPROM tag w2.
Proof.
  intros E. unfold verificarTagNaEEPROM.
  rewrite (lerQtdTags_ext w1 w2 E). by apply procurarTag_ext.
Qed.

(** X1. Ledger round trip. While the ledger holds fewer than 254 cards, a card
    identifier of eight upper-case hexadecimal digits that is appended is
    found by the lookup, the count grows by one, and every card that was
    found before is still found. *)
Theorem ledger_ida_e_volta (tag : string) (w : Mundo) :
  normalizado tag = true ->
  0 <= lerQtdTags w < 254 ->
  verificarTagNaEEPROM tag (salvarTagEEPROM tag w) = true
  /\ lerQtdTags (salvarTagEEPROM tag w) = lerQtdTags w + 1
  /\ forall outra,
       verificarTagNaEEPROM outra w = true ->
       verificarTagNaEEPROM outra (salvarTagEEPROM tag w) = true.
Proof.
  intros Hn Hq. split; [by apply salvar_depois_verificar|].
  split; [by apply salvar_qtd|].
  intros outra. by apply salvar_mantem_encontradas.
Qed.

Lemma ledger_ida_e_volta_witness :
  verificarTagNaEEPROM "04A1B2C3"
    (salvarTagEEPROM "04A1B2C3" (cadastrarTags 3 0 mundoInicial)) = true
  /\ lerQtdTags (salvarTagEEPROM "04A1B2C3" (cadastrarTags 3 0 mundoInicial)) = 4.
Proof.
  assert (Hn : normalizado "04A1B2C3" = true) by reflexivity.
  assert (Hq : 0 <= lerQtdTags (cadastrarTags 3 0 mundoInicial) < 254)
    by (vm_compute; split; [discriminate|reflexivity]).
  destruct (ledger_ida_e_volta "04A1B2C3" (cadastrarTags 3 0 mundoInicial) Hn Hq)
    as (Hv & Hc & _).
  split; [exact Hv|]. rewrite Hc. vm_compute. reflexivity.
Defined.

(** X2. Only enrolled cards are accepted, among cards of four-byte UIDs.
    On a ledger that started empty and received at most 254 identifiers,
    each of them eight upper-case hexadecimal digits, every identifier the
    lookup accepts is one of the identifiers that were appended. The
    condition on the identifiers appended is needed: an identifier of
    another length is stored as four bytes only. *)
Theorem ledger_so_aceita_cadastradas (w0 : Mundo) (tags : list string)
    (tag : string) :
  lerQtdTags w0 = 0 ->
  Forall (fun t => normalizado t = true) tags ->
  (length tags <= 254)%nat ->
  verificarTagNaEEPROM tag (cadastrarLista tags w0) = true ->
  tag ∈ tags.
Proof. apply verificar_so_cadastradas. Qed.

Lemma ledger_so_aceita_cadastradas_witness :
  verificarTagNaEEPROM "0A0B0C0D"
    (cadastrarLista ["04A1B2C3"; "0A0B0C0D"] mundoInicial) = true
  /\ "0A0B0C0D" ∈ ["04A1B2C3"; "0A0B0C0D"].
Proof.
  assert (Hv : verificarTagNaEEPROM "0A0B0C0D"
                 (cadastrarLista ["04A1B2C3"; "0A0B0C0D"] mundoInicial) = true)
    by (vm_compute; reflexivity).
  split; [exact Hv|].
  apply (ledger_so_aceita_cadastradas mundoInicial ["04A1B2C3"; "0A0B0C0D"]).
  - reflexivity.
  - repeat constructor.
  - simpl. lia.
  - exact Hv.
Defined.

Lemma length_toUpperCase (s : string) :
  String.length (toUpperCase s) = String.length s.
Proof. induction s as [|c s IH]; simpl; [done|]. by rewrite IH. Qed.

Lemma length_doisDigitosHex (v : Z) : String.length (doisDigitosHex v) = 2%nat.
Proof. unfold doisDigitosHex, String_HEX. by destruct (v <? 16). Qed.

Lemma length_lerBytesHex (w : Mundo) :
  forall (n : nat) (a : Z), String.length (lerBytesHex n a w) = (2 * n)%nat.
Proof.
  induction n as [|n IH]; intros a; [done|].
  cbn [lerBytesHex]. rewrite comprimento_app, length_doisDigitosHex, IH. lia.
Qed.

Lemma length_tagArmazenada (i : Z) (w : Mundo) :
  String.length (tagArmazenada i w) = 8%nat.
Proof.
  unfold tagArmazenada. by rewrite length_toUpperCase, length_lerBytesHex.
Qed.

Lemma length_uidHex (uid : list Z) :
  String.length (uidHex uid) = (2 * length uid)%nat.
Proof.
  induction uid as [|b uid IH]; [done|].
  cbn [uidHex length]. rewrite comprimento_app, length_doisDigitosHex, IH. lia.
Qed.

(** X3. Only identifiers of eight characters can be found. The lookup answers
    [false], whatever the EEPROM holds, for an identifier that is not eight
    characters long; so a card whose UID is not four bytes long (seven and
    ten bytes exist) is not found even right after the enrollment routine
    stored it and showed "RFID Cadastrado!". *)
Theorem ledger_so_oito_caracteres (tag : string) (uid : list Z) (w : Mundo) :
  (String.length tag <> 8%nat -> verificarTagNaEEPROM tag w = false)
  /\ (length uid <> 4%nat ->
      fst (cadastroRFID uid w) = RfidCadastrado
      /\ verificarTagNaEEPROM (toUpperCase (uidHex uid)) (snd (cadastroRFID uid w))
         = false).
Proof.
  assert (H8 : forall t w', String.length t <> 8%nat ->
                 verificarTagNaEEPROM t w' = false).
  { intros t w' Hlen. destruct (verificarTagNaEEPROM t w') eqn:Hv; [|done].
    unfold verificarTagNaEEPROM in Hv.
    apply procurarTag_so_acha in Hv as (k & _ & Hk).
    rewrite <- Hk, length_tagArmazenada in Hlen. done. }
  split; [apply H8|].
  intros Hlen. split; [done|]. apply H8.
  rewrite length_toUpperCase, length_uidHex. lia.
Qed.

Lemma ledger_so_oito_caracteres_witness :
  verificarTagNaEEPROM (toUpperCase (uidHex [4; 161; 178; 195; 10; 11; 12]))
    (snd (cadastroRFID [4; 161; 178; 195; 10; 11; 12] mundoInicial)) = false.
Proof.
  apply (ledger_so_oito_caracteres "" [4; 161; 178; 195; 10; 11; 12] mundoInicial).
  simpl. lia.
Defined.

Definition byteNormalizado (b : Z) : bool :=
  (String.length (toUpperCase (doisDigitosHex b)) =? 2)%nat
  && todosDigitos (toUpperCase (doisDigitosHex b)).

Lemma byteNormalizado_todos :
  forallb byteNormalizado (seqZ 0 256) = true.
Proof. vm_compute. reflexivity. Qed.

Lemma todosDigitos_app (s1 s2 : string) :
  todosDigitos (s1 ++ s2) = todosDigitos s1 && todosDigitos s2.
Proof.
  induction s1 as [|c s1 IH]; simpl; [done|]. rewrite IH. by rewrite andb_assoc.
Qed.

Lemma todosDigitos_uid (uid : list Z) :
  Forall (fun b => 0 <= b < 256) uid ->
  todosDigitos (toUpperCase (uidHex uid)) = true.
Proof.
  induction 1 as [|b uid Hb _ IH]; [done|].
  cbn [uidHex]. rewrite toUpperCase_app, todosDigitos_app, IH, andb_true_r.
  pose proof byteNormalizado_todos as Hall. rewrite forallb_forall in Hall.
  assert (Hin : In b (seqZ 0 256)) by (apply list_elem_of_In, elem_of_seqZ; lia).
  specialize (Hall b Hin). unfold byteNormalizado in Hall.
  by apply andb_prop in Hall as [_ Hall].
Qed.

(** The eeprom after the enrollment of a card. *)
Lemma cadastroRFID_eeprom (uid : list Z) (w : Mundo) :
  eeprom (snd (cadastroRFID uid w))
  = eeprom (salvarTagEEPROM (toUpperCase (uidHex uid)) w).
Proof.
  unfold cadastroRFID. cbn [snd]. unfold atualizarLCD.
  by destruct (_ <=? 16).
Qed.

(** X4. Enrollment of a card with a four-byte UID. The identifier the reader
    builds is eight upper-case hexadecimal digits, and after the enrollment
    routine stored it in a ledger of fewer than 254 cards the lookup finds
    it. *)
Theorem cartao_cadastrado_e_encontrado (uid : list Z) (w : Mundo) :
  length uid = 4%nat ->
  Forall (fun b => 0 <= b < 256) uid ->
  0 <= lerQtdTags w < 254 ->
  normalizado (toUpperCase (uidHex uid)) = true
  /\ verificarTagNaEEPROM (toUpperCase (uidHex uid)) (snd (cadastroRFID uid w))
     = true.
Proof.
  intros Hlen Hb Hq.
  assert (Hn : normalizado (toUpperCase (uidHex uid)) = true).
  { unfold normalizado. rewrite length_toUpperCase, length_uidHex, Hlen.
    by rewrite todosDigitos_uid. }
  split; [done|].
  rewrite (verificarTagNaEEPROM_ext _ _ _ (cadastroRFID_eeprom uid w)).
  by apply salvar_depois_verificar.
Qed.

Lemma cartao_cadastrado_e_encontrado_witness :
  verificarTagNaEEPROM "04A1B2C3" (snd (cadastroRFID [4; 161; 178; 195] mundoInicial))
  = true.
Proof.
  apply (cartao_cadastrado_e_encontrado [4; 161; 178; 195] mundoInicial).
  - reflexivity.
  - repeat constructor; lia.
  - vm_compute. split; [discriminate|reflexivity].
Defined.

End LedgerExtra.

(* ====================================================================== *)
(** * 16. More on the session, the key panel and the telemetry             *)
(* ====================================================================== *)

Section SessaoPainelExtra.

Lemma uint32_decorrido (t d : Z) :
  0 <= d < 4294967296 -> uint32 (uint32 (t + d) - t) = d.
Proof.
  intros Hd. rewrite uint32_soma, Z.sub_diag.
  change (uint32 0) with 0. unfold uint32. rewrite Z.mod_small; lia.
Qed.

(** X5. The timeout, [d] milliseconds after the session was opened. Up to 10000
    ms the check leaves the state alone; past 10000 ms it closes the
    session, clears the identifier and puts the idle screen back. The
    millisecond counter may have wrapped around in between. *)
Theorem timeout_apos_dez_segundos (w : Mundo) (d : Z) :
  sessaoAberta w = true ->
  0 <= d < 4294967296 ->
  relogio w = uint32 (timerSessao w + d) ->
  (d <= 10000 -> verificarTimeoutSessao w = w)
  /\ (10000 < d ->
      sessaoAberta (verificarTimeoutSessao w) = false
      /\ idUsuarioAtual (verificarTimeoutSessao w) = ""
      /\ last (visor (verificarTimeoutSessao w))
         = Some ("Aguardando...", "", COR_PADRAO)).
Proof.
  intros Ha Hd Hr.
  assert (He : uint32 (millis w - timerSessao w) = d).
  { unfold millis. rewrite Hr. by apply uint32_decorrido. }
  split.
  - intros Hle. apply timeout_nao_vencido. rewrite He. unfold TEMPO_LIMITE_SESSAO. lia.
  - intros Hgt. unfold verificarTimeoutSessao. rewrite Ha, He.
    destruct (Z.gtb_spec d TEMPO_LIMITE_SESSAO) as [_|Hle];
      [|unfold TEMPO_LIMITE_SESSAO in Hle; lia].
    campos. split; [done|]. split; [done|]. apply last_snoc.
Qed.

(** A session opened 296 ms before the counter wraps, checked 10001 ms later. *)
Definition sessaoNaVirada : Mundo :=
  mundoInicial |> set_sessaoAberta true |> set_idUsuarioAtual "7"
               |> set_timerSessao 4294967000 |> set_relogio 9705.

Lemma timeout_apos_dez_segundos_witness :
  sessaoAberta sessaoNaVirada = true
  /\ sessaoAberta (verificarTimeoutSessao sessaoNaVirada) = false.
Proof.
  split; [reflexivity|].
  assert (Hd : 0 <= 10001 < 4294967296) by lia.
  apply (proj2 (timeout_apos_dez_segundos sessaoNaVirada 10001 eq_refl Hd eq_refl)).
  lia.
Defined.

(** X6. The return of a key. Whether a session is open or not, a pin whose
    stored level says "absent" and whose level read says "present" is
    reported as one return and nothing else; the session and its
    credential stay as they were, and the new level is stored. *)
Theorem devolucao_nao_mexe_na_sessao (pino : Z) (index : nat) (w : Mundo) :
  estadoAnteriorChaves w !! index = Some HIGH ->
  let w' := processarChave pino index LOW w in
  eventos w' = (eventos w ++ [Devolucao pino])%list
  /\ sessaoAberta w' = sessaoAberta w
  /\ idUsuarioAtual w' = idUsuarioAtual w
  /\ tipoUsuarioAtual w' = tipoUsuarioAtual w
  /\ estadoAnteriorChaves w' !! index = Some LOW.
Proof.
  intros Hant w'.
  destruct (processarChave_casos pino index LOW HIGH w Hant)
    as (Hc & Ht & Hs & Hi & He).
  fold w' in Hc, Ht, Hs, Hi, He. repeat split; try done.
  rewrite Hc. apply list_lookup_insert_eq. by eapply lookup_lt_Some.
Qed.

(** Key 25 out with the session of card 04A1B2C3 still open. *)
Definition chaveFora : Mundo :=
  mundoInicial |> set_estadoAnteriorChaves [HIGH; LOW]
               |> autorizarSessao "RFID" "04A1B2C3".

Lemma devolucao_nao_mexe_na_sessao_witness :
  eventos (processarChave 25 0 LOW chaveFora) = [Devolucao 25]
  /\ sessaoAberta (processarChave 25 0 LOW chaveFora) = true.
Proof.
  assert (Hant : estadoAnteriorChaves chaveFora !! 0%nat = Some HIGH) by reflexivity.
  destruct (devolucao_nao_mexe_na_sessao 25 0 chaveFora Hant) as (He & Hs & _).
  split; [exact He|]. rewrite Hs. reflexivity.
Defined.

Lemma processarChave_igual (pino : Z) (index : nat) (lida : bool) (w : Mundo) :
  estadoAnteriorChaves w !! index = Some lida ->
  processarChave pino index lida w = w.
Proof.
  intros Hant.
  destruct (processarChave_casos pino index lida lida w Hant) as (_ & _ & H).
  by destruct lida.
Qed.

Lemma processarChave_estado (pino : Z) (index : nat) (lida : bool) (w : Mundo) :
  (index < length (estadoAnteriorChaves w))%nat ->
  estadoAnteriorChaves (processarChave pino index lida w)
  = <[index := lida]> (estadoAnteriorChaves w).
Proof.
  intros Hlt. destruct (lookup_lt_is_Some_2 _ _ Hlt) as [ant Hant].
  by destruct (processarChave_casos pino index lida ant w Hant) as (Hc & _).
Qed.

Lemma monitorarPainelDeChaves_passos (digitalRead : Z -> bool) (w : Mundo) :
  monitorarPainelDeChaves digitalRead w
  = processarChave 26 1 (digitalRead 26) (processarChave 25 0 (digitalRead 25) w).
Proof.
  unfold monitorarPainelDeChaves. rewrite pinos_do_painel.
  by rewrite !varrerChaves_cons, varrerChaves_nil.
Qed.

(** X7. Each change of the panel is reported once. A scan that finds every pin
    at its stored level changes nothing at all; and after any scan the
    stored levels are the levels read, so that scanning again with the
    same levels changes nothing. *)
Theorem varredura_relata_uma_vez (digitalRead : Z -> bool) (w : Mundo) :
  (estadoAnteriorChaves w = [digitalRead 25; digitalRead 26] ->
     monitorarPainelDeChaves digitalRead w = w)
  /\ (length (estadoAnteriorChaves w) = 2%nat ->
      estadoAnteriorChaves (monitorarPainelDeChaves digitalRead w)
      = [digitalRead 25; digitalRead 26]
      /\ monitorarPainelDeChaves digitalRead (monitorarPainelDeChaves digitalRead w)
         = monitorarPainelDeChaves digitalRead w).
Proof.
  assert (Higual : forall w' : Mundo,
            estadoAnteriorChaves w' = [digitalRead 25; digitalRead 26] ->
            monitorarPainelDeChaves digitalRead w' = w').
  { intros w' He. rewrite monitorarPainelDeChaves_passos.
    rewrite (processarChave_igual 25 0) by (by rewrite He).
    apply processarChave_igual. by rewrite He. }
  split; [apply Higual|].
  intros Hlen.
  assert (He : estadoAnteriorChaves (monitorarPainelDeChaves digitalRead w)
               = [digitalRead 25; digitalRead 26]).
  { rewrite monitorarPainelDeChaves_passos.
    assert (H1 : estadoAnteriorChaves (processarChave 25 0 (digitalRead 25) w)
                 = <[0%nat := digitalRead 25]> (estadoAnteriorChaves w))
      by (apply processarChave_estado; lia).
    rewrite processarChave_estado by (rewrite H1, length_insert; lia).
    rewrite H1.
    destruct (estadoAnteriorChaves w) as [|a [|b [|c r]]]; try discriminate Hlen.
    reflexivity. }
  split; [exact He|]. by apply Higual.
Qed.

Lemma varredura_relata_uma_vez_witness :
  estadoAnteriorChaves duasRetiradas = [HIGH; HIGH]
  /\ monitorarPainelDeChaves (fun _ => HIGH) duasRetiradas = duasRetiradas.
Proof.
  assert (Hlen : length (estadoAnteriorChaves
                           (autorizarSessao "RFID" "04A1B2C3" mundoInicial)) = 2%nat)
    by reflexivity.
  destruct (proj2 (varredura_relata_uma_vez (fun _ => HIGH)
                     (autorizarSessao "RFID" "04A1B2C3" mundoInicial)) Hlen)
    as (He & Hi).
  split; [exact He|exact Hi].
Defined.

Lemma nucleo_todos (w1 w2 : Mundo) :
  nucleo w1 = nucleo w2 ->
  sessaoAberta w1 = sessaoAberta w2
  /\ timerSessao w1 = timerSessao w2
  /\ idUsuarioAtual w1 = idUsuarioAtual w2
  /\ tipoUsuarioAtual w1 = tipoUsuarioAtual w2
  /\ estadoAnteriorChaves w1 = estadoAnteriorChaves w2
  /\ eeprom w1 = eeprom w2
  /\ eventos w1 = eventos w2.
Proof. unfold nucleo. intros H. injection H. auto 10. Qed.

(** X8. A send leaves the access state alone. Whatever the modem answers, and
    whether the event is delivered or dropped, a telemetry send changes
    neither the session and its credential, nor the stored key levels, nor
    the card ledger, nor the log of events. *)
Theorem envio_nao_altera_acesso (jsonDados : string) (w : Mundo) :
  sessaoAberta (enviarDadosFirebase jsonDados w) = sessaoAberta w
  /\ timerSessao (enviarDadosFirebase jsonDados w) = timerSessao w
  /\ idUsuarioAtual (enviarDadosFirebase jsonDados w) = idUsuarioAtual w
  /\ tipoUsuarioAtual (enviarDadosFirebase jsonDados w) = tipoUsuarioAtual w
  /\ estadoAnteriorChaves (enviarDadosFirebase jsonDados w) = estadoAnteriorChaves w
  /\ eeprom (enviarDadosFirebase jsonDados w) = eeprom w
  /\ eventos (enviarDadosFirebase jsonDados w) = eventos w.
Proof. apply nucleo_todos, enviarDadosFirebase_nucleo. Qed.

Lemma aguardarConnect_silencio_relogio (t : Z) :
  forall (n fuel : nat) (w : Mundo),
    wifiRx w = [] ->
    uint32 (relogio w) = relogio w ->
    uint32 (millis w - t) = 5000 - 1000 * Z.of_nat n ->
    (n <= 5)%nat -> (n <= fuel)%nat ->
    relogio (snd (aguardarConnect fuel t w)) = uint32 (relogio w + 1000 * Z.of_nat n).
Proof.
  induction n as [|n IH]; intros fuel w Hrx Hr He Hn Hf.
  - rewrite Z.mul_0_r, Z.add_0_r, Hr.
    destruct fuel; simpl; rewrite He; reflexivity.
  - destruct fuel as [|fuel]; [lia|]. simpl. rewrite He.
    destruct (Z.ltb_spec (5000 - 1000 * Z.of_nat (S n)) 5000); [|lia].
    unfold SerialWifi_readStringUntil. rewrite Hrx.
    change (negb (indexOf "" "CONNECT" =? -1)) with false. cbv iota.
    rewrite IH; try (done || lia).
    + unfold delay, SERIAL_TIMEOUT. campos. unfold uint32.
      rewrite Zplus_mod_idemp_l. f_equal. lia.
    + unfold delay. campos. unfold uint32. by rewrite Z.mod_mod.
    + unfold millis, delay in *. campos. rewrite uint32_soma, He.
      unfold uint32, SERIAL_TIMEOUT. rewrite Z.mod_small; lia.
Qed.

(** X9. A send with a silent modem. When the modem delivers no line at all, the
    send writes its three commands and nothing else, and it returns 5150 ms
    after it was called: 150 ms of pauses and five read timeouts. *)
Theorem envio_com_modem_mudo (jsonDados : string) (w : Mundo) :
  wifiRx w = [] ->
  wifiTx (enviarDadosFirebase jsonDados w) = (wifiTx w ++ preambulo)%list
  /\ relogio (enviarDadosFirebase jsonDados w) = uint32 (relogio w + 5150).
Proof.
  intros Hrx. unfold enviarDadosFirebase.
  match goal with
  | |- context [aguardarConnect ?f ?t ?x] =>
      generalize (aguardarConnect_wifiTx t f x);
      generalize (aguardarConnect_silencio t 5 f x);
      generalize (aguardarConnect_silencio_relogio t 5 f x);
      generalize (aguardarConnect f t x)
  end.
  intros [c w1] Hrel Hc Htx. cbn [fst snd] in *.
  unfold combustivelConnect, millis, delay in *. revert Hrel Hc Htx. campos.
  rewrite Hrx. intros Hrel Hc Htx.
  rewrite Z.sub_diag in *. change (uint32 0) with 0 in *.
  cbn [length Nat.add] in *.
  specialize (Hc eq_refl ltac:(apply Z.mod_pos_bound; lia) ltac:(lia)).
  assert (Hu : forall z, uint32 (uint32 z) = uint32 z)
    by (intros z; unfold uint32; by rewrite Z.mod_mod).
  specialize (Hrel eq_refl (Hu _) ltac:(by rewrite Z.sub_diag) ltac:(lia)
                ltac:(lia)).
  subst c. rewrite bool_decide_eq_false_2 by discriminate.
  campos. split.
  - rewrite Htx. unfold preambulo. by rewrite <- !app_assoc.
  - rewrite Hrel. unfold uint32.
    rewrite (Zplus_mod_idemp_l (relogio w + 100) 50), Zplus_mod_idemp_l.
    f_equal. lia.
Qed.

Lemma envio_com_modem_mudo_witness :
  relogio (enviarDadosFirebase "{}" mundoInicial) = 5150
  /\ wifiTx (enviarDadosFirebase "{}" mundoInicial) = preambulo.
Proof.
  assert (Hrx : wifiRx mundoInicial = []) by reflexivity.
  destruct (envio_com_modem_mudo "{}" mundoInicial Hrx) as (Htx & Hr).
  split; [exact Hr|exact Htx].
Defined.

End SessaoPainelExtra.

(* ====================================================================== *)
(** * 17. More on the enrollment routine                                   *)
(* ====================================================================== *)

Section CadastroExtra.

Lemma resetarLCDParaPadrao_sensorLog (w : Mundo) :
  sensorLog (resetarLCDParaPadrao w) = sensorLog w.
Proof. reflexivity. Qed.

End CadastroExtra.

Create Rewrite HintDb registro.
Hint Rewrite atualizarLCD_sensorLog Serial_println_sensorLog delay_sensorLog
  anotar_sensorLog anotar_nada_sensorLog salvarTagEEPROM_sensorLog
  resetarLCDParaPadrao_sensorLog : registro.

Ltac registros := cbn [fst snd] in *; autorewrite with registro in *.

Section CadastroExtra2.

(** A sensor with templates 1 to 5 stored; the finger is put down, lifted
    and put down again, and the two captures match. *)
Definition ambCadastroOk : Sensores :=
  mkSensores
    (fun n => if bool_decide (n = 9%nat) then FINGERPRINT_NOFINGER else FINGERPRINT_OK)
    (fun _ id => if (1 <=? id) && (id <=? 5) then FINGERPRINT_OK else 12)
    (fun _ _ => FINGERPRINT_OK) (fun _ => FINGERPRINT_OK)
    (fun _ _ => FINGERPRINT_OK) (fun _ => 5) (fun _ => None) (fun _ => 30).

(** X10. A template is stored at the first free index. Whenever the routine
    ends with "Salvo", the commands it sent are: the loads of 1, 2, ... all
    answered OK, one load that failed at the index reported, later the
    combination answered OK and, last, the store at that same index,
    answered OK; the screen shows "Salvo ID" with that index. *)
Theorem biometria_salva_no_primeiro_livre (amb : Sensores) (fuel : nat)
    (w : Mundo) (id : Z) :
  fst (executarRotinaCadastro amb fuel w) = BiometriaSalva id ->
  exists (k : nat) (p : Z) (antes meio : list Chamada),
    id = 1 + Z.of_nat k /\ (k < 127)%nat /\ p <> FINGERPRINT_OK
    /\ sensorLog (snd (executarRotinaCadastro amb fuel w))
       = (sensorLog w ++ antes ++ cargasOK k 1 ++ LoadModel id p :: meio
          ++ [CreateModel FINGERPRINT_OK; StoreModel id FINGERPRINT_OK])%list
    /\ (forall i q, StoreModel i q ∉ (antes ++ cargasOK k 1 ++ LoadModel id p :: meio)%list)
    /\ last (visor (snd (executarRotinaCadastro amb fuel w)))
       = Some (telaLCD ("Salvo ID " ++ String_DEC id) COR_SUCESSO).
Proof.
  intros Hs.
  destruct (executarRotinaCadastro_forma amb fuel w) as (L & HL & Hf & Ht).
  rewrite Hs in Hf, Ht.
  inversion Hf as [| | |G s Lb HG Hb]; subst.
  inversion Hb as [| |k p s Lc Hk Hp Hc]; subst.
  inversion Hc as [| | |G2 s Lr HG2 Hr]; subst.
  inversion Hr; subst.
  exists k, p, (G ++ [GetImage FINGERPRINT_OK])%list,
    (Image2Tz 1 FINGERPRINT_OK :: G2 ++ [Image2Tz 2 FINGERPRINT_OK])%list.
  split; [done|]. split; [done|]. split; [done|]. split; [|split].
  - rewrite HL. f_equal. rewrite <- !app_assoc. cbn [app]. do 3 f_equal.
    by rewrite <- !app_assoc.
  - intros i q Hin.
    assert (Hn : Forall neutra ((G ++ [GetImage FINGERPRINT_OK])
                   ++ cargasOK k 1
                   ++ LoadModel (1 + Z.of_nat k) p
                      :: Image2Tz 1 FINGERPRINT_OK :: G2
                      ++ [Image2Tz 2 FINGERPRINT_OK])).
    { apply Forall_app. split.
      - apply Forall_app. split; [by apply soGetImage_neutras|].
        by repeat constructor.
      - apply Forall_app. split; [apply cargasOK_neutras|].
        do 2 (constructor; [done|]).
        apply Forall_app. split; [by apply soGetImage_neutras|].
        by repeat constructor. }
    rewrite Forall_forall in Hn. by destruct (Hn _ Hin).
  - by apply Ht.
Qed.

Lemma biometria_salva_no_primeiro_livre_witness :
  fst (executarRotinaCadastro ambCadastroOk 100 mundoInicial) = BiometriaSalva 6
  /\ last (visor (snd (executarRotinaCadastro ambCadastroOk 100 mundoInicial)))
     = Some ("Salvo ID 6", "", COR_SUCESSO).
Proof.
  assert (Hs : fst (executarRotinaCadastro ambCadastroOk 100 mundoInicial)
               = BiometriaSalva 6) by (vm_compute; reflexivity).
  split; [exact Hs|].
  destruct (biometria_salva_no_primeiro_livre ambCadastroOk 100 mundoInicial 6 Hs)
    as (k & p & antes & meio & _ & _ & _ & _ & _ & Ht).
  exact Ht.
Defined.

(** ** The finger has to be lifted *)

Definition semTz2 (l : list Chamada) : Prop :=
  Forall (fun c => forall p, c <> Image2Tz 2 p) l.

(** Before the second image is converted, wherever that is in the list,
    some poll of the sensor answered that there was no finger. *)
Definition dedoRetirado (l : list Chamada) : Prop :=
  forall p antes depois,
    l = (antes ++ Image2Tz 2 p :: depois)%list ->
    GetImage FINGERPRINT_NOFINGER ∈ antes.

(** A conversion of the second image found in [A ++ L] is in [L] when [A]
    has none. *)
Lemma semTz2_prefixo (A L antes depois : list Chamada) (p : Z) :
  semTz2 A ->
  (A ++ L = antes ++ Image2Tz 2 p :: depois)%list ->
  exists k, antes = (A ++ k)%list /\ L = (k ++ Image2Tz 2 p :: depois)%list.
Proof.
  intros HA. revert antes. unfold semTz2 in HA.
  induction HA as [|c A Hc HA IH]; intros antes H.
  - exists antes. by split.
  - destruct antes as [|c' antes]; cbn [app] in H.
    + injection H as -> _. by destruct (Hc p).
    + injection H as <- H. destruct (IH antes H) as (k & -> & ->).
      exists k. by split.
Qed.

Lemma dedoRetirado_semTz2 (l : list Chamada) : semTz2 l -> dedoRetirado l.
Proof.
  intros Hl p antes depois H. exfalso.
  unfold semTz2 in Hl. rewrite Forall_forall in Hl.
  assert (Hin : Image2Tz 2 p ∈ l) by (rewrite H; apply elem_of_app; right; by left).
  by destruct (Hl _ Hin p).
Qed.

Lemma dedoRetirado_app (A L : list Chamada) :
  semTz2 A -> dedoRetirado L -> dedoRetirado (A ++ L).
Proof.
  intros HA HL p antes depois H.
  destruct (semTz2_prefixo A L antes depois p HA H) as (k & -> & HLk).
  apply elem_of_app. right. by apply (HL p k depois).
Qed.

(** Once the finger was seen lifted in [G], which has no conversion, it
    was lifted before any conversion that follows. *)
Lemma dedoRetirado_depois (G X : list Chamada) :
  semTz2 G -> GetImage FINGERPRINT_NOFINGER ∈ G -> dedoRetirado (G ++ X).
Proof.
  intros HG Hin p antes depois H.
  destruct (semTz2_prefixo G X antes depois p HG H) as (k & -> & _).
  apply elem_of_app. by left.
Qed.

Lemma soGetImage_semTz2 (G : list Chamada) : soGetImage G -> semTz2 G.
Proof. intros HG. eapply Forall_impl; [exact HG|]. by intros c [p ->] q. Qed.

Lemma cargasOK_semTz2 : forall (n : nat) (i : Z), semTz2 (cargasOK n i).
Proof. induction n as [|n IH]; intros i; constructor; [done|apply IH]. Qed.

Lemma aguardarRetirada_retirado (amb : Sensores) :
  forall (fuel : nat) (w : Mundo),
    exists G,
      sensorLog (snd (aguardarRetirada amb fuel w)) = (sensorLog w ++ G)%list
      /\ soGetImage G
      /\ (fst (aguardarRetirada amb fuel w) <> None ->
          GetImage FINGERPRINT_NOFINGER ∈ G).
Proof.
  induction fuel as [|fuel IH]; intros w.
  - exists []. simpl. rewrite app_nil_r. split; [done|]. split; [constructor|done].
  - cbn [aguardarRetirada finger_getImage].
    generalize (r_getImage amb (passo w)). intros p.
    destruct (Z.eqb_spec p FINGERPRINT_NOFINGER) as [->|Hne]; cbn [negb].
    + exists [GetImage FINGERPRINT_NOFINGER]. split; [done|].
      split; [constructor; [eauto|constructor]|]. intros _. by left.
    + destruct (IH (anotar amb (Some (GetImage p)) w)) as (G & HG & Hso & Hret).
      exists (GetImage p :: G). split; [|split].
      * rewrite HG. registros. by rewrite <- app_assoc.
      * constructor; [eauto|done].
      * intros Hr. right. by apply Hret.
Qed.

Lemma confirmarDedo_retirado (amb : Sensores) (fuel : nat) (idNovo : Z) (w : Mundo) :
  exists L,
    sensorLog (snd (confirmarDedo amb fuel idNovo w)) = (sensorLog w ++ L)%list
    /\ dedoRetirado L.
Proof.
  unfold confirmarDedo.
  match goal with
  | |- context [aguardarRetirada amb fuel ?x] =>
      generalize (aguardarRetirada_retirado amb fuel x);
      generalize (aguardarRetirada amb fuel x)
  end.
  intros [[[]|] w1] (G1 & HG1 & Hso1 & Hret); registros.
  2:{ exists G1. split; [done|]. by apply dedoRetirado_semTz2, soGetImage_semTz2. }
  assert (Hin : GetImage FINGERPRINT_NOFINGER ∈ G1) by (by apply Hret).
  assert (Hfim : forall w' X,
            sensorLog w' = (sensorLog w1 ++ X)%list ->
            exists L, sensorLog w' = (sensorLog w ++ L)%list /\ dedoRetirado L).
  { intros w' X HX. exists (G1 ++ X)%list. split.
    - by rewrite HX, HG1, <- app_assoc.
    - by apply dedoRetirado_depois; [apply soGetImage_semTz2|]. }
  match goal with
  | |- context [aguardarSegundoDedo amb fuel ?t ?x] =>
      generalize (aguardarSegundoDedo_forma amb t fuel x);
      generalize (aguardarSegundoDedo amb fuel t x)
  end.
  intros [[[|]|] w2] (G2 & HG2 & Hso2); registros.
  - cbn [finger_image2Tz].
    match goal with
    | |- context [r_image2Tz amb ?n 2] => generalize (r_image2Tz amb n 2)
    end.
    intros p. destruct (p =? FINGERPRINT_OK); cbn [negb].
    + match goal with
      | |- context [criarESalvar amb idNovo ?x] =>
          generalize (criarESalvar_forma amb idNovo x);
          generalize (criarESalvar amb idNovo x)
      end.
      intros [s w3] (L & HL & _). registros.
      apply (Hfim w3 (G2 ++ [Image2Tz 2 p] ++ L)%list).
      rewrite HL, HG2. by rewrite <- !app_assoc.
    + apply (Hfim _ (G2 ++ [Image2Tz 2 p])%list). registros.
      rewrite HG2. by rewrite <- !app_assoc.
  - apply (Hfim _ G2). by registros.
  - apply (Hfim _ G2). by registros.
Qed.

Lemma cadastroBiometria_retirado (amb : Sensores) (fuel : nat) (w : Mundo) :
  exists L,
    sensorLog (snd (cadastroBiometria amb fuel w)) = (sensorLog w ++ L)%list
    /\ dedoRetirado L.
Proof.
  unfold cadastroBiometria.
  match goal with
  | |- context [buscarIdLivre amb 127 1 ?x] =>
      generalize (buscarIdLivre_forma amb 127 1 x);
      generalize (buscarIdLivre amb 127 1 x)
  end.
  intros [idNovo w1] (L0 & HL0 & Hcaso). registros.
  assert (H0 : semTz2 L0).
  { destruct Hcaso as [[_ ->]|(k & p & _ & _ & _ & ->)]; [apply cargasOK_semTz2|].
    apply Forall_app. split; [apply cargasOK_semTz2|]. by repeat constructor. }
  destruct (idNovo =? -1).
  - exists L0. registros. split; [done|]. by apply dedoRetirado_semTz2.
  - cbn [finger_image2Tz].
    match goal with
    | |- context [r_image2Tz amb ?n 1] => generalize (r_image2Tz amb n 1)
    end.
    intros q. destruct (q =? FINGERPRINT_OK); cbn [negb].
    + match goal with
      | |- context [confirmarDedo amb fuel idNovo ?x] =>
          generalize (confirmarDedo_retirado amb fuel idNovo x);
          generalize (confirmarDedo amb fuel idNovo x)
      end.
      intros [s w2] (L & HL & HR). registros.
      exists ((L0 ++ [Image2Tz 1 q]) ++ L)%list. split.
      * rewrite HL, HL0. by rewrite <- !app_assoc.
      * apply dedoRetirado_app; [|done].
        apply Forall_app. split; [done|]. by repeat constructor.
    + exists (L0 ++ [Image2Tz 1 q])%list. registros. split.
      * rewrite HL0. by rewrite <- !app_assoc.
      * apply dedoRetirado_semTz2, Forall_app. split; [done|].
        by repeat constructor.
Qed.

Lemma janelaCadastro_retirado (amb : Sensores) (interno : nat) (t : Z) :
  forall (fuel : nat) (w : Mundo),
    exists L,
      sensorLog (snd (janelaCadastro amb interno fuel t w))
      = (sensorLog w ++ L)%list
      /\ dedoRetirado L.
Proof.
  assert (Hnil : forall w w' : Mundo,
            sensorLog w' = sensorLog w ->
            exists L, sensorLog w' = (sensorLog w ++ L)%list /\ dedoRetirado L).
  { intros w w' H. exists []. rewrite app_nil_r. split; [done|].
    apply dedoRetirado_semTz2. constructor. }
  induction fuel as [|fuel IH]; intros w; cbn [janelaCadastro];
    destruct (uint32 (millis w - t) <? 10000);
    try (apply Hnil; by registros).
  cbn [mfrc522_lerCartao]. destruct (r_cartao amb (passo w)) as [uid|].
  - apply Hnil. unfold cadastroRFID. by registros.
  - cbn [finger_getImage].
    match goal with
    | |- context [r_getImage amb ?n] => generalize (r_getImage amb n)
    end.
    intros p. destruct (p =? FINGERPRINT_OK).
    + match goal with
      | |- context [cadastroBiometria amb interno ?x] =>
          generalize (cadastroBiometria_retirado amb interno x);
          generalize (cadastroBiometria amb interno x)
      end.
      intros [s w1] (L & HL & HR). registros.
      exists ([GetImage p] ++ L)%list. split; [by rewrite HL, <- app_assoc|].
      apply dedoRetirado_app; [by repeat constructor|done].
    + match goal with
      | |- context [janelaCadastro amb interno fuel t ?x] =>
          generalize (IH x); generalize (janelaCadastro amb interno fuel t x)
      end.
      intros [s w1] (L & HL & HR). registros.
      exists ([GetImage p] ++ L)%list. split; [by rewrite HL, <- app_assoc|].
      apply dedoRetirado_app; [by repeat constructor|done].
Qed.

(** X11. The second capture needs the finger lifted. In every run of the
    routine, whatever the sensors answer, wherever the conversion of the
    second image stands among the commands sent, some poll of the sensor
    sent before it answered "no finger". *)
Theorem segunda_captura_exige_retirada (amb : Sensores) (fuel : nat) (w : Mundo)
    (antes depois : list Chamada) (p : Z) :
  sensorLog (snd (executarRotinaCadastro amb fuel w))
  = (sensorLog w ++ antes ++ Image2Tz 2 p :: depois)%list ->
  GetImage FINGERPRINT_NOFINGER ∈ antes.
Proof.
  intros HL.
  assert (HR : dedoRetirado (antes ++ Image2Tz 2 p :: depois)).
  { unfold executarRotinaCadastro in HL.
    revert HL.
    match goal with
    | |- context [janelaCadastro amb fuel fuel ?t ?x] =>
        generalize (janelaCadastro_retirado amb fuel t fuel x);
        generalize (janelaCadastro amb fuel fuel t x)
    end.
    intros [s w1] (L' & HL' & HR) HL. registros.
    rewrite HL' in HL. apply app_inv_head in HL. by subst L'. }
  by apply (HR p antes depois).
Qed.

Lemma segunda_captura_exige_retirada_witness :
  GetImage FINGERPRINT_NOFINGER
  ∈ [GetImage 0; LoadModel 1 0; LoadModel 2 0; LoadModel 3 0; LoadModel 4 0;
     LoadModel 5 0; LoadModel 6 12; Image2Tz 1 0; GetImage 2; GetImage 0].
Proof.
  apply (segunda_captura_exige_retirada ambCadastroOk 100 mundoInicial
           [GetImage 0; LoadModel 1 0; LoadModel 2 0; LoadModel 3 0;
            LoadModel 4 0; LoadModel 5 0; LoadModel 6 12; Image2Tz 1 0;
            GetImage 2; GetImage 0]
           [CreateModel 0; StoreModel 6 0] 0).
  vm_compute. reflexivity.
Defined.

End CadastroExtra2.

(* ====================================================================== *)
(** * 18. The idle window and what enrollment leaves alone                 *)
(* ====================================================================== *)

Section JanelaOciosa.

Lemma atualizarLCD_relogio (texto : string) (corTipo : Z) (w : Mundo) :
  relogio (atualizarLCD texto corTipo w) = relogio w.
Proof. unfold atualizarLCD. by destruct (_ <=? 16). Qed.

Lemma anotar_relogio (amb : Sensores) (c : option Chamada) (w : Mundo) :
  relogio (anotar amb c w) = uint32 (relogio w + r_custo amb (passo w)).
Proof. reflexivity. Qed.

Lemma anotar_passo (amb : Sensores) (c : option Chamada) (w : Mundo) :
  passo (anotar amb c w) = S (passo w).
Proof. reflexivity. Qed.

Lemma uint32_volta (t r d : Z) : uint32 (t + uint32 (r - t) + d) = uint32 (r + d).
Proof.
  unfold uint32.
  replace (t + (r - t) mod 4294967296 + d)
    with ((r - t) mod 4294967296 + (t + d)) by lia.
  rewrite Zplus_mod_idemp_l. f_equal. lia.
Qed.

(** One sensor command moves the time elapsed since [t] by its cost. *)
Lemma anotar_decorrido (amb : Sensores) (c : option Chamada) (w : Mundo) (t : Z) :
  uint32 (millis w - t) < 20000 ->
  1 <= r_custo amb (passo w) <= 1000 ->
  uint32 (millis (anotar amb c w) - t)
  = uint32 (millis w - t) + r_custo amb (passo w).
Proof.
  intros He Hc. unfold millis in *. rewrite anotar_relogio, uint32_soma.
  revert He. generalize (Z.mod_pos_bound (relogio w - t) 4294967296 eq_refl).
  fold (uint32 (relogio w - t)). generalize (uint32 (relogio w - t)).
  intros e He0 He. unfold uint32. apply Z.mod_small. lia.
Qed.

Lemma janelaCadastro_ociosa (amb : Sensores) (interno : nat) (t : Z) :
  (forall n, r_cartao amb n = None) ->
  (forall n, r_getImage amb n <> FINGERPRINT_OK) ->
  (forall n, 1 <= r_custo amb n <= 1000) ->
  forall (fuel : nat) (w : Mundo),
    uint32 (millis w - t) < 12000 ->
    10000 <= uint32 (millis w - t) + 2 * Z.of_nat fuel ->
    fst (janelaCadastro amb interno fuel t w) = TempoEsgotado
    /\ exists e, 10000 <= e < 12000
         /\ relogio (snd (janelaCadastro amb interno fuel t w))
            = uint32 (t + e + 1000).
Proof.
  intros Hc Hg Hcu.
  assert (Hfim : forall w : Mundo,
            uint32 (millis w - t) < 12000 -> 10000 <= uint32 (millis w - t) ->
            exists e, 10000 <= e < 12000
              /\ relogio (w |> Serial_println "[CADASTRO] Tempo limite encerrado."
                            |> atualizarLCD "Tempo Esgotado" COR_ERRO
                            |> delay 1000)
                 = uint32 (t + e + 1000)).
  { intros w He1 He2. exists (uint32 (millis w - t)). split; [lia|].
    unfold millis. rewrite uint32_volta. reflexivity. }
  induction fuel as [|fuel IH]; intros w He Hf; cbn [janelaCadastro];
    destruct (Z.ltb_spec (uint32 (millis w - t)) 10000) as [Hlt|Hge];
    try (split; [done|by apply Hfim]).
  - lia.
  - cbn [mfrc522_lerCartao]. rewrite Hc. cbn [finger_getImage].
    match goal with
    | |- context [r_getImage amb ?n] =>
        generalize (Hg n); generalize (r_getImage amb n)
    end.
    intros p Hp. destruct (Z.eqb_spec p FINGERPRINT_OK) as [|_]; [done|].
    pose proof (anotar_decorrido amb None w t ltac:(lia) (Hcu _)) as H1.
    pose proof (Hcu (passo w)) as Hc1.
    pose proof (Hcu (passo (anotar amb None w))) as Hc2.
    pose proof (anotar_decorrido amb (Some (GetImage p)) (anotar amb None w) t
                  ltac:(lia) Hc2) as H2.
    apply IH; lia.
Qed.

(** X12. The idle window. With no card and no finger at the sensors, and each
    sensor command taking between 1 and 1000 ms, the routine returns with
    "Tempo Esgotado" on the screen: the window closes between 10 and 12
    seconds after it opened, so the routine takes between 12 and 14
    seconds. *)
Theorem janela_ociosa_expira (amb : Sensores) (fuel : nat) (w : Mundo) :
  (forall n, r_cartao amb n = None) ->
  (forall n, r_getImage amb n <> FINGERPRINT_OK) ->
  (forall n, 1 <= r_custo amb n <= 1000) ->
  10000 <= 2 * Z.of_nat fuel ->
  fst (executarRotinaCadastro amb fuel w) = TempoEsgotado
  /\ last (visor (snd (executarRotinaCadastro amb fuel w)))
     = Some ("Tempo Esgotado", "", COR_ERRO)
  /\ exists e, 10000 <= e < 12000
       /\ relogio (snd (executarRotinaCadastro amb fuel w))
          = uint32 (relogio w + 2000 + e).
Proof.
  intros Hc Hg Hcu Hfuel.
  destruct (executarRotinaCadastro_forma amb fuel w) as (L & _ & _ & Ht).
  revert Ht. unfold executarRotinaCadastro.
  match goal with
  | |- context [janelaCadastro amb fuel fuel (millis ?x) ?x] =>
      assert (Hr : relogio x = uint32 (relogio w + 1000))
        by (by rewrite !atualizarLCD_relogio);
      revert Hr; generalize x
  end.
  intros x Hr.
  assert (H0 : uint32 (millis x - millis x) = 0) by (by rewrite Z.sub_diag).
  destruct (janelaCadastro_ociosa amb fuel (millis x) Hc Hg Hcu fuel x
              ltac:(lia) ltac:(lia)) as (Hs & e & He & Hrel).
  revert Hs Hrel. generalize (janelaCadastro amb fuel fuel (millis x) x).
  intros [s w1] Hs Hrel Ht. cbn [fst snd] in *. subst s.
  split; [done|]. split; [by apply Ht|].
  exists e. split; [done|]. rewrite Hrel. unfold millis. rewrite Hr.
  unfold uint32.
  rewrite <- Z.add_assoc, Zplus_mod_idemp_l. f_equal. lia.
Qed.

Lemma janela_ociosa_expira_witness :
  fst (executarRotinaCadastro ambVazio 5000 mundoInicial) = TempoEsgotado
  /\ last (visor (snd (executarRotinaCadastro ambVazio 5000 mundoInicial)))
     = Some ("Tempo Esgotado", "", COR_ERRO)
  /\ exists e, 10000 <= e < 12000
       /\ relogio (snd (executarRotinaCadastro ambVazio 5000 mundoInicial))
          = uint32 (relogio mundoInicial + 2000 + e).
Proof.
  apply (janela_ociosa_expira ambVazio 5000 mundoInicial).
  - reflexivity.
  - intros n. by vm_compute.
  - intros n. by vm_compute.
  - lia.
Defined.

(** ** What the routine leaves alone *)

(** The session, the snapshot of the key panel, the events reported and
    the telemetry link. *)
Definition foraDoCadastro (w : Mundo) :=
  (sessaoAberta w, timerSessao w, idUsuarioAtual w, tipoUsuarioAtual w,
   estadoAnteriorChaves w, eventos w, wifiTx w, wifiRx w, wifiPendente w,
   pinoAlarme w, timerMsgLCD w, msgLCDTemporaria w).

(** The same and the EEPROM. *)
Definition intacto (w : Mundo) := (foraDoCadastro w, eeprom w).

Lemma atualizarLCD_intacto (texto : string) (corTipo : Z) (w : Mundo) :
  intacto (atualizarLCD texto corTipo w) = intacto w.
Proof. unfold atualizarLCD. by destruct (_ <=? 16). Qed.

Lemma Serial_println_intacto (s : string) (w : Mundo) :
  intacto (Serial_println s w) = intacto w.
Proof. reflexivity. Qed.

Lemma delay_intacto (ms : Z) (w : Mundo) : intacto (delay ms w) = intacto w.
Proof. reflexivity. Qed.

Lemma anotar_intacto (amb : Sensores) (c : option Chamada) (w : Mundo) :
  intacto (anotar amb c w) = intacto w.
Proof. reflexivity. Qed.

Lemma resetarLCDParaPadrao_intacto (w : Mundo) :
  intacto (resetarLCDParaPadrao w) = intacto w.
Proof. reflexivity. Qed.

Lemma gravarBytes_foraDoCadastro (tagHex : string) (base : Z) :
  forall (n : nat) (i : Z) (w : Mundo),
    foraDoCadastro (gravarBytes tagHex base n i w) = foraDoCadastro w.
Proof. induction n as [|n IH]; intros i w; [done|]. cbn [gravarBytes]. by rewrite IH. Qed.

Lemma salvarTagEEPROM_foraDoCadastro (tag : string) (w : Mundo) :
  foraDoCadastro (salvarTagEEPROM tag w) = foraDoCadastro w.
Proof.
  unfold salvarTagEEPROM.
  change (foraDoCadastro (gravarBytes tag (1 + lerQtdTags w * 4) 4 0 w)
          = foraDoCadastro w).
  apply gravarBytes_foraDoCadastro.
Qed.

End JanelaOciosa.

Create Rewrite HintDb intactos.
Hint Rewrite atualizarLCD_intacto Serial_println_intacto delay_intacto
  anotar_intacto resetarLCDParaPadrao_intacto : intactos.

Ltac intactos := cbn [fst snd] in *; autorewrite with intactos in *.

Section Moldura.

Lemma buscarIdLivre_intacto (amb : Sensores) :
  forall (n : nat) (i : Z) (w : Mundo),
    intacto (snd (buscarIdLivre amb n i w)) = intacto w.
Proof.
  induction n as [|n IH]; intros i w; [done|].
  cbn [buscarIdLivre finger_loadModel].
  match goal with
  | |- context [r_loadModel amb ?k i] => generalize (r_loadModel amb k i)
  end.
  intros p. destruct (negb (p =? FINGERPRINT_OK)).
  - by intactos.
  - rewrite IH. by intactos.
Qed.

Lemma aguardarRetirada_intacto (amb : Sensores) :
  forall (fuel : nat) (w : Mundo),
    intacto (snd (aguardarRetirada amb fuel w)) = intacto w.
Proof.
  induction fuel as [|fuel IH]; intros w; [done|].
  cbn [aguardarRetirada finger_getImage].
  generalize (r_getImage amb (passo w)). intros p.
  destruct (negb (p =? FINGERPRINT_NOFINGER)).
  - rewrite IH. by intactos.
  - by intactos.
Qed.

Lemma aguardarSegundoDedo_intacto (amb : Sensores) (t : Z) :
  forall (fuel : nat) (w : Mundo),
    intacto (snd (aguardarSegundoDedo amb fuel t w)) = intacto w.
Proof.
  induction fuel as [|fuel IH]; intros w; cbn [aguardarSegundoDedo];
    destruct (uint32 (millis w - t) <? 5000); try done.
  cbn [finger_getImage]. generalize (r_getImage amb (passo w)). intros p.
  destruct (p =? FINGERPRINT_OK).
  - by intactos.
  - rewrite IH. by intactos.
Qed.

Lemma criarESalvar_intacto (amb : Sensores) (idNovo : Z) (w : Mundo) :
  intacto (snd (criarESalvar amb idNovo w)) = intacto w.
Proof.
  unfold criarESalvar. cbn [finger_createModel finger_storeModel].
  match goal with
  | |- context [r_createModel amb ?k] => generalize (r_createModel amb k)
  end.
  intros p. destruct (negb (p =? FINGERPRINT_OK)); [by intactos|].
  match goal with
  | |- context [r_storeModel amb ?k idNovo] => generalize (r_storeModel amb k idNovo)
  end.
  intros q. destruct (q =? FINGERPRINT_OK); by intactos.
Qed.

Lemma confirmarDedo_intacto (amb : Sensores) (fuel : nat) (idNovo : Z) (w : Mundo) :
  intacto (snd (confirmarDedo amb fuel idNovo w)) = intacto w.
Proof.
  unfold confirmarDedo.
  match goal with
  | |- context [aguardarRetirada amb fuel ?x] =>
      generalize (aguardarRetirada_intacto amb fuel x);
      generalize (aguardarRetirada amb fuel x)
  end.
  intros [[[]|] w1] H1; intactos; [|done].
  match goal with
  | |- context [aguardarSegundoDedo amb fuel ?t ?x] =>
      generalize (aguardarSegundoDedo_intacto amb t fuel x);
      generalize (aguardarSegundoDedo amb fuel t x)
  end.
  intros [[[|]|] w2] H2; intactos; try (by rewrite H2, H1).
  cbn [finger_image2Tz].
  match goal with
  | |- context [r_image2Tz amb ?n 2] => generalize (r_image2Tz amb n 2)
  end.
  intros p. destruct (negb (p =? FINGERPRINT_OK)).
  - intactos. by rewrite H2, H1.
  - rewrite criarESalvar_intacto. intactos. by rewrite H2, H1.
Qed.

Lemma cadastroBiometria_intacto (amb : Sensores) (fuel : nat) (w : Mundo) :
  intacto (snd (cadastroBiometria amb fuel w)) = intacto w.
Proof.
  unfold cadastroBiometria.
  match goal with
  | |- context [buscarIdLivre amb 127 1 ?x] =>
      generalize (buscarIdLivre_intacto amb 127 1 x);
      generalize (buscarIdLivre amb 127 1 x)
  end.
  intros [idNovo w1] H1. intactos.
  destruct (idNovo =? -1); [by intactos|].
  cbn [finger_image2Tz].
  match goal with
  | |- context [r_image2Tz amb ?n 1] => generalize (r_image2Tz amb n 1)
  end.
  intros q. destruct (negb (q =? FINGERPRINT_OK)).
  - by intactos.
  - rewrite confirmarDedo_intacto. by intactos.
Qed.

Lemma janelaCadastro_moldura (amb : Sensores) (interno : nat) (t : Z) :
  forall (fuel : nat) (w : Mundo),
    foraDoCadastro (snd (janelaCadastro amb interno fuel t w)) = foraDoCadastro w
    /\ (fst (janelaCadastro amb interno fuel t w) <> RfidCadastrado ->
        eeprom (snd (janelaCadastro amb interno fuel t w)) = eeprom w).
Proof.
  assert (Hi : forall w w' : Mundo, intacto w' = intacto w ->
            foraDoCadastro w' = foraDoCadastro w /\ eeprom w' = eeprom w).
  { intros w w' H. split; [exact (f_equal fst H)|exact (f_equal snd H)]. }
  assert (Hfim : forall w : Mundo,
            intacto (w |> Serial_println "[CADASTRO] Tempo limite encerrado."
                       |> atualizarLCD "Tempo Esgotado" COR_ERRO
                       |> delay 1000) = intacto w) by (intros w; by intactos).
  induction fuel as [|fuel IH]; intros w; cbn [janelaCadastro];
    destruct (uint32 (millis w - t) <? 10000).
  - by split.
  - cbn [fst snd]. by destruct (Hi w _ (Hfim w)).
  - cbn [mfrc522_lerCartao]. destruct (r_cartao amb (passo w)) as [uid|].
    + unfold cadastroRFID. cbn [fst snd]. split; [|done].
      transitivity (foraDoCadastro (salvarTagEEPROM (toUpperCase (uidHex uid))
                      (Serial_println "[CADASTRO] Cartao RFID Detectado."
                         (anotar amb None w)))).
      * apply Hi. by intactos.
      * rewrite salvarTagEEPROM_foraDoCadastro. apply Hi. by intactos.
    + cbn [finger_getImage].
      match goal with
      | |- context [r_getImage amb ?n] => generalize (r_getImage amb n)
      end.
      intros p. destruct (p =? FINGERPRINT_OK).
      * destruct (Hi w (snd (cadastroBiometria amb interno
                     (anotar amb (Some (GetImage p)) (anotar amb None w)))))
          as [H1 H2]; [|by split].
        rewrite cadastroBiometria_intacto. by intactos.
      * match goal with
        | |- context [janelaCadastro amb interno fuel t ?x] =>
            destruct (IH x) as [H1 H2]
        end.
        split; [by rewrite H1|]. intros Hs. by rewrite (H2 Hs).
  - cbn [fst snd]. by destruct (Hi w _ (Hfim w)).
Qed.

(** X13. Enrollment does not touch access. Whatever the sensors answer, the
    routine leaves the session, the snapshot of the key panel, the events
    reported and the telemetry link as they were, and it writes the EEPROM
    on one way out only, the one of a card enrolled. *)
Theorem cadastro_nao_mexe_no_acesso (amb : Sensores) (fuel : nat) (w : Mundo) :
  foraDoCadastro (snd (executarRotinaCadastro amb fuel w)) = foraDoCadastro w
  /\ (fst (executarRotinaCadastro amb fuel w) <> RfidCadastrado ->
      eeprom (snd (executarRotinaCadastro amb fuel w)) = eeprom w).
Proof.
  unfold executarRotinaCadastro.
  match goal with
  | |- context [janelaCadastro amb fuel fuel ?t ?x] =>
      destruct (janelaCadastro_moldura amb fuel t fuel x) as [H1 H2];
      assert (Hx : intacto x = intacto w) by (by intactos);
      pose proof (f_equal fst Hx : foraDoCadastro x = foraDoCadastro w) as Hf;
      pose proof (f_equal snd Hx : eeprom x = eeprom w) as He
  end.
  split; [by rewrite H1|]. intros Hs. by rewrite (H2 Hs).
Qed.

Lemma cadastro_nao_mexe_no_acesso_witness :
  eeprom (snd (executarRotinaCadastro ambCadastroOk 100 mundoInicial))
  = eeprom mundoInicial.
Proof.
  destruct (cadastro_nao_mexe_no_acesso ambCadastroOk 100 mundoInicial) as [_ H].
  apply H. vm_compute. discriminate.
Defined.

End Moldura.

(* ====================================================================== *)
(** * 19. The access decision                                              *)
(* ====================================================================== *)

Section Acesso.

Lemma intacto_campos (w w' : Mundo) :
  intacto w' = intacto w ->
  sessaoAberta w' = sessaoAberta w
  /\ timerSessao w' = timerSessao w
  /\ idUsuarioAtual w' = idUsuarioAtual w
  /\ tipoUsuarioAtual w' = tipoUsuarioAtual w
  /\ estadoAnteriorChaves w' = estadoAnteriorChaves w
  /\ eventos w' = eventos w
  /\ eeprom w' = eeprom w.
Proof.
  intros H. unfold intacto, foraDoCadastro in H. injection H. auto 10.
Qed.

Lemma autorizarSessao_campos (tipo id : string) (w : Mundo) :
  sessaoAberta (autorizarSessao tipo id w) = true
  /\ timerSessao (autorizarSessao tipo id w) = millis (autorizarSessao tipo id w)
  /\ idUsuarioAtual (autorizarSessao tipo id w) = id
  /\ tipoUsuarioAtual (autorizarSessao tipo id w) = tipo
  /\ eventos (autorizarSessao tipo id w) = eventos w
  /\ eeprom (autorizarSessao tipo id w) = eeprom w.
Proof. unfold autorizarSessao, atualizarLCD. by destruct (_ <=? 16). Qed.

Lemma negacaoAcesso_intacto (tipo id : string) (w : Mundo) :
  intacto (negacaoAcesso tipo id w) = intacto w.
Proof. unfold negacaoAcesso. by intactos. Qed.

Lemma atualizarLCD_visor (texto : string) (corTipo : Z) (w : Mundo) :
  visor (atualizarLCD texto corTipo w) = (visor w ++ [telaLCD texto corTipo])%list.
Proof. unfold atualizarLCD, telaLCD. by destruct (_ <=? 16). Qed.

Lemma negacaoAcesso_visor (tipo id : string) (w : Mundo) :
  visor (negacaoAcesso tipo id w)
  = (visor w ++ [("Nao Cadastrado", "", COR_ERRO);
                 ("Aguardando...", "", COR_PADRAO)])%list.
Proof.
  unfold negacaoAcesso. campos. rewrite atualizarLCD_visor. campos.
  by rewrite <- app_assoc.
Qed.

Lemma lerSensorBiometrico_intacto (amb : Sensores) (busca : nat -> Z * Z * Z)
    (w : Mundo) :
  intacto (snd (lerSensorBiometrico amb busca w)) = intacto w.
Proof.
  unfold lerSensorBiometrico. cbn [finger_getImage finger_image2Tz].
  generalize (r_getImage amb (passo w)). intros p.
  destruct (negb (p =? FINGERPRINT_OK)); [by intactos|].
  match goal with
  | |- context [r_image2Tz amb ?n 1] => generalize (r_image2Tz amb n 1)
  end.
  intros q. destruct (negb (q =? FINGERPRINT_OK)); [by intactos|].
  match goal with
  | |- context [busca ?n] => generalize (busca n)
  end.
  intros [[r id] conf].
  destruct (r =? FINGERPRINT_OK); [by intactos|].
  destruct (r =? FINGERPRINT_NOTFOUND); by intactos.
Qed.

(** What [lerSensorBiometrico] may answer: -1 for no finger, -2 for a
    finger that was not recognised, and the identifier the search left in
    the driver, as an [int], when the search answered OK. *)
Lemma lerSensorBiometrico_casos (amb : Sensores) (busca : nat -> Z * Z * Z)
    (w : Mundo) :
  (r_getImage amb (passo w) <> FINGERPRINT_OK
   /\ fst (lerSensorBiometrico amb busca w) = -1)
  \/ (r_getImage amb (passo w) = FINGERPRINT_OK
      /\ r_image2Tz amb (S (passo w)) 1 <> FINGERPRINT_OK
      /\ fst (lerSensorBiometrico amb busca w) = -2)
  \/ (r_getImage amb (passo w) = FINGERPRINT_OK
      /\ r_image2Tz amb (S (passo w)) 1 = FINGERPRINT_OK
      /\ exists r id conf,
           busca (S (S (passo w))) = (r, id, conf)
           /\ ((r = FINGERPRINT_OK
                /\ fst (lerSensorBiometrico amb busca w) = int16 id)
               \/ (r <> FINGERPRINT_OK
                   /\ fst (lerSensorBiometrico amb busca w) = -2))).
Proof.
  unfold lerSensorBiometrico. cbn [finger_getImage finger_image2Tz].
  destruct (Z.eqb_spec (r_getImage amb (passo w)) FINGERPRINT_OK) as [Hg|Hg];
    cbn [negb]; [|by left].
  right. campos.
  destruct (Z.eqb_spec (r_image2Tz amb (S (passo w)) 1) FINGERPRINT_OK) as [Hi|Hi];
    cbn [negb]; [|by left].
  right. split; [done|]. split; [done|]. campos.
  destruct (busca (S (S (passo w)))) as [[r id] conf].
  exists r, id, conf. split; [done|].
  destruct (Z.eqb_spec r FINGERPRINT_OK) as [Hr|Hr]; [by left|].
  right. split; [done|]. by destruct (r =? FINGERPRINT_NOTFOUND).
Qed.

Lemma lerSensorRFID_intacto (amb : Sensores) (w : Mundo) :
  intacto (snd (lerSensorRFID amb w)) = intacto w.
Proof.
  unfold lerSensorRFID. cbn [mfrc522_lerCartao].
  destruct (r_cartao amb (passo w)); by intactos.
Qed.

Lemma lerSensorRFID_casos (amb : Sensores) (w : Mundo) :
  fst (lerSensorRFID amb w) = ""
  \/ exists uid, r_cartao amb (passo w) = Some uid
       /\ fst (lerSensorRFID amb w) = toUpperCase (uidHex uid).
Proof.
  unfold lerSensorRFID. cbn [mfrc522_lerCartao].
  destruct (r_cartao amb (passo w)) as [uid|]; [right; by exists uid|by left].
Qed.

Lemma int16_faixa (z : Z) : -32768 <= int16 z < 32768.
Proof.
  unfold int16. generalize (Z.mod_pos_bound z 65536 eq_refl).
  generalize (z mod 65536). intros m Hm.
  destruct (Z.ltb_spec m 32768); lia.
Qed.

(** A finger the sensor saw and a card the reader has. *)
Definition ambDedoECartao : Sensores :=
  mkSensores
    (fun _ => FINGERPRINT_OK) (fun _ _ => 12)
    (fun _ _ => FINGERPRINT_OK) (fun _ => FINGERPRINT_OK)
    (fun _ _ => FINGERPRINT_OK) (fun _ => 1)
    (fun _ => Some [4; 161; 178; 195]) (fun _ => 30).

(** No finger, and a card the reader has. *)
Definition ambSoCartao : Sensores :=
  mkSensores
    (fun _ => FINGERPRINT_NOFINGER) (fun _ _ => 12)
    (fun _ _ => FINGERPRINT_OK) (fun _ => FINGERPRINT_OK)
    (fun _ _ => FINGERPRINT_OK) (fun _ => 0)
    (fun _ => Some [4; 161; 178; 195]) (fun _ => 30).

(** X14. A session is opened by a credential only. If a call of
    [verificarEntradaUsuario] opens a session, then either the search of
    the fingerprint sensor answered OK and the user is the identifier it
    found, or the reader read a card, the user is its identifier and the
    ledger, as it was before the call, holds that identifier. The session
    timer is the time of the opening; no event is reported and the ledger
    is not written. *)
Theorem sessao_so_abre_com_credencial (amb : Sensores) (busca : nat -> Z * Z * Z)
    (w : Mundo) :
  sessaoAberta w = false ->
  sessaoAberta (verificarEntradaUsuario amb busca w) = true ->
  timerSessao (verificarEntradaUsuario amb busca w)
  = millis (verificarEntradaUsuario amb busca w)
  /\ eventos (verificarEntradaUsuario amb busca w) = eventos w
  /\ eeprom (verificarEntradaUsuario amb busca w) = eeprom w
  /\ ((tipoUsuarioAtual (verificarEntradaUsuario amb busca w) = "Biometria"
       /\ exists n id conf,
            busca n = (FINGERPRINT_OK, id, conf) /\ 0 <= int16 id
            /\ idUsuarioAtual (verificarEntradaUsuario amb busca w)
               = String_DEC (int16 id))
      \/ (tipoUsuarioAtual (verificarEntradaUsuario amb busca w) = "RFID"
          /\ exists n uid,
               r_cartao amb n = Some uid
               /\ idUsuarioAtual (verificarEntradaUsuario amb busca w)
                  = toUpperCase (uidHex uid)
               /\ verificarTagNaEEPROM (toUpperCase (uidHex uid)) w = true)).
Proof.
  intros Hf. unfold verificarEntradaUsuario. rewrite Hf.
  generalize (lerSensorBiometrico_casos amb busca w)
    (lerSensorBiometrico_intacto amb busca w).
  generalize (lerSensorBiometrico amb busca w).
  intros [idBio w1] Hcasos Hi1. cbn [fst snd] in *.
  destruct (intacto_campos _ _ Hi1) as (Hs1 & _ & _ & _ & _ & He1 & Hm1).
  destruct (Z.geb_spec idBio 0) as [Hge|Hlt].
  - (* recognised finger *)
    match goal with
    | |- context [autorizarSessao ?t ?i ?x] =>
        generalize (autorizarSessao_campos t i x);
        generalize (autorizarSessao t i x)
    end.
    intros w2 (_ & Ht & Hid & Htipo & He & Hm) _. campos.
    split; [done|]. split; [congruence|]. split; [congruence|]. left.
    split; [done|].
    destruct Hcasos as [[_ H]|[(_ & _ & H)|(_ & _ & r & id & conf & Hb & H)]];
      [lia|lia|].
    destruct H as [[-> H]|[_ H]]; [|lia].
    exists (S (S (passo w))), id, conf. subst idBio. by rewrite Hid.
  - destruct (Z.eqb_spec idBio (-2)) as [_|Hn2].
    + (* finger not recognised *)
      intros Ha. exfalso.
      destruct (intacto_campos _ _ (negacaoAcesso_intacto "Biometria"
                  "Desconhecido" w1)) as (Hs & _).
      congruence.
    + (* no finger: the card reader *)
      generalize (lerSensorRFID_casos amb w1) (lerSensorRFID_intacto amb w1).
      generalize (lerSensorRFID amb w1).
      intros [idTag w2] Hc2 Hi2. cbn [fst snd] in *.
      destruct (intacto_campos _ _ Hi2) as (Hs2 & _ & _ & _ & _ & He2 & Hm2).
      destruct (String.eqb_spec idTag "") as [_|Hne]; cbn [negb];
        [intros Ha; congruence|].
      destruct Hc2 as [Hvazio|(uid & Hcartao & Hu)]; [done|].
      rewrite (verificarTagNaEEPROM_ext idTag
                 (Serial_println ("[ACESSO] Tag RFID lida: " ++ idTag) w2) w)
        by (campos; congruence).
      destruct (verificarTagNaEEPROM idTag w) eqn:Hv.
      * match goal with
        | |- context [autorizarSessao ?t ?i ?x] =>
            generalize (autorizarSessao_campos t i x);
            generalize (autorizarSessao t i x)
        end.
        intros w3 (_ & Ht & Hid & Htipo & He & Hm) _. campos.
        split; [done|]. split; [congruence|]. split; [congruence|]. right.
        split; [done|]. exists (passo w1), uid. subst idTag.
        by rewrite Hid.
      * intros Ha. exfalso.
        destruct (intacto_campos _ _ (negacaoAcesso_intacto "RFID" idTag
                    (Serial_println ("[ACESSO] Tag RFID lida: " ++ idTag) w2)))
          as (Hs & _).
        revert Hs. intactos. campos. congruence.
Qed.

Lemma sessao_so_abre_com_credencial_witness :
  tipoUsuarioAtual (verificarEntradaUsuario ambDedoECartao buscaAcha3 mundoInicial)
  = "Biometria"
  /\ timerSessao (verificarEntradaUsuario ambDedoECartao buscaAcha3 mundoInicial)
     = millis (verificarEntradaUsuario ambDedoECartao buscaAcha3 mundoInicial).
Proof.
  split; [vm_compute; reflexivity|].
  assert (Hf : sessaoAberta mundoInicial = false) by reflexivity.
  assert (Ha : sessaoAberta
                 (verificarEntradaUsuario ambDedoECartao buscaAcha3 mundoInicial)
               = true) by (vm_compute; reflexivity).
  destruct (sessao_so_abre_com_credencial ambDedoECartao buscaAcha3 mundoInicial
              Hf Ha) as (Ht & _).
  exact Ht.
Defined.

(** X15. A finger that is not recognised ends the attempt. With the session
    closed and a finger on the sensor, a conversion that fails or a search
    that does not answer OK denies access: the session stays closed, the
    screen shows "Nao Cadastrado" and then the idle screen, no event is
    reported, and the outcome is the same whatever card is at the
    reader. *)
Theorem dedo_desconhecido_nega (amb : Sensores) (busca : nat -> Z * Z * Z)
    (w : Mundo) :
  sessaoAberta w = false ->
  r_getImage amb (passo w) = FINGERPRINT_OK ->
  (r_image2Tz amb (S (passo w)) 1 <> FINGERPRINT_OK
   \/ (fst (fst (busca (S (S (passo w))))) <> FINGERPRINT_OK)) ->
  sessaoAberta (verificarEntradaUsuario amb busca w) = false
  /\ eventos (verificarEntradaUsuario amb busca w) = eventos w
  /\ visor (verificarEntradaUsuario amb busca w)
     = (visor w ++ [("Nao Cadastrado", "", COR_ERRO);
                    ("Aguardando...", "", COR_PADRAO)])%list
  /\ forall cartao : nat -> option (list Z),
       verificarEntradaUsuario
         (mkSensores (r_getImage amb) (r_loadModel amb) (r_image2Tz amb)
            (r_createModel amb) (r_storeModel amb) (r_templateCount amb)
            cartao (r_custo amb)) busca w
       = verificarEntradaUsuario amb busca w.
Proof.
  intros Hf Hg Hfalha.
  assert (Hcaso : forall amb' : Sensores,
            r_getImage amb' = r_getImage amb ->
            r_image2Tz amb' = r_image2Tz amb ->
            r_custo amb' = r_custo amb ->
            exists w1,
              verificarEntradaUsuario amb' busca w
              = negacaoAcesso "Biometria" "Desconhecido" w1
              /\ intacto w1 = intacto w /\ visor w1 = visor w
              /\ forall amb'' : Sensores,
                   r_getImage amb'' = r_getImage amb ->
                   r_image2Tz amb'' = r_image2Tz amb ->
                   r_custo amb'' = r_custo amb ->
                   verificarEntradaUsuario amb'' busca w
                   = negacaoAcesso "Biometria" "Desconhecido" w1).
  { assert (Hum : forall amb' : Sensores,
              r_getImage amb' = r_getImage amb ->
              r_image2Tz amb' = r_image2Tz amb ->
              r_custo amb' = r_custo amb ->
              verificarEntradaUsuario amb' busca w
              = verificarEntradaUsuario amb busca w).
    { intros amb' E1 E2 E3. unfold verificarEntradaUsuario. rewrite Hf.
      unfold lerSensorBiometrico. cbn [finger_getImage finger_image2Tz].
      unfold anotar. rewrite E1, E2, E3, Hg. rewrite Z.eqb_refl. cbn [negb].
      campos.
      destruct (Z.eqb_spec (r_image2Tz amb (S (passo w)) 1) FINGERPRINT_OK)
        as [Hi|Hi]; cbn [negb]; [|reflexivity].
      destruct Hfalha as [H|H]; [done|].
      destruct (busca (S (S (passo w)))) as [[r id] conf]. cbn [fst] in H.
      destruct (Z.eqb_spec r FINGERPRINT_OK) as [|_]; [done|].
      destruct (r =? FINGERPRINT_NOTFOUND); reflexivity. }
    assert (Hamb : exists w1,
              verificarEntradaUsuario amb busca w
              = negacaoAcesso "Biometria" "Desconhecido" w1
              /\ intacto w1 = intacto w /\ visor w1 = visor w).
    { unfold verificarEntradaUsuario. rewrite Hf.
      unfold lerSensorBiometrico. cbn [finger_getImage finger_image2Tz].
      rewrite Hg. rewrite Z.eqb_refl. cbn [negb]. campos.
      destruct (Z.eqb_spec (r_image2Tz amb (S (passo w)) 1) FINGERPRINT_OK)
        as [Hi|Hi]; cbn [negb].
      - destruct Hfalha as [H|H]; [done|].
        destruct (busca (S (S (passo w)))) as [[r id] conf]. cbn [fst] in H.
        destruct (Z.eqb_spec r FINGERPRINT_OK) as [|_]; [done|].
        destruct (r =? FINGERPRINT_NOTFOUND); cbn [Z.geb Z.compare Z.eqb Pos.eqb];
          eexists; (split; [reflexivity|]); by split.
      - cbn [Z.geb Z.compare Z.eqb Pos.eqb].
        eexists. split; [reflexivity|]. by split. }
    destruct Hamb as (w1 & Hw1 & Hi1 & Hv1).
    intros amb' E1 E2 E3. exists w1.
    split; [by rewrite (Hum amb' E1 E2 E3)|]. split; [done|]. split; [done|].
    intros amb'' F1 F2 F3. by rewrite (Hum amb'' F1 F2 F3). }
  destruct (Hcaso amb eq_refl eq_refl eq_refl) as (w1 & Hw1 & Hi1 & Hv1 & Htodos).
  destruct (intacto_campos _ _ Hi1) as (Hs1 & _ & _ & _ & _ & He1 & _).
  destruct (intacto_campos _ _ (negacaoAcesso_intacto "Biometria" "Desconhecido"
              w1)) as (Hs & _ & _ & _ & _ & He & _).
  rewrite Hw1. split; [congruence|]. split; [congruence|].
  split; [by rewrite negacaoAcesso_visor, Hv1|].
  intros cartao. by apply Htodos.
Qed.

Lemma dedo_desconhecido_nega_witness :
  sessaoAberta (verificarEntradaUsuario ambDedoECartao buscaNaoAcha
                  (cadastrarTags 1 0 mundoInicial)) = false
  /\ last (visor (verificarEntradaUsuario ambDedoECartao buscaNaoAcha
                    (cadastrarTags 1 0 mundoInicial)))
     = Some ("Aguardando...", "", COR_PADRAO).
Proof.
  assert (Hf : sessaoAberta (cadastrarTags 1 0 mundoInicial) = false)
    by (vm_compute; reflexivity).
  assert (Hg : r_getImage ambDedoECartao (passo (cadastrarTags 1 0 mundoInicial))
               = FINGERPRINT_OK) by reflexivity.
  assert (Hb : r_image2Tz ambDedoECartao
                 (S (passo (cadastrarTags 1 0 mundoInicial))) 1 <> FINGERPRINT_OK
               \/ fst (fst (buscaNaoAcha
                              (S (S (passo (cadastrarTags 1 0 mundoInicial))))))
                  <> FINGERPRINT_OK) by (right; vm_compute; discriminate).
  destruct (dedo_desconhecido_nega ambDedoECartao buscaNaoAcha
              (cadastrarTags 1 0 mundoInicial) Hf Hg Hb) as (Hs & _ & Hv & _).
  split; [exact Hs|]. rewrite Hv.
  by rewrite last_app_cons.
Defined.

End Acesso.

(* ====================================================================== *)
(** * 20. The enrollment button and the passes of [loop]                   *)
(* ====================================================================== *)

Section BotaoELaco.

(** X16. When a press is accepted. A call of [lerBotaoCadastro] turns the
    enrollment mode on exactly when the pin reads LOW, it read LOW on the
    call before too, more than 50 ms have passed since the reading last
    changed, and the accepted state of the button was not LOW already. It
    never turns the mode off. *)
Theorem botao_aceita_pressao (leitura : bool) (l : Laco) (w : Mundo) :
  modoCadastroAtivo (fst (lerBotaoCadastro leitura l w)) = true
  <-> (modoCadastroAtivo l = true
       \/ (leitura = LOW /\ ultimoEstadoBotaoCad l = LOW
           /\ estadoBotaoCad l = HIGH
           /\ uint32 (millis w - ultimoTempoDebounce l) > DELAY_DEBOUNCE)).
Proof.
  unfold lerBotaoCadastro, HIGH, LOW.
  destruct leitura, (ultimoEstadoBotaoCad l), (estadoBotaoCad l);
    cbn [Bool.eqb negb]; rewrite ?Z.sub_diag;
    change (uint32 0 >? DELAY_DEBOUNCE) with false; cbn [fst modoCadastroAtivo];
    try (destruct (Z.gtb_spec (uint32 (millis w - ultimoTempoDebounce l))
                    DELAY_DEBOUNCE) as [Hgt|Hle];
         cbn [fst modoCadastroAtivo]);
    split; intros H; try (by left); try tauto;
    try (destruct H as [H|(H1 & H2 & H3 & H4)]; try done; try lia).
  right. repeat split; try done. lia.
Qed.

Lemma botao_aceita_pressao_witness :
  modoCadastroAtivo
    (fst (lerBotaoCadastro LOW (mkLaco HIGH LOW 0 false 0 0)
            (delay 100 mundoInicial))) = true.
Proof.
  apply (botao_aceita_pressao LOW (mkLaco HIGH LOW 0 false 0 0)
           (delay 100 mundoInicial)).
  right. repeat split; reflexivity.
Defined.

(** The calls of [lerBotaoCadastro] one after the other, each with the
    level read and the state of the board at that call. *)
Definition lerBotaoVarias (chamadas : list (bool * Mundo)) (l : Laco) : Laco :=
  foldl (fun l x => fst (lerBotaoCadastro (fst x) l (snd x))) l chamadas.

Lemma lerBotaoCadastro_preso (l : Laco) (w : Mundo) :
  estadoBotaoCad l = LOW ->
  estadoBotaoCad (fst (lerBotaoCadastro LOW l w)) = LOW
  /\ modoCadastroAtivo (fst (lerBotaoCadastro LOW l w)) = modoCadastroAtivo l
  /\ snd (lerBotaoCadastro LOW l w) = w.
Proof.
  intros He. unfold lerBotaoCadastro. rewrite He. unfold LOW.
  cbn [Bool.eqb negb]. by destruct (_ >? DELAY_DEBOUNCE).
Qed.

(** X17. A button that stays down starts nothing. While the accepted state of
    the button is LOW, as it is at power-up and after a press was taken,
    calls that keep reading LOW never turn the enrollment mode on, however
    many they are and whenever they happen. *)
Theorem botao_preso_nao_dispara (chamadas : list (bool * Mundo)) (l : Laco) :
  estadoBotaoCad l = LOW ->
  modoCadastroAtivo l = false ->
  Forall (fun x => fst x = LOW) chamadas ->
  modoCadastroAtivo (lerBotaoVarias chamadas l) = false
  /\ estadoBotaoCad (lerBotaoVarias chamadas l) = LOW.
Proof.
  intros He Hm Hc. revert l He Hm.
  induction Hc as [|[r w] cs Hr _ IH]; intros l He Hm; [done|].
  cbn [lerBotaoVarias foldl fst snd] in *. subst r.
  destruct (lerBotaoCadastro_preso l w He) as (He' & Hm' & _).
  apply IH; congruence.
Qed.

Lemma botao_preso_nao_dispara_witness :
  modoCadastroAtivo
    (lerBotaoVarias [(LOW, mundoInicial); (LOW, delay 60 mundoInicial);
                     (LOW, delay 5000 mundoInicial)] lacoInicial) = false.
Proof.
  assert (Hc : Forall (fun x : bool * Mundo => fst x = LOW)
                 [(LOW, mundoInicial); (LOW, delay 60 mundoInicial);
                  (LOW, delay 5000 mundoInicial)]) by (repeat constructor).
  destruct (botao_preso_nao_dispara _ lacoInicial eq_refl eq_refl Hc) as (H & _).
  exact H.
Defined.

Lemma lerBotaoCadastro_intacto (leitura : bool) (l : Laco) (w : Mundo) :
  intacto (snd (lerBotaoCadastro leitura l w)) = intacto w
  /\ visor (snd (lerBotaoCadastro leitura l w)) = visor w.
Proof.
  unfold lerBotaoCadastro.
  destruct (_ >? DELAY_DEBOUNCE); [|done].
  destruct (negb (Bool.eqb leitura (estadoBotaoCad l))); [|done].
  by destruct (Bool.eqb leitura LOW).
Qed.

Lemma executarRotinaCadastro_moldura (amb : Sensores) (fuel : nat) (w : Mundo) :
  foraDoCadastro (snd (executarRotinaCadastro amb fuel w)) = foraDoCadastro w.
Proof.
  unfold executarRotinaCadastro.
  match goal with
  | |- context [janelaCadastro amb fuel fuel ?t ?x] =>
      destruct (janelaCadastro_moldura amb fuel t fuel x) as [H1 _];
      assert (Hx : intacto x = intacto w) by (by intactos);
      pose proof (f_equal fst Hx : foraDoCadastro x = foraDoCadastro w) as Hf
  end.
  by rewrite H1.
Qed.

(** X18. A pass in enrollment mode does not look at the keys. When the button
    call of a pass leaves the enrollment mode on and the pass ends, the
    pass has run the enrollment routine and nothing of the fast check: the
    stored key levels, the session and the events reported are as before
    the pass, whatever the key pins read, the mode is off again and the
    screen is the idle one. *)
Theorem passo_de_cadastro_nao_olha_chaves (amb : Sensores)
    (busca : nat -> Z * Z * Z) (fuel : nat) (leitura : bool)
    (digitalRead : Z -> bool) (l l' : Laco) (w w' : Mundo) :
  modoCadastroAtivo (fst (lerBotaoCadastro leitura l w)) = true ->
  loop amb busca fuel leitura digitalRead l w = Some (l', w') ->
  modoCadastroAtivo l' = false
  /\ estadoAnteriorChaves w' = estadoAnteriorChaves w
  /\ sessaoAberta w' = sessaoAberta w
  /\ idUsuarioAtual w' = idUsuarioAtual w
  /\ eventos w' = eventos w
  /\ last (visor w') = Some ("Aguardando...", "", COR_PADRAO)
  /\ fst (executarRotinaCadastro amb fuel (snd (lerBotaoCadastro leitura l w)))
     <> SemRetorno.
Proof.
  unfold loop.
  generalize (lerBotaoCadastro_intacto leitura l w).
  generalize (lerBotaoCadastro leitura l w).
  intros [l1 w1] [Hi1 _] Hm. cbn [fst snd] in *.
  rewrite Hm. cbn [negb]. rewrite Bool.andb_false_r.
  destruct (_ >? INTERVALO_RESET_LCD); rewrite Hm;
    generalize (executarRotinaCadastro_moldura amb fuel w1);
    generalize (executarRotinaCadastro amb fuel w1);
    intros [s w2] Hf Hl; cbn [fst snd] in *;
    (assert (Hi : foraDoCadastro w2 = foraDoCadastro w)
       by (rewrite Hf; exact (f_equal fst Hi1)));
    unfold foraDoCadastro in Hi; injection Hi as Hs _ Hid _ Hch Hev;
    destruct s; try discriminate Hl; injection Hl as <- <-;
    cbn [modoCadastroAtivo]; campos;
    repeat split; try done; apply last_snoc.
Qed.

Lemma passo_de_cadastro_nao_olha_chaves_witness :
  exists l' w',
    loop ambVazio buscaNaoAcha 5000 LOW (fun _ => HIGH)
      (mkLaco HIGH LOW 0 false 0 0) (delay 100 mundoInicial) = Some (l', w')
    /\ modoCadastroAtivo l' = false
    /\ eventos w' = [].
Proof.
  destruct (loop ambVazio buscaNaoAcha 5000 LOW (fun _ => HIGH)
              (mkLaco HIGH LOW 0 false 0 0) (delay 100 mundoInicial))
    as [[l' w']|] eqn:Hl; [|vm_compute in Hl; discriminate Hl].
  exists l', w'. split; [reflexivity|].
  assert (Hm : modoCadastroAtivo
                 (fst (lerBotaoCadastro LOW (mkLaco HIGH LOW 0 false 0 0)
                         (delay 100 mundoInicial))) = true)
    by (vm_compute; reflexivity).
  destruct (passo_de_cadastro_nao_olha_chaves ambVazio buscaNaoAcha 5000 LOW
              (fun _ => HIGH) (mkLaco HIGH LOW 0 false 0 0) l'
              (delay 100 mundoInicial) w' Hm Hl)
    as (H1 & _ & _ & _ & H2 & _).
  split; [exact H1|exact H2].
Defined.

(** X19. The scan comes before the timeout. In the fast check of [loop] an
    open session is honoured however old it is: a key of pin 25 taken out
    is reported as an authorised retrieval by the user of the session,
    because the key panel is scanned before the age of the session is
    looked at. The session is closed when the check ends. *)
Theorem varredura_antes_do_timeout (amb : Sensores) (busca : nat -> Z * Z * Z)
    (digitalRead : Z -> bool) (w : Mundo) :
  sessaoAberta w = true ->
  length (estadoAnteriorChaves w) = 2%nat ->
  removida digitalRead w 25 0 ->
  sessaoAberta (verificacaoRapida amb busca digitalRead w) = false
  /\ exists depois,
       eventos (verificacaoRapida amb busca digitalRead w)
       = (eventos w
          ++ RetiradaAutorizada 25 (idUsuarioAtual w) (tipoUsuarioAtual w)
          :: depois)%list
       /\ (depois = [] \/ depois = [AlarmeRoubo 26] \/ depois = [Devolucao 26]).
Proof.
  intros Ha Hlen [Hant Hlida].
  unfold verificacaoRapida, verificarEntradaUsuario. rewrite Ha.
  rewrite monitorarPainelDeChaves_passos, Hlida.
  destruct (processarChave_casos 25 0 HIGH LOW w Hant) as (Hc & _ & Hs1 & Hcaso).
  rewrite Ha in Hcaso. destruct Hcaso as [_ He1].
  revert Hc Hs1 He1. generalize (processarChave 25 0 HIGH w).
  intros w1 Hc Hs1 He1.
  assert (Hlen1 : (1 < length (estadoAnteriorChaves w1))%nat)
    by (rewrite Hc, length_insert; lia).
  destruct (processarChave_resumo digitalRead 26 1 w1 Hlen1)
    as (_ & _ & _ & novos & He2 & Hcaso).
  revert He2 Hcaso. generalize (processarChave 26 1 (digitalRead 26) w1).
  intros w2 He2 Hcaso.
  assert (Hs2 : sessaoAberta w2 = false).
  { destruct Hcaso as [(_ & H & _)|(_ & H & _)]; congruence. }
  unfold verificarTimeoutSessao. rewrite Hs2. split; [done|].
  exists novos. split; [by rewrite He2, He1, <- app_assoc|].
  destruct Hcaso as [(_ & _ & ->)|(_ & _ & _ & [->| ->])].
  - rewrite Hs1. by right; left.
  - by left.
  - by right; right.
Qed.

Lemma varredura_antes_do_timeout_witness :
  uint32 (millis sessaoVencida - timerSessao sessaoVencida) > TEMPO_LIMITE_SESSAO
  /\ exists depois,
       eventos (verificacaoRapida ambVazio buscaNaoAcha (fun _ => HIGH) sessaoVencida)
       = (eventos sessaoVencida
          ++ RetiradaAutorizada 25 "04A1B2C3" "RFID" :: depois)%list.
Proof.
  split; [reflexivity|].
  assert (Ha : sessaoAberta sessaoVencida = true) by reflexivity.
  assert (Hlen : length (estadoAnteriorChaves sessaoVencida) = 2%nat)
    by reflexivity.
  assert (Hrem : removida (fun _ => HIGH) sessaoVencida 25 0)
    by (split; reflexivity).
  destruct (varredura_antes_do_timeout ambVazio buscaNaoAcha (fun _ => HIGH)
              sessaoVencida Ha Hlen Hrem) as (_ & depois & He & _).
  exists depois. exact He.
Defined.

Lemma lerChaves_painel (digitalRead : Z -> bool) (w : Mundo) :
  length (estadoAnteriorChaves w) = 2%nat ->
  estadoAnteriorChaves
    (lerChaves digitalRead
       (seqZ PINO_CHAVE_INICIO (PINO_CHAVE_FIM - PINO_CHAVE_INICIO + 1)) 0 w)
  = [digitalRead 25; digitalRead 26].
Proof.
  intros Hlen. rewrite pinos_do_painel. cbn [lerChaves]. campos.
  destruct (estadoAnteriorChaves w) as [|a [|b [|c r]]]; try discriminate Hlen.
  reflexivity.
Qed.

(** X20. A key missing at power-up is not a theft. After the loop of [setup]
    has stored the levels of the key pins, a scan that reads the same
    levels reports nothing and changes nothing, whether the keys are in
    their places or not. *)
Theorem chave_ausente_na_partida (digitalRead : Z -> bool) (w : Mundo) :
  length (estadoAnteriorChaves w) = 2%nat ->
  monitorarPainelDeChaves digitalRead
    (lerChaves digitalRead
       (seqZ PINO_CHAVE_INICIO (PINO_CHAVE_FIM - PINO_CHAVE_INICIO + 1)) 0 w)
  = lerChaves digitalRead
      (seqZ PINO_CHAVE_INICIO (PINO_CHAVE_FIM - PINO_CHAVE_INICIO + 1)) 0 w.
Proof.
  intros Hlen. generalize (lerChaves_painel digitalRead w Hlen).
  generalize (lerChaves digitalRead
                (seqZ PINO_CHAVE_INICIO (PINO_CHAVE_FIM - PINO_CHAVE_INICIO + 1))
                0 w).
  intros w1 He. rewrite monitorarPainelDeChaves_passos.
  rewrite (processarChave_igual 25 0) by (by rewrite He).
  apply processarChave_igual. by rewrite He.
Qed.

Lemma chave_ausente_na_partida_witness :
  eventos (monitorarPainelDeChaves (fun _ => HIGH)
             (lerChaves (fun _ => HIGH)
                (seqZ PINO_CHAVE_INICIO (PINO_CHAVE_FIM - PINO_CHAVE_INICIO + 1))
                0 mundoInicial)) = [].
Proof.
  rewrite (chave_ausente_na_partida (fun _ => HIGH) mundoInicial eq_refl).
  reflexivity.
Defined.

End BotaoELaco.

(* ====================================================================== *)
(** * 21. The alarm output                                                 *)
(* ====================================================================== *)

Section Alarme.

Lemma atualizarLCD_pinoAlarme (texto : string) (corTipo : Z) (w : Mundo) :
  pinoAlarme (atualizarLCD texto corTipo w) = pinoAlarme w.
Proof. unfold atualizarLCD. by destruct (_ <=? 16). Qed.

Lemma readStringUntil_pinoAlarme (w : Mundo) :
  pinoAlarme (snd (SerialWifi_readStringUntil w)) = pinoAlarme w.
Proof.
  unfold SerialWifi_readStringUntil.
  destruct (wifiRx w) as [|[linha dur] resto]; reflexivity.
Qed.

Lemma aguardarConnect_pinoAlarme (t : Z) :
  forall (fuel : nat) (w : Mundo),
    pinoAlarme (snd (aguardarConnect fuel t w)) = pinoAlarme w.
Proof.
  induction fuel as [|fuel IH]; intros w; cbn [aguardarConnect].
  - by destruct (uint32 (millis w - t) <? 5000).
  - destruct (uint32 (millis w - t) <? 5000); [|done].
    generalize (readStringUntil_pinoAlarme w).
    generalize (SerialWifi_readStringUntil w). intros [resp w1] Hr.
    cbn [fst snd] in *.
    destruct (negb (indexOf resp "CONNECT" =? -1)); [done|].
    by rewrite IH.
Qed.

Lemma enviarDadosFirebase_pinoAlarme (json : string) (w : Mundo) :
  pinoAlarme (enviarDadosFirebase json w) = pinoAlarme w.
Proof.
  unfold enviarDadosFirebase.
  match goal with
  | |- context [aguardarConnect ?f ?t ?x] =>
      generalize (aguardarConnect_pinoAlarme t f x);
      generalize (aguardarConnect f t x)
  end.
  intros [c w1] Hn. cbn [fst snd] in Hn.
  by destruct (bool_decide (c = Some true)).
Qed.

Lemma registrarRetirada_pinoAlarme (pino : Z) (idUser tipoUser : string)
    (w : Mundo) :
  pinoAlarme (registrarRetirada pino idUser tipoUser w) = pinoAlarme w.
Proof.
  unfold registrarRetirada.
  by rewrite enviarDadosFirebase_pinoAlarme, atualizarLCD_pinoAlarme.
Qed.

Lemma registrarDevolucao_pinoAlarme (pino : Z) (w : Mundo) :
  pinoAlarme (registrarDevolucao pino w) = pinoAlarme w.
Proof.
  unfold registrarDevolucao.
  by rewrite enviarDadosFirebase_pinoAlarme, atualizarLCD_pinoAlarme.
Qed.

Lemma dispararAlarme_pinoAlarme (pino : Z) (w : Mundo) :
  pinoAlarme (dispararAlarme pino w) = LOW.
Proof. reflexivity. Qed.

Lemma processarChave_pinoAlarme (pino : Z) (index : nat) (lida : bool) (w : Mundo) :
  pinoAlarme w = LOW -> pinoAlarme (processarChave pino index lida w) = LOW.
Proof.
  intros Hp. unfold processarChave.
  generalize (registrarDevolucao_pinoAlarme pino w)
    (registrarRetirada_pinoAlarme pino (idUsuarioAtual w) (tipoUsuarioAtual w) w)
    (dispararAlarme_pinoAlarme pino w).
  generalize (registrarDevolucao pino w)
    (registrarRetirada pino (idUsuarioAtual w) (tipoUsuarioAtual w) w)
    (dispararAlarme pino w).
  intros wd wr wa Hd Hr Ha.
  destruct (negb _); [|done].
  destruct (Bool.eqb lida HIGH); [destruct (sessaoAberta w)|]; campos; congruence.
Qed.

Lemma varrerChaves_pinoAlarme (digitalRead : Z -> bool) :
  forall (pinos : list Z) (index : nat) (w : Mundo),
    pinoAlarme w = LOW ->
    pinoAlarme (varrerChaves digitalRead pinos index w) = LOW.
Proof.
  induction pinos as [|p pinos IH]; intros index w Hp; [done|].
  rewrite varrerChaves_cons. by apply IH, processarChave_pinoAlarme.
Qed.

Lemma intacto_pinoAlarme (w w' : Mundo) :
  intacto w' = intacto w -> pinoAlarme w' = pinoAlarme w.
Proof. intros H. unfold intacto, foraDoCadastro in H. by injection H. Qed.

Lemma autorizarSessao_pinoAlarme (tipo id : string) (w : Mundo) :
  pinoAlarme (autorizarSessao tipo id w) = pinoAlarme w.
Proof. unfold autorizarSessao. by rewrite atualizarLCD_pinoAlarme. Qed.

Lemma verificarEntradaUsuario_pinoAlarme (amb : Sensores)
    (busca : nat -> Z * Z * Z) (w : Mundo) :
  pinoAlarme (verificarEntradaUsuario amb busca w) = pinoAlarme w.
Proof.
  unfold verificarEntradaUsuario. destruct (sessaoAberta w); [done|].
  generalize (intacto_pinoAlarme _ _ (lerSensorBiometrico_intacto amb busca w)).
  generalize (lerSensorBiometrico amb busca w).
  intros [idBio w1] H1. cbn [fst snd] in *.
  destruct (idBio >=? 0); [by rewrite autorizarSessao_pinoAlarme|].
  destruct (idBio =? -2);
    [by rewrite (intacto_pinoAlarme _ _ (negacaoAcesso_intacto _ _ _))|].
  generalize (intacto_pinoAlarme _ _ (lerSensorRFID_intacto amb w1)).
  generalize (lerSensorRFID amb w1).
  intros [idTag w2] H2. cbn [fst snd] in *.
  destruct (negb (String.eqb idTag "")); [|congruence].
  destruct (verificarTagNaEEPROM _ _).
  - rewrite autorizarSessao_pinoAlarme. campos. congruence.
  - rewrite (intacto_pinoAlarme _ _ (negacaoAcesso_intacto _ _ _)). campos.
    congruence.
Qed.

Lemma verificarTimeoutSessao_pinoAlarme (w : Mundo) :
  pinoAlarme (verificarTimeoutSessao w) = pinoAlarme w.
Proof.
  unfold verificarTimeoutSessao. destruct (sessaoAberta w); [|done].
  by destruct (_ >? TEMPO_LIMITE_SESSAO).
Qed.

Lemma verificacaoRapida_pinoAlarme (amb : Sensores) (busca : nat -> Z * Z * Z)
    (digitalRead : Z -> bool) (w : Mundo) :
  pinoAlarme w = LOW ->
  pinoAlarme (verificacaoRapida amb busca digitalRead w) = LOW.
Proof.
  intros Hp. unfold verificacaoRapida, monitorarPainelDeChaves.
  rewrite verificarTimeoutSessao_pinoAlarme.
  apply varrerChaves_pinoAlarme. by rewrite verificarEntradaUsuario_pinoAlarme.
Qed.

(** X21. The siren is never left on. If the alarm output is LOW when a pass of
    [loop] starts, it is LOW when the pass ends, whatever happened in the
    pass: the only place that drives it HIGH drives it LOW again before it
    returns. *)
Theorem alarme_desligado_ao_fim_do_passo (amb : Sensores)
    (busca : nat -> Z * Z * Z) (fuel : nat) (leitura : bool)
    (digitalRead : Z -> bool) (l l' : Laco) (w w' : Mundo) :
  pinoAlarme w = LOW ->
  loop amb busca fuel leitura digitalRead l w = Some (l', w') ->
  pinoAlarme w' = LOW.
Proof.
  intros Hp. unfold loop.
  generalize (intacto_pinoAlarme _ _ (proj1 (lerBotaoCadastro_intacto leitura l w))).
  generalize (lerBotaoCadastro leitura l w).
  intros [l1 w1] H1. cbn [fst snd] in *.
  assert (Hm : exists l2 w2,
            (if uint32 (millis w1 - ultimoResetLCD l1) >? INTERVALO_RESET_LCD
             then
               if negb (sessaoAberta w1) && negb (modoCadastroAtivo l1)
               then
                 (mkLaco (estadoBotaoCad l1) (ultimoEstadoBotaoCad l1)
                    (ultimoTempoDebounce l1) (modoCadastroAtivo l1)
                    (timerCheck l1)
                    (millis
                       (w1 |> Serial_println
                                "[MANUTENCAO] Executando reset preventivo do LCD..."
                           |> resetarLCDParaPadrao)),
                  w1 |> Serial_println
                          "[MANUTENCAO] Executando reset preventivo do LCD..."
                     |> resetarLCDParaPadrao)
               else (l1, w1)
             else (l1, w1)) = (l2, w2)
            /\ pinoAlarme w2 = LOW).
  { destruct (_ >? INTERVALO_RESET_LCD); [|eexists _, _; split; [done|congruence]].
    destruct (_ && _); eexists _, _; (split; [reflexivity|]); campos; congruence. }
  destruct Hm as (l2 & w2 & -> & H2).
  destruct (modoCadastroAtivo l2).
  - generalize (executarRotinaCadastro_moldura amb fuel w2).
    generalize (executarRotinaCadastro amb fuel w2).
    intros [s w3] Hf Hl. cbn [fst snd] in *.
    assert (H3 : pinoAlarme w3 = LOW).
    { unfold foraDoCadastro in Hf. injection Hf. congruence. }
    destruct s; try discriminate Hl; injection Hl as <- <-; campos; congruence.
  - cbv zeta.
    match goal with
    | |- context [verificacaoRapida amb busca digitalRead ?x] =>
        assert (H3 : pinoAlarme x = LOW)
          by (destruct (_ && _); [destruct (negb (sessaoAberta w2))|]; done);
        revert H3; generalize x
    end.
    intros w3 H3. destruct (_ >? INTERVALO_CHECK); intros Hl;
      injection Hl as <- <-; [by apply verificacaoRapida_pinoAlarme|done].
Qed.

Lemma alarme_desligado_ao_fim_do_passo_witness :
  exists l' w',
    loop ambVazio buscaNaoAcha 10 HIGH (fun _ => HIGH) lacoInicial
      (delay 100 mundoInicial) = Some (l', w')
    /\ eventos w' = [AlarmeRoubo 25; AlarmeRoubo 26]
    /\ pinoAlarme w' = LOW.
Proof.
  destruct (loop ambVazio buscaNaoAcha 10 HIGH (fun _ => HIGH) lacoInicial
              (delay 100 mundoInicial)) as [[l' w']|] eqn:Hl;
    [|vm_compute in Hl; discriminate Hl].
  exists l', w'. split; [reflexivity|]. split.
  - vm_compute in Hl. injection Hl as _ <-. reflexivity.
  - apply (alarme_desligado_ao_fim_do_passo ambVazio buscaNaoAcha 10 HIGH
             (fun _ => HIGH) lacoInicial l' (delay 100 mundoInicial) w');
      [reflexivity|exact Hl].
Defined.

End Alarme.

(* ====================================================================== *)
(** * 22. The start-up report                                              *)
(* ====================================================================== *)

Section Relatorio.

Lemma imprimir_linhas (linhas : list string) :
  forall w : Mundo,
    console (fold_left (fun w l => Serial_println l w) linhas w)
    = (console w ++ linhas)%list.
Proof.
  induction linhas as [|l linhas IH]; intros w; cbn [fold_left].
  - by rewrite app_nil_r.
  - rewrite IH. campos. by rewrite <- app_assoc.
Qed.

Lemma listarTags_linha (w : Mundo) :
  forall (n : nat) (i k : Z),
    i <= k < i + Z.of_nat n ->
    ("  [TAG " ++ String_DEC k ++ "]: " ++ tagArmazenada k w) ∈ listarTags n i w.
Proof.
  induction n as [|n IH]; intros i k Hk; [lia|]. cbn [listarTags].
  destruct (Z.eq_dec k i) as [->|Hne]; [by left|].
  right. apply IH. lia.
Qed.

(** X22. The report shows every card the lookup accepts. A card identifier that
    [verificarTagNaEEPROM] finds in the ledger is printed by
    [listarInfosIniciais], run on the same ledger, on the line of one of
    the records counted. *)
Theorem cartao_aceito_consta_no_relatorio (amb : Sensores) (tag : string)
    (w : Mundo) :
  verificarTagNaEEPROM tag w = true ->
  exists k,
    0 <= k < lerQtdTags w
    /\ ("  [TAG " ++ String_DEC k ++ "]: " ++ tag)
       ∈ console (listarInfosIniciais amb w).
Proof.
  intros Hv. unfold verificarTagNaEEPROM in Hv.
  apply procurarTag_so_acha in Hv as (k & Hk & Hs).
  exists k. split; [lia|].
  destruct (listarInfosIniciais_console amb w) as [resto ->].
  apply elem_of_app. left.
  unfold listarInfosIniciais_tags. rewrite imprimir_linhas.
  apply elem_of_app. right. apply elem_of_app. right.
  apply elem_of_app. left. rewrite <- Hs. by apply listarTags_linha.
Qed.

Lemma cartao_aceito_consta_no_relatorio_witness :
  "  [TAG 0]: 00000000"
  ∈ console (listarInfosIniciais ambVazio (cadastrarTags 1 0 mundoInicial)).
Proof.
  assert (Hv : verificarTagNaEEPROM "00000000" (cadastrarTags 1 0 mundoInicial)
               = true) by (vm_compute; reflexivity).
  destruct (cartao_aceito_consta_no_relatorio ambVazio "00000000"
              (cadastrarTags 1 0 mundoInicial) Hv) as (k & Hk & Hin).
  assert (Hq : lerQtdTags (cadastrarTags 1 0 mundoInicial) = 1)
    by (vm_compute; reflexivity).
  assert (k = 0) as -> by lia.
  exact Hin.
Defined.

End Relatorio.
